(** * Clinic-Booking: slot and booking consistency core

    A shallow embedding of the booking core of the Clinic-Booking backend
    (Express + Mongoose):

    - [backend/models/Booking.js], [backend/models/Slot.js]: schemas and
      their [pre('save')] hooks;
    - [backend/controllers/bookingController.js]: [bookSlot], [cancelBooking],
      [getMyBookings], [getAllBookings];
    - [backend/controllers/slotController.js]: [getAllSlots],
      [getAvailableSlots], [generateSlots], [addSlot], [removeSlot];
    - [backend/routes/bookings.js], [backend/routes/slots.js]:
      [bookSlotValidation] and the route chains;
    - [backend/middleware/auth.js]: [authenticateToken], [requireRole];
    - [backend/utils/seedDatabase.js]: the seeding of the slots.

    Instants are JavaScript time values: integers counting milliseconds
    since the epoch, on the UTC time line.  Document identifiers
    (ObjectIds) are natural numbers; their textual form is 24 hexadecimal
    digits.  The two collections are finite maps from identifier to
    document; the store also keeps the identifiers of removed slots, which
    are never issued again.  Every [async] handler is a resumption: a tree whose nodes
    are the [await]ed store operations, so that the same handler text can
    be run alone (sequentially) or interleaved with other requests at its
    [await] points.

    The first part holds the model; the second part, from [Properties]
    on, holds what is proved of it: the handlers served alone in closed
    form, a small logic of tasks, and then the properties of booking,
    cancelling, the status of a booking, the [isBooked] flag, the booking
    store, requests in flight together, listing and generating slots. *)

From Stdlib Require Import ZArith NArith Ascii String List Lia Bool.
From stdpp Require Import base numbers option list sorting strings gmap fin_maps.

Local Open Scope string_scope.
Local Open Scope list_scope.
Local Open Scope Z_scope.

(** ** Time values *)

Module Time.

Definition msPerMinute : Z := 1000 * 60.
Definition msPerHour : Z := 1000 * 60 * 60.
Definition msPerDay : Z := 1000 * 60 * 60 * 24.

(** Day number (days since the epoch) of an instant on the UTC calendar. *)
Definition utcDay (t : Z) : Z := t / msPerDay.

(** [new Date(Date.UTC(d.getUTCFullYear(), d.getUTCMonth(), d.getUTCDate(), h, m, s))]:
    the instant [h:m:s] on the UTC calendar day of [d], for dates off the
    years 0 to 99.  [Date.UTC] reads a two-digit year as 19xx:
    [Calendar.Date_UTC] below has that reading, and [utcAt_Date_UTC] shows
    that the two agree everywhere else, in particular from the year 100
    on. *)
Definition utcAt (d : Z) (h m s : Z) : Z :=
  utcDay d * msPerDay + h * msPerHour + m * msPerMinute + s * 1000.

(** Local clock: a constant offset [tz] (milliseconds east of UTC);
    daylight saving shifts are not modelled. *)
Definition localDay (tz t : Z) : Z := (t + tz) / msPerDay.

(** [d.getDay()]: day of the week of the local calendar day, 0 = Sunday,
    6 = Saturday.  The epoch day was a Thursday. *)
Definition getDay (tz t : Z) : Z := (localDay tz t + 4) mod 7.

(** [d.getUTCDay()]. *)
Definition getUTCDay (t : Z) : Z := (utcDay t + 4) mod 7.

(** [d.setDate(d0.getDate() + n)] on a copy [d] of [d0]: the same local
    wall-clock time [n] local calendar days later. *)
Definition setDatePlus (t : Z) (n : Z) : Z := t + n * msPerDay.

(** [d.setUTCDate(d.getUTCDate() + n)]. *)
Definition setUTCDatePlus (t : Z) (n : Z) : Z := t + n * msPerDay.

(** [d.setUTCMinutes(d.getUTCMinutes() + n)]. *)
Definition setUTCMinutesPlus (t : Z) (n : Z) : Z := t + n * msPerMinute.

(** [now.setHours(0, 0, 0, 0)]: local midnight of the local day of [t]. *)
Definition setHours0 (tz t : Z) : Z := localDay tz t * msPerDay - tz.

(** [Math.ceil(a / b)] for an integer [a] and a positive integer [b]. *)
Definition ceilDiv (a b : Z) : Z := - ((- a) / b).

End Time.

(** ** Object identifiers *)

Module ObjectId.

Definition hexDigit (c : ascii) : option N :=
  let n := N_of_ascii c in
  if ((48 <=? n) && (n <=? 57))%N then Some (n - 48)%N
  else if ((97 <=? n) && (n <=? 102))%N then Some (n - 87)%N
  else if ((65 <=? n) && (n <=? 70))%N then Some (n - 55)%N
  else None.

Fixpoint hexValue (s : string) (acc : N) : option N :=
  match s with
  | EmptyString => Some acc
  | String c s' =>
      match hexDigit c with
      | Some d => hexValue s' (16 * acc + d)%N
      | None => None
      end
  end.

(** What Mongoose's ObjectId cast accepts from a request string: 24
    hexadecimal digits.  (Older drivers also accept any 12-character
    string as raw bytes; that legacy form is not modelled.) *)
Definition cast (s : string) : option N :=
  if Nat.eqb (String.length s) 24 then hexValue s 0%N else None.

(** One or more hexadecimal digits: [[0-9A-F]+], case-insensitive. *)
Fixpoint allHex (s : string) : bool :=
  match s with
  | EmptyString => true
  | String c s' => match hexDigit c with Some _ => allHex s' | None => false end
  end.

Definition hexDigits (s : string) : bool :=
  negb (String.eqb s "") && allHex s.

(** validator.js [isHexadecimal(str)]: the pattern
    [/^(0x|0h)?[0-9A-F]+$/i]. *)
Definition isHexadecimal (s : string) : bool :=
  hexDigits s ||
  match s with
  | String "0" (String p digits) =>
      (Ascii.eqb p "x" || Ascii.eqb p "X" || Ascii.eqb p "h" || Ascii.eqb p "H")
      && hexDigits digits
  | _ => false
  end.

(** express-validator's [isMongoId()], which is validator.js
    [isHexadecimal(str) && str.length === 24]: 24 hexadecimal digits, or
    a [0x] or [0h] prefix and 22 of them. *)
Definition isMongoId (s : string) : bool :=
  isHexadecimal s && Nat.eqb (String.length s) 24.

End ObjectId.

(** ** Documents and collections *)

Inductive Status := confirmed | cancelled | completed.

Inductive Role := patient | admin.

Record Slot := mkSlot {
  startAt : Z;
  endAt : Z;
  isBooked : bool
}.

Record Booking := mkBooking {
  userId : N;
  slotId : N;
  status : Status;
  createdAt : Z
}.

Record User := mkUser {
  user_id : N;
  role : Role
}.

(** The store: the two collections, and the identifiers of the slots that
    were removed.  The driver never issues an ObjectId twice, so a new slot
    gets an identifier that no stored and no removed slot has had. *)
Record Db := mkDb {
  slots : gmap N Slot;
  bookings : gmap N Booking;
  retired : gset N
}.

#[global] Instance Status_eq_dec : EqDecision Status.
Proof. solve_decision. Defined.

#[global] Instance Role_eq_dec : EqDecision Role.
Proof. solve_decision. Defined.

#[global] Instance Slot_eq_dec : EqDecision Slot.
Proof. solve_decision. Defined.

#[global] Instance Booking_eq_dec : EqDecision Booking.
Proof. solve_decision. Defined.

Definition emptyDb : Db := mkDb ∅ ∅ ∅.

Definition setIsBooked (v : bool) (s : Slot) : Slot :=
  mkSlot (startAt s) (endAt s) v.

Definition setStatus (v : Status) (b : Booking) : Booking :=
  mkBooking (userId b) (slotId b) v (createdAt b).

(** [slotSchema.virtual('durationMinutes')]:
    [Math.round((endAt - startAt) / (1000 * 60))], round half up. *)
Definition durationMinutes (s : Slot) : Z :=
  (2 * (endAt s - startAt s) + Time.msPerMinute) / (2 * Time.msPerMinute).

(** ** Errors and responses *)

(** What a store call or a hook can throw. Only a driver error carries a
    numeric [code]. *)
Inductive exn :=
| CastError
| MongoServerError (code : N)
| DocumentNotFoundError
| Error (message : string).

Definition exn_code (e : exn) : option N :=
  match e with
  | MongoServerError c => Some c
  | _ => None
  end.

Record SlotView := mkSlotView {
  sv_id : N;
  sv_startAt : Z;
  sv_endAt : Z;
  sv_durationMinutes : Z;
  sv_isBooked : bool
}.

(** HTTP responses: [res.status(s).json({ error: { code, ... } })] and the
    success bodies of the handlers. *)
Inductive response :=
| ErrorResponse (httpStatus : nat) (code : string)
| BookingCreated (id : N) (slot : N) (slotStart slotEnd : Z) (st : Status) (created : Z)
| BookingCancelled (id : N) (st : Status)
| SlotsListed (groups : list (Z * list SlotView)) (totalSlots : nat) (fromDate toDate : Z)
| SlotsGenerated (slotsGenerated : nat) (fromDate toDate : Z)
| SlotAdded (id : N) (slotStart slotEnd : Z) (duration : Z)
| SlotRemoved.

Definition httpStatus_of (r : response) : nat :=
  match r with
  | ErrorResponse s _ => s
  | BookingCreated _ _ _ _ _ _ => 201
  | SlotAdded _ _ _ _ => 201
  | _ => 200
  end.

Definition code_of (r : response) : option string :=
  match r with
  | ErrorResponse _ c => Some c
  | _ => None
  end.

(** ** Handlers as resumptions *)

(** A computation that finishes with a value, throws, or awaits one atomic
    store operation and resumes with its result. *)
Inductive task (A : Type) : Type :=
| Ret (a : A)
| Throw (e : exn)
| Await {X : Type} (op : Db -> Db * X) (k : X -> task A).

Arguments Ret {A} a.
Arguments Throw {A} e.
Arguments Await {A X} op k.

Notation "'let!' x ':=' op 'in' k" := (Await op (fun x => k))
  (at level 10, x pattern, op at level 100, k at level 200).

Fixpoint bind {A B : Type} (t : task A) (f : A -> task B) : task B :=
  match t with
  | Ret a => f a
  | Throw e => Throw e
  | Await op k => Await op (fun x => bind (k x) f)
  end.

(** [try { t } catch (error) { h error }]. *)
Fixpoint catch {A : Type} (t : task A) (h : exn -> task A) : task A :=
  match t with
  | Ret a => Ret a
  | Throw e => h e
  | Await op k => Await op (fun x => catch (k x) h)
  end.

(** Running a task alone, to completion. *)
Fixpoint run {A : Type} (t : task A) (db : Db) : Db * (exn + A) :=
  match t with
  | Ret a => (db, inr a)
  | Throw e => (db, inl e)
  | Await op k => let '(db', x) := op db in run (k x) db'
  end.

(** A request handled with no other request in flight. An error escaping
    the handler is answered by the framework's default 500. *)
Definition exec (t : task response) (db : Db) : Db * response :=
  match run t db with
  | (db', inr r) => (db', r)
  | (db', inl _) => (db', ErrorResponse 500 "INTERNAL_SERVER_ERROR")
  end.

(** ** Store operations (each one atomic) *)

(** [Slot.findById(id)], [Booking.findById(id)] on a cast identifier. *)
Definition Slot_findById (id : N) (db : Db) : Db * option Slot :=
  (db, slots db !! id).

Definition Booking_findById (id : N) (db : Db) : Db * option Booking :=
  (db, bookings db !! id).

(** MongoDB's filter [{ startAt: { $lt: e }, endAt: { $gt: s } }]. *)
Definition overlapsWindow (s e : Z) (x : Slot) : bool :=
  (startAt x <? e) && (s <? endAt x).

(** [Slot.find({ startAt: { $lt: e }, endAt: { $gt: s } }).distinct('_id')]. *)
Definition Slot_distinctOverlapping (s e : Z) (db : Db) : Db * list N :=
  (db, map fst (List.filter (fun kv => overlapsWindow s e (snd kv))
                            (map_to_list (slots db)))).

(** The filter [{ userId, status: 'confirmed', slotId: { $in: ids } }]. *)
Definition confirmedIn (uid : N) (ids : list N) (b : Booking) : bool :=
  (userId b =? uid)%N && bool_decide (status b = confirmed)
  && existsb (N.eqb (slotId b)) ids.

(** [Booking.findOne({ userId, status: 'confirmed', slotId: { $in: ids } })]. *)
Definition Booking_findOneConfirmedIn (uid : N) (ids : list N) (db : Db)
  : Db * option (N * Booking) :=
  (db, List.find (fun kv => confirmedIn uid ids (snd kv))
                 (map_to_list (bookings db))).

(** The update a document [save()] or [findByIdAndUpdate] sends for the
    [isBooked] path: [{ _id: id }, { $set: { isBooked: v } }]; answers the
    updated document, or nothing when no document has that id. *)
Definition Slot_updateIsBooked (id : N) (v : bool) (db : Db) : Db * option Slot :=
  match slots db !! id with
  | Some s => (mkDb (<[id := setIsBooked v s]> (slots db)) (bookings db) (retired db),
               Some (setIsBooked v s))
  | None => (db, None)
  end.

(** The update [booking.save()] sends for the [status] path. *)
Definition Booking_updateStatus (id : N) (v : Status) (db : Db) : Db * bool :=
  match bookings db !! id with
  | Some b => (mkDb (slots db) (<[id := setStatus v b]> (bookings db)) (retired db), true)
  | None => (db, false)
  end.

(** Insertion of a new booking document under a new identifier.  The
    schema declares [index: true] on [userId] and [slotId] and nothing
    unique, so the collection accepts every document. *)
Definition Booking_insert (b : Booking) (db : Db) : Db * N :=
  let id := fresh (dom (bookings db)) in
  (mkDb (slots db) (<[id := b]> (bookings db)) (retired db), id).

(** The identifier the next new slot gets: one that no stored slot has and
    no removed slot had. *)
Definition newSlotId (db : Db) : N := fresh (dom (slots db) ∪ retired db).

(** [Slot.insertMany(docs)], [slot.save()] of a new slot. *)
Definition Slot_insert (s : Slot) (db : Db) : Db * N :=
  let id := newSlotId db in
  (mkDb (<[id := s]> (slots db)) (bookings db) (retired db), id).

Definition Slot_insertMany (docs : list Slot) (db : Db) : Db * unit :=
  (fold_left (fun d s => fst (Slot_insert s d)) docs db, tt).

(** [Slot.findOne({ startAt: s, endAt: e })]. *)
Definition Slot_findOneWindow (s e : Z) (db : Db) : Db * option (N * Slot) :=
  (db, List.find (fun kv => (startAt (snd kv) =? s) && (endAt (snd kv) =? e))
                 (map_to_list (slots db))).

(** [Slot.findByIdAndDelete(id)]: the identifier of a deleted slot is
    retired. *)
Definition Slot_findByIdAndDelete (id : N) (db : Db) : Db * unit :=
  match slots db !! id with
  | Some _ => (mkDb (delete id (slots db)) (bookings db) ({[id]} ∪ retired db), tt)
  | None => (db, tt)
  end.

(** ** Model hooks *)

(** [slotSchema.pre('save')] followed by the update of the modified
    [isBooked] path of an existing slot document. *)
Definition Slot_save (id : N) (s : Slot) : task unit :=
  if endAt s <=? startAt s then Throw (Error "Start time must be before end time")
  else
    let! r := Slot_updateIsBooked id (isBooked s) in
    match r with
    | Some _ => Ret tt
    | None => Throw DocumentNotFoundError
    end.

(** [bookingSchema.pre('save')]. *)
Definition Booking_preSave (isNew : bool) (this : Booking) : task unit :=
  catch
    (if negb isNew then Ret tt
     else
       let! slot := Slot_findById (slotId this) in
       match slot with
       | None => Throw (Error "Slot not found")
       | Some slot =>
           if isBooked slot then Throw (Error "Slot is already booked")
           else Slot_save (slotId this) (setIsBooked true slot)
       end)
    (fun error => Throw error).

(** [booking.save()] of a document made by [new Booking(...)]. *)
Definition Booking_saveNew (this : Booking) : task N :=
  bind (Booking_preSave true this) (fun _ =>
  let! id := Booking_insert this in
  Ret id).

(** [booking.save()] of a loaded document whose [status] was assigned. *)
Definition Booking_saveStatus (id : N) (this : Booking) : task unit :=
  bind (Booking_preSave false this) (fun _ =>
  let! ok := Booking_updateStatus id (status this) in
  if ok : bool then Ret tt else Throw DocumentNotFoundError).

(** ** Booking controller *)

(** JavaScript truthiness of an optional request string: [!x] holds for a
    missing field and for the empty string. *)
Definition truthy (x : option string) : bool :=
  match x with
  | None => false
  | Some s => negb (String.eqb s "")
  end.

Record BookRequest := mkBookRequest {
  req_user : User;
  body_slotId : option string;
  validationErrors : list string
}.

(** [bookSlot]. *)
Definition bookSlot (req : BookRequest) (now : Z) : task response :=
  catch
    (let slotId := body_slotId req in
     let userId := user_id (req_user req) in
     if negb (truthy slotId) then Ret (ErrorResponse 400 "MISSING_SLOT_ID")
     else
       match ObjectId.cast (default "" slotId) with
       | None => Throw CastError
       | Some sid =>
           let! slot := Slot_findById sid in
           match slot with
           | None => Ret (ErrorResponse 404 "SLOT_NOT_FOUND")
           | Some slot =>
               if isBooked slot then Ret (ErrorResponse 409 "SLOT_TAKEN")
               else if startAt slot <? now then Ret (ErrorResponse 400 "PAST_SLOT")
               else
                 let! ids := Slot_distinctOverlapping (startAt slot) (endAt slot) in
                 let! existingBooking := Booking_findOneConfirmedIn userId ids in
                 match existingBooking with
                 | Some _ => Ret (ErrorResponse 409 "OVERLAPPING_BOOKING")
                 | None =>
                     bind (Booking_saveNew (mkBooking userId sid confirmed now))
                       (fun id =>
                     let! _ := Slot_findById sid in
                     Ret (BookingCreated id sid (startAt slot) (endAt slot)
                                         confirmed now))
                 end
           end
       end)
    (fun error =>
       if bool_decide (exn_code error = Some 11000%N)
       then Ret (ErrorResponse 409 "SLOT_TAKEN")
       else Ret (ErrorResponse 500 "BOOKING_ERROR")).

(** [cancelBooking]. *)
Definition cancelBooking (user : User) (bookingId : string) (now : Z) : task response :=
  catch
    (match ObjectId.cast bookingId with
     | None => Throw CastError
     | Some bid =>
         let! booking := Booking_findById bid in
         match booking with
         | None => Ret (ErrorResponse 404 "BOOKING_NOT_FOUND")
         | Some booking =>
             if negb (userId booking =? user_id user)%N
                && negb (bool_decide (role user = admin))
             then Ret (ErrorResponse 403 "INSUFFICIENT_PERMISSIONS")
             else
               let! slot := Slot_findById (slotId booking) in
               match slot with
               | None => Ret (ErrorResponse 404 "SLOT_NOT_FOUND")
               | Some slot =>
                   if startAt slot <? now
                   then Ret (ErrorResponse 400 "PAST_BOOKING")
                   else
                     bind (Booking_saveStatus bid (setStatus cancelled booking))
                       (fun _ =>
                     let! updatedSlot := Slot_updateIsBooked (slotId booking) false in
                     match updatedSlot with
                     | None => Ret (ErrorResponse 500 "SLOT_UPDATE_FAILED")
                     | Some _ => Ret (BookingCancelled bid cancelled)
                     end)
               end
         end
     end)
    (fun _ => Ret (ErrorResponse 500 "CANCEL_BOOKING_ERROR")).

(** ** Booking routes *)

(** [bookSlotValidation = [ body('slotId').isMongoId().withMessage(...) ]]:
    the validation chain records its finding on the request and passes
    the request on. *)
Definition bookSlotValidation (req : BookRequest) : BookRequest :=
  let ok := match body_slotId req with
            | Some s => ObjectId.isMongoId s
            | None => false
            end in
  mkBookRequest (req_user req) (body_slotId req)
    (if ok then validationErrors req
     else validationErrors req ++ ["Please provide a valid slot ID"]).

(** [requireRole(roles)]. *)
Definition requireRole (roles : list Role) (user : User) (next : task response)
  : task response :=
  if bool_decide (role user ∈ roles) then next
  else Ret (ErrorResponse 403 "INSUFFICIENT_PERMISSIONS").

Definition requirePatient := requireRole [patient].
Definition requireAdmin := requireRole [admin].

(** [router.post('/book', authenticateToken, requirePatient,
    bookSlotValidation, bookingController.bookSlot)], for an authenticated
    user. *)
Definition POST_book (user : User) (slotId : option string) (now : Z) : task response :=
  requirePatient user
    (bookSlot (bookSlotValidation (mkBookRequest user slotId [])) now).

(** [router.patch('/bookings/:bookingId/cancel', authenticateToken,
    bookingController.cancelBooking)]. *)
Definition PATCH_cancel (user : User) (bookingId : string) (now : Z) : task response :=
  cancelBooking user bookingId now.

(** ** Slot controller *)

(** The order of [.sort({ startAt: 1 })]. *)
Definition byStartAt (a b : N * Slot) : Prop :=
  startAt (snd a) <= startAt (snd b).

#[global] Instance byStartAt_dec : RelDecision byStartAt.
Proof. intros a b. unfold byStartAt. apply _. Defined.

(** [Slot.find({ startAt: { $gte: lo, $lte: hi } [, isBooked: false] })
    .sort({ startAt: 1 })]. *)
Definition Slot_findRange (lo hi : Z) (onlyFree : bool) (db : Db)
  : Db * list (N * Slot) :=
  (db, merge_sort byStartAt
         (List.filter (fun kv => (lo <=? startAt (snd kv)) && (startAt (snd kv) <=? hi)
                                 && (negb onlyFree || negb (isBooked (snd kv))))
                      (map_to_list (slots db)))).

Definition slotView (kv : N * Slot) : SlotView :=
  mkSlotView (fst kv) (startAt (snd kv)) (endAt (snd kv))
             (durationMinutes (snd kv)) (isBooked (snd kv)).

(** [slotsByDate[dateKey].push(...)], creating the entry when absent; the
    key [toISOString().split('T')[0]] names the UTC calendar day. *)
Fixpoint pushByDate (dateKey : Z) (v : SlotView) (g : list (Z * list SlotView))
  : list (Z * list SlotView) :=
  match g with
  | [] => [(dateKey, [v])]
  | (k, vs) :: g' =>
      if k =? dateKey then (k, vs ++ [v]) :: g'
      else (k, vs) :: pushByDate dateKey v g'
  end.

Definition groupByDate (found : list (N * Slot)) : list (Z * list SlotView) :=
  fold_left (fun g kv => pushByDate (Time.utcDay (startAt (snd kv))) (slotView kv) g)
            found [].

(** A loop [for (x of xs) { acc = await body(x, acc) }] over an
    accumulator. *)
Fixpoint forEach {A S : Type} (xs : list A) (body : A -> S -> task S) (acc : S)
  : task S :=
  match xs with
  | [] => Ret acc
  | x :: xs' => bind (body x acc) (forEach xs' body)
  end.

Section SlotController.

(** [new Date(s).getTime()] for a request string: the time value, or
    nothing for an Invalid Date.  Which strings parse is the engine's
    business. *)
Variable Date_parse : string -> option Z.

(** The server's local clock, milliseconds east of UTC. *)
Variable tz : Z.

(** [new Date(Date.UTC(new Date(s).getUTCFullYear(), new Date(s).getUTCMonth(),
    new Date(s).getUTCDate(), h, m, sec))]; an Invalid Date stays invalid. *)
Definition resolveDate (s : option string) (h m sec : Z) : option Z :=
  match Date_parse (default "" s) with
  | Some t => Some (Time.utcAt t h m sec)
  | None => None
  end.

(** [getAllSlots] (admin listing). *)
Definition getAllSlots (from to : option string) : task response :=
  catch
    (if negb (truthy from) || negb (truthy to)
     then Ret (ErrorResponse 400 "MISSING_DATES")
     else
       match resolveDate from 0 0 0, resolveDate to 23 59 59 with
       | Some fromDate, Some toDate =>
           let! found := Slot_findRange fromDate toDate false in
           Ret (SlotsListed (groupByDate found) (length found) fromDate toDate)
       | _, _ => Ret (ErrorResponse 400 "INVALID_DATE_FORMAT")
       end)
    (fun _ => Ret (ErrorResponse 500 "SLOTS_ERROR")).

(** [getAvailableSlots] (patient-facing listing). *)
Definition getAvailableSlots (from to includeBooked : option string) (now : Z)
  : task response :=
  catch
    (if negb (truthy from) || negb (truthy to)
     then Ret (ErrorResponse 400 "MISSING_DATES")
     else
       match resolveDate from 0 0 0, resolveDate to 23 59 59 with
       | Some fromDate, Some toDate =>
           if fromDate <? Time.setHours0 tz now
           then Ret (ErrorResponse 400 "PAST_DATE")
           else
             let daysDiff := Time.ceilDiv (toDate - fromDate) (1000 * 60 * 60 * 24) in
             if 7 <? daysDiff
             then Ret (ErrorResponse 400 "DATE_RANGE_TOO_LARGE")
             else
               let! found := Slot_findRange fromDate toDate
                               (negb (truthy includeBooked)) in
               Ret (SlotsListed (groupByDate found) (length found) fromDate toDate)
       | _, _ => Ret (ErrorResponse 400 "INVALID_DATE_FORMAT")
       end)
    (fun _ => Ret (ErrorResponse 500 "SLOTS_ERROR")).

(** The body of the innermost loop of [generateSlots]. *)
Definition generateSlots_slot (currentDate hour minute : Z) (acc : list Slot)
  : task (list Slot) :=
  let slotStart := Time.utcAt currentDate hour minute 0 in
  let slotEnd := Time.setUTCMinutesPlus slotStart 30 in
  let! existingSlot := Slot_findOneWindow slotStart slotEnd in
  match existingSlot with
  | None => Ret (acc ++ [mkSlot slotStart slotEnd false])
  | Some _ => Ret acc
  end.

(** The loops of [generateSlots], building the [slots] array. *)
Definition generateSlots_loop (startDate days : Z) : task (list Slot) :=
  forEach (seqZ 0 days)
    (fun day acc =>
       let currentDate := Time.setDatePlus startDate day in
       if (Time.getDay tz currentDate =? 0) || (Time.getDay tz currentDate =? 6)
       then Ret acc
       else
         forEach (seqZ 9 8)
           (fun hour acc =>
              forEach [0; 30]
                (fun minute acc => generateSlots_slot currentDate hour minute acc)
                acc)
           acc)
    [].

(** [generateSlots]; [days] defaults to 7 when the body has none. *)
Definition generateSlots (body_days : option Z) (now : Z) : task response :=
  catch
    (let days := default 7 body_days in
     if (days <? 1) || (30 <? days)
     then Ret (ErrorResponse 400 "INVALID_DAYS")
     else
       let tomorrow := Time.setUTCDatePlus now 1 in
       let startDate := Time.utcAt tomorrow 9 0 0 in
       bind (generateSlots_loop startDate days) (fun docs =>
       bind (if (0 <? length docs)%nat
             then (let! _ := Slot_insertMany docs in Ret tt)
             else Ret tt) (fun _ =>
       Ret (SlotsGenerated (length docs) startDate
              (startDate + (days - 1) * 24 * 60 * 60 * 1000)))))
    (fun _ => Ret (ErrorResponse 500 "GENERATE_SLOTS_ERROR")).

(** [addSlot]. *)
Definition addSlot (body_startAt body_endAt : option string) : task response :=
  catch
    (if negb (truthy body_startAt) || negb (truthy body_endAt)
     then Ret (ErrorResponse 400 "MISSING_DATES")
     else
       match Date_parse (default "" body_startAt),
             Date_parse (default "" body_endAt) with
       | Some startDate, Some endDate =>
           if endDate <=? startDate
           then Ret (ErrorResponse 400 "INVALID_TIME_RANGE")
           else
             let! existingSlot := Slot_findOneWindow startDate endDate in
             match existingSlot with
             | Some _ => Ret (ErrorResponse 409 "SLOT_EXISTS")
             | None =>
                 let slot := mkSlot startDate endDate false in
                 if endAt slot <=? startAt slot
                 then Throw (Error "Start time must be before end time")
                 else
                   let! id := Slot_insert slot in
                   Ret (SlotAdded id startDate endDate (durationMinutes slot))
             end
       | _, _ => Ret (ErrorResponse 400 "INVALID_DATE_FORMAT")
       end)
    (fun _ => Ret (ErrorResponse 500 "ADD_SLOT_ERROR")).

End SlotController.

(** [removeSlot]. *)
Definition removeSlot (slotId : string) : task response :=
  catch
    (match ObjectId.cast slotId with
     | None => Throw CastError
     | Some sid =>
         let! slot := Slot_findById sid in
         match slot with
         | None => Ret (ErrorResponse 404 "SLOT_NOT_FOUND")
         | Some slot =>
             if isBooked slot then Ret (ErrorResponse 400 "SLOT_BOOKED")
             else
               let! _ := Slot_findByIdAndDelete sid in
               Ret SlotRemoved
         end
     end)
    (fun _ => Ret (ErrorResponse 500 "REMOVE_SLOT_ERROR")).

(** ** Slot routes and the request stream *)

Inductive request :=
| Book (user : User) (slotId : option string)
| Cancel (user : User) (bookingId : string)
| Generate (user : User) (days : option Z)
| AddSlot (user : User) (startAt endAt : option string)
| RemoveSlot (user : User) (slotId : string)
| ListSlots (user : User) (from to includeBooked : option string)
| ListAllSlots (user : User) (from to : option string).

(** The route table, for an authenticated user. *)
Definition handle (Date_parse : string -> option Z) (tz : Z)
    (r : request) (now : Z) : task response :=
  match r with
  | Book user slotId => POST_book user slotId now
  | Cancel user bookingId => PATCH_cancel user bookingId now
  | Generate user days => requireAdmin user (generateSlots tz days now)
  | AddSlot user s e => requireAdmin user (addSlot Date_parse s e)
  | RemoveSlot user slotId => requireAdmin user (removeSlot slotId)
  | ListSlots user from to includeBooked =>
      getAvailableSlots Date_parse tz from to includeBooked now
  | ListAllSlots user from to => requireAdmin user (getAllSlots Date_parse from to)
  end.

(** Requests served one after the other, each at its own clock reading. *)
Definition serve (Date_parse : string -> option Z) (tz : Z)
    (trace : list (request * Z)) (db : Db) : Db :=
  fold_left (fun d rq => fst (exec (handle Date_parse tz (fst rq) (snd rq)) d))
            trace db.

Definition reachable (Date_parse : string -> option Z) (tz : Z) (db : Db) : Prop :=
  exists trace, serve Date_parse tz trace emptyDb = db.

(** ** Requests in flight together *)

(** The task performs its pending store operation and resumes up to its
    next [await]. *)
Definition resume {A : Type} (t : task A) (db : Db) : Db * task A :=
  match t with
  | Await op k => let '(db', x) := op db in (db', k x)
  | _ => (db, t)
  end.

(** A schedule names, step by step, the request that resumes next. *)
Fixpoint interleave {A : Type} (schedule : list nat) (pool : list (task A)) (db : Db)
  : Db * list (task A) :=
  match schedule with
  | [] => (db, pool)
  | i :: rest =>
      match pool !! i with
      | Some t => let '(db', t') := resume t db in
                  interleave rest (<[i := t']> pool) db'
      | None => interleave rest pool db
      end
  end.

(** The response a finished handler has sent. *)
Definition answer (t : task response) : option response :=
  match t with
  | Ret r => Some r
  | _ => None
  end.

(** ** Properties of a store state *)

(** Half-open windows [[startAt, endAt)] share an instant. *)
Definition intersects (a b : Slot) : Prop :=
  startAt a < endAt b /\ startAt b < endAt a.

(** The user holds a confirmed booking whose slot's window intersects the
    candidate's. *)
Definition holdsIntersecting (db : Db) (uid : N) (candidate : Slot) : Prop :=
  exists bid b s,
    bookings db !! bid = Some b /\ userId b = uid /\ status b = confirmed /\
    slots db !! slotId b = Some s /\ intersects s candidate.

(** The confirmed bookings that reference a slot. *)
Definition confirmedFor (db : Db) (sid : N) : list (N * Booking) :=
  List.filter (fun kv => bool_decide (slotId (snd kv) = sid /\ status (snd kv) = confirmed))
              (map_to_list (bookings db)).

(** The [isBooked] flag mirrors the confirmed bookings. *)
Definition flagInSync (db : Db) : Prop :=
  forall sid s, slots db !! sid = Some s ->
    (isBooked s = true <-> length (confirmedFor db sid) = 1%nat).

(** ** The generator as the specification words it *)

Module Spec.

(** Saturday or Sunday, for a day number on the canonical clock. *)
Definition isWeekend (day : Z) : bool :=
  ((day + 4) mod 7 =? 0) || ((day + 4) mod 7 =? 6).

(** The [i]-th thirty-minute window after 09:00 of a day. *)
Definition window (day i : Z) : Slot :=
  let s := day * Time.msPerDay + 9 * Time.msPerHour + i * (30 * Time.msPerMinute) in
  mkSlot s (s + 30 * Time.msPerMinute) false.

(** 16 thirty-minute slots from 09:00 to 17:00. *)
Definition daySlots (day : Z) : list Slot :=
  map (window day) (seqZ 0 16).

(** For each day of [[startDay, startDay + days)] that is not a weekend,
    that day's slots, in order. *)
Definition generateWeekdaySlots (startDay days : Z) : list Slot :=
  flat_map (fun d => if isWeekend (startDay + d) then [] else daySlots (startDay + d))
           (seqZ 0 days).

(** The generated slots that start on a given day. *)
Definition onDay (day : Z) (l : list Slot) : list Slot :=
  List.filter (fun s => Time.utcDay (startAt s) =? day) l.

End Spec.

(** Whether the store already holds a slot with this exact window. *)
Definition windowExists (db : Db) (s : Slot) : bool :=
  match snd (Slot_findOneWindow (startAt s) (endAt s) db) with
  | Some _ => true
  | None => false
  end.

(** ** Date-only strings *)

Module IsoDate.

Definition digit (c : ascii) : option Z :=
  let n := Z.of_N (N_of_ascii c) in
  if (48 <=? n) && (n <=? 57) then Some (n - 48) else None.

Fixpoint number (cs : list ascii) (acc : Z) : option Z :=
  match cs with
  | [] => Some acc
  | c :: cs' =>
      match digit c with
      | Some d => number cs' (10 * acc + d)
      | None => None
      end
  end.

(** Days from the epoch to a date of the proleptic Gregorian calendar. *)
Definition daysFromCivil (y m d : Z) : Z :=
  let y' := if m <=? 2 then y - 1 else y in
  let era := y' / 400 in
  let yoe := y' - era * 400 in
  let mp := (m + 9) mod 12 in
  let doy := (153 * mp + 2) / 5 + d - 1 in
  let doe := yoe * 365 + yoe / 4 - yoe / 100 + doy in
  era * 146097 + doe - 719468.

(** [new Date("YYYY-MM-DD").getTime()]: midnight UTC of that date; any
    other string is treated as unparseable. *)
Definition parse (s : string) : option Z :=
  match list_ascii_of_string s with
  | [y1; y2; y3; y4; "-"%char; m1; m2; "-"%char; d1; d2] =>
      match number [y1; y2; y3; y4] 0, number [m1; m2] 0, number [d1; d2] 0 with
      | Some y, Some m, Some d =>
          if (1 <=? m) && (m <=? 12) && (1 <=? d) && (d <=? 31)
          then Some (daysFromCivil y m d * Time.msPerDay)
          else None
      | _, _, _ => None
      end
  | _ => None
  end.

End IsoDate.

(** ** Handlers served alone *)

(** The overlap check of [bookSlot]: both queries, one after the other. *)
Definition hasOverlap (db : Db) (uid : N) (candidate : Slot) : bool :=
  let ids := snd (Slot_distinctOverlapping (startAt candidate) (endAt candidate) db) in
  match snd (Booking_findOneConfirmedIn uid ids db) with
  | Some _ => true
  | None => false
  end.

(** What [bookSlot] does once the slot is found, free and not past. *)
Definition bookOutcome (db : Db) (uid sid : N) (slot : Slot) (now : Z) : Db * response :=
  if hasOverlap db uid slot then (db, ErrorResponse 409 "OVERLAPPING_BOOKING")
  else if endAt slot <=? startAt slot then (db, ErrorResponse 500 "BOOKING_ERROR")
  else
    let bid := fresh (dom (bookings db)) in
    (mkDb (<[sid := setIsBooked true slot]> (slots db))
          (<[bid := mkBooking uid sid confirmed now]> (bookings db))
          (retired db),
     BookingCreated bid sid (startAt slot) (endAt slot) confirmed now).

(** [bookSlot] served alone, in closed form. *)
Definition bookSlot_alone (db : Db) (uid : N) (slotId : option string) (now : Z)
  : Db * response :=
  match slotId with
  | None => (db, ErrorResponse 400 "MISSING_SLOT_ID")
  | Some str =>
      if String.eqb str "" then (db, ErrorResponse 400 "MISSING_SLOT_ID")
      else
        match ObjectId.cast str with
        | None => (db, ErrorResponse 500 "BOOKING_ERROR")
        | Some sid =>
            match slots db !! sid with
            | None => (db, ErrorResponse 404 "SLOT_NOT_FOUND")
            | Some slot =>
                if isBooked slot then (db, ErrorResponse 409 "SLOT_TAKEN")
                else if startAt slot <? now then (db, ErrorResponse 400 "PAST_SLOT")
                else bookOutcome db uid sid slot now
            end
        end
  end.

(** [cancelBooking] served alone, in closed form. *)
Definition cancelBooking_alone (db : Db) (user : User) (bookingId : string) (now : Z)
  : Db * response :=
  match ObjectId.cast bookingId with
  | None => (db, ErrorResponse 500 "CANCEL_BOOKING_ERROR")
  | Some bid =>
      match bookings db !! bid with
      | None => (db, ErrorResponse 404 "BOOKING_NOT_FOUND")
      | Some b =>
          if negb (userId b =? user_id user)%N && negb (bool_decide (role user = admin))
          then (db, ErrorResponse 403 "INSUFFICIENT_PERMISSIONS")
          else
            match slots db !! slotId b with
            | None => (db, ErrorResponse 404 "SLOT_NOT_FOUND")
            | Some slot =>
                if startAt slot <? now then (db, ErrorResponse 400 "PAST_BOOKING")
                else
                  (mkDb (<[slotId b := setIsBooked false slot]> (slots db))
                        (<[bid := setStatus cancelled b]> (bookings db))
                        (retired db),
                   BookingCancelled bid cancelled)
            end
      end
  end.

(** ** What a task ensures *)

(** Run alone from any store, the task leaves a store related by [R] to
    the one it found, and a value it returns satisfies [Q]. *)
Definition ensures (R : relation Db) {A : Type} (Q : A -> Prop) (t : task A) : Prop :=
  forall db, R db (fst (run t db)) /\ forall a, snd (run t db) = inr a -> Q a.

(** No slot, or a slot whose flag is clear. *)
Definition unflaggedAt (db : Db) (sid : N) : Prop :=
  match slots db !! sid with
  | Some s => isBooked s = false
  | None => True
  end.

(** The bookings are the same, and every identifier maps to the same slot
    as before or had and has no flagged slot: slots come and go
    unflagged. *)
Definition turnsOver (db db' : Db) : Prop :=
  bookings db' = bookings db /\
  forall sid, slots db' !! sid = slots db !! sid \/
              (unflaggedAt db sid /\ unflaggedAt db' sid).

(** The flag of every slot counts its confirmed bookings: one when it is
    set, none when it is clear, and none for an identifier without slot. *)
Definition inSync (db : Db) : Prop :=
  forall sid,
    length (confirmedFor db sid)
    = match slots db !! sid with
      | Some s => if isBooked s then 1%nat else 0%nat
      | None => 0%nat
      end.

(** The request does not cancel a booking that is no longer confirmed. *)
Definition cancelsConfirmedOnly (db : Db) (r : request) : Prop :=
  forall user str bid b,
    r = Cancel user str -> ObjectId.cast str = Some bid ->
    bookings db !! bid = Some b -> status b = confirmed.

(** A task that leaves the bookings collection as it found it. *)
Definition keepsBookings {A} (t : task A) : Prop :=
  forall db, bookings (fst (run t db)) = bookings db.

(** Stores reached by serving requests none of which cancels a booking
    that is no longer confirmed. *)
Inductive servedCleanly (Date_parse : string -> option Z) (tz : Z) : Db -> Prop :=
| clean_empty : servedCleanly Date_parse tz emptyDb
| clean_step db r now :
    servedCleanly Date_parse tz db ->
    cancelsConfirmedOnly db r ->
    servedCleanly Date_parse tz (fst (exec (handle Date_parse tz r now) db)).

(** ** Example stores *)

Module Examples.

(** 2025-08-25 (a Monday), on the UTC clock. *)
Definition t0900 : Z := 1756112400000.
Definition t0915 : Z := 1756113300000.
Definition t0930 : Z := 1756114200000.
Definition t0945 : Z := 1756115100000.
Definition t1000 : Z := 1756116000000.

(** An instant of 2025-08-22, before all of them. *)
Definition earlier : Z := 1755864000000.

Definition slotA : string := "000000000000000000000001".
Definition slotB : string := "000000000000000000000002".
Definition booking0 : string := "000000000000000000000000".

Definition P1 : User := mkUser 101 patient.
Definition P2 : User := mkUser 102 patient.
Definition P3 : User := mkUser 103 patient.

(** One free slot, 09:00 to 09:30. *)
Definition oneFreeSlot : Db :=
  mkDb {[ 1%N := mkSlot t0900 t0930 false ]} ∅ ∅.

(** P1 holds 09:00 to 09:30; P2 holds the overlapping 09:15 to 09:45. *)
Definition twoHeld : Db :=
  mkDb {[ 1%N := mkSlot t0900 t0930 true; 2%N := mkSlot t0915 t0945 true ]}
       {[ 0%N := mkBooking 101 1 confirmed earlier;
          1%N := mkBooking 102 2 confirmed earlier ]} ∅.

(** P1 holds 09:00 to 09:30; the touching 09:30 to 10:00 is free. *)
Definition touching : Db :=
  mkDb {[ 1%N := mkSlot t0900 t0930 true; 2%N := mkSlot t0930 t1000 false ]}
       {[ 0%N := mkBooking 101 1 confirmed earlier ]} ∅.

(** P1's booking of the slot is cancelled; P2 now holds the slot. *)
Definition rebooked : Db :=
  mkDb {[ 1%N := mkSlot t0900 t0930 true ]}
       {[ 0%N := mkBooking 101 1 cancelled earlier;
          1%N := mkBooking 102 1 confirmed earlier ]} ∅.

End Examples.

(** ** Example runs *)

Module Runs.

Definition A1 : User := mkUser 1 admin.

(** Friday 2025-08-22, 12:00:00 UTC and the seconds after it. *)
Definition clock (n : Z) : Z := Examples.earlier + n * 1000.

(** The first generated slot, Monday 2025-08-25 09:00 to 09:30, and the
    first booking. *)
Definition slot0 : string := "000000000000000000000000".
Definition booking0 : string := "000000000000000000000000".

(** An admin generates three days of slots: Saturday and Sunday yield
    none, Monday yields sixteen. *)
Definition generated : Db :=
  serve IsoDate.parse 0 [(Generate A1 (Some 3), clock 0)] emptyDb.

(** P1 books the slot and cancels; P2 books it; P1 cancels the same,
    already cancelled, booking once more. *)
Definition staleCancel : list (request * Z) :=
  [ (Generate A1 (Some 3), clock 0);
    (Book Examples.P1 (Some slot0), clock 1);
    (Cancel Examples.P1 booking0, clock 2);
    (Book Examples.P2 (Some slot0), clock 3);
    (Cancel Examples.P1 booking0, clock 4) ].

(** ... and then P3 books the slot as well. *)
Definition doubleBooked : list (request * Z) :=
  staleCancel ++ [ (Book Examples.P3 (Some slot0), clock 5) ].

(** Two patients ask for the same slot at the same time. *)
Definition racers : list (task response) :=
  [ POST_book Examples.P1 (Some slot0) (clock 1);
    POST_book Examples.P2 (Some slot0) (clock 1) ].

(** A [bookSlot] request awaits seven store operations in turn:
    [Slot.findById], [Slot.find(...).distinct], [Booking.findOne], the
    save hook's [Slot.findById], the hook's [slot.save()], the insertion
    of the booking, and [populate].  Here both requests run through their
    checks and the hook's read of the slot (four steps each) before
    either writes. *)
Definition bothReadFirst : list nat := [0; 0; 0; 0; 1; 1; 1; 1; 0; 0; 0; 1; 1; 1]%nat.

(** Both requests pass the controller's checks; then the first saves,
    then the second tries to. *)
Definition bothCheckFirst : list nat := [0; 0; 0; 1; 1; 1; 0; 0; 0; 0; 1]%nat.

End Runs.

(** * Further definitions *)

(** ** What the loops of [generateSlots] visit *)

(** The windows the three loops of [generateSlots] come to, in order,
    whatever the store holds: for each day offset whose local day is not a
    Saturday or Sunday, the sixteen half hours from 09:00 to 17:00 of the
    UTC day of that date. *)
Definition generateSlots_visits (tz startDate days : Z) : list Slot :=
  flat_map
    (fun day =>
       let currentDate := Time.setDatePlus startDate day in
       if (Time.getDay tz currentDate =? 0) || (Time.getDay tz currentDate =? 6)
       then []
       else
         flat_map
           (fun hour =>
              flat_map
                (fun minute =>
                   [mkSlot (Time.utcAt currentDate hour minute 0)
                           (Time.setUTCMinutesPlus (Time.utcAt currentDate hour minute 0) 30)
                           false])
                [0; 30])
           (seqZ 9 8))
    (seqZ 0 days).

(** The documents [generateSlots] inserts: the visited windows the store
    does not hold. *)
Definition generateSlots_docs (tz now days : Z) (db : Db) : list Slot :=
  List.filter (fun s => negb (windowExists db s))
    (generateSlots_visits tz (Time.utcAt (Time.setUTCDatePlus now 1) 9 0 0) days).

(** The pair [(startAt, endAt)] of a slot. *)
Definition windowOf (s : Slot) : Z * Z := (startAt s, endAt s).

(** No two slots of the store have the same [(startAt, endAt)]. *)
Definition distinctWindows (db : Db) : Prop :=
  forall i j s1 s2,
    slots db !! i = Some s1 -> slots db !! j = Some s2 ->
    windowOf s1 = windowOf s2 -> i = j.

(** ** Who asks *)

(** The authenticated user of a request. *)
Definition requester (r : request) : User :=
  match r with
  | Book user _ | Cancel user _ | Generate user _ | AddSlot user _ _
  | RemoveSlot user _ | ListSlots user _ _ _ | ListAllSlots user _ _ => user
  end.

(** ** One patient, one place at a time *)

(** No user holds two confirmed bookings whose slots' windows intersect. *)
Definition noOverlapPerUser (db : Db) : Prop :=
  forall i j b1 b2 s1 s2,
    i <> j ->
    bookings db !! i = Some b1 -> bookings db !! j = Some b2 ->
    userId b1 = userId b2 ->
    status b1 = confirmed -> status b2 = confirmed ->
    slots db !! slotId b1 = Some s1 -> slots db !! slotId b2 = Some s2 ->
    ~ intersects s1 s2.

(** ** Listings of bookings *)

(** The slot of a listed booking: [{ id, startAt, endAt, durationMinutes }]. *)
Record BookingView := mkBookingView {
  bv_id : N;
  bv_slot : N;
  bv_startAt : Z;
  bv_endAt : Z;
  bv_durationMinutes : Z;
  bv_status : Status;
  bv_createdAt : Z
}.


(** The answers of the two listings: an error, or
    [{ data: { bookings, total } }]. *)
Inductive listing (V : Type) : Type :=
| ListingError (httpStatus : nat) (code : string)
| Listed (bookings : list V) (total : nat).

Arguments ListingError {V} httpStatus code.
Arguments Listed {V} bookings total.

(** The order of [.sort({ createdAt: -1 })]: newest first. *)
Definition byCreatedDesc (a b : N * Booking) : Prop :=
  createdAt (snd b) <= createdAt (snd a).

#[global] Instance byCreatedDesc_dec : RelDecision byCreatedDesc.
Proof. intros a b. unfold byCreatedDesc. apply _. Defined.

(** [Booking.find(filter).sort({ createdAt: -1 })]. *)
Definition Booking_findSorted (keep : Booking -> bool) (db : Db)
  : Db * list (N * Booking) :=
  (db, merge_sort byCreatedDesc
         (List.filter (fun kv => keep (snd kv)) (map_to_list (bookings db)))).

(** [.populate('slotId')]: each found booking with the slot it references,
    or with [null] when no such slot is stored. *)
Definition Slot_populate (found : list (N * Booking)) (db : Db)
  : Db * list (N * Booking * option Slot) :=
  (db, map (fun kv => (kv, slots db !! slotId (snd kv))) found).

(** The callback of [bookings.map] in [getMyBookings]; reading
    [booking.slotId._id] of a [null] slot is a TypeError. *)
Definition formatBooking (x : N * Booking * option Slot) : option BookingView :=
  match snd x with
  | Some s =>
      Some (mkBookingView (fst (fst x)) (slotId (snd (fst x))) (startAt s) (endAt s)
              (durationMinutes s) (status (snd (fst x))) (createdAt (snd (fst x))))
  | None => None
  end.

(** [getMyBookings]. *)
Definition getMyBookings (user : User) : task (listing BookingView) :=
  catch
    (let uid := user_id user in
     let! found := Booking_findSorted (fun b => (userId b =? uid)%N) in
     let! bookings := Slot_populate found in
     match mapM formatBooking bookings with
     | Some formattedBookings =>
         Ret (Listed formattedBookings (length formattedBookings))
     | None => Throw (Error "Cannot read properties of null (reading '_id')")
     end)
    (fun _ => Ret (ListingError 500 "GET_BOOKINGS_ERROR")).

Section AllBookings.

(** The users collection, which the handlers of this model only read:
    the [name] and [email] of each stored user. *)
Variable users : gmap N (string * string).




End AllBookings.

(** The success body of the two slot listings: what [Slot.find(...).sort(...)]
    found, grouped by date, with its count and the resolved range. *)
Definition slotsListing (fromDate toDate : Z) (onlyFree : bool) (db : Db) : response :=
  let found := snd (Slot_findRange fromDate toDate onlyFree db) in
  SlotsListed (groupByDate found) (length found) fromDate toDate.

(** A group of a listing: not empty, and only slots that start on the UTC
    day of its key. *)
Definition groupOfItsDay (g : Z * list SlotView) : Prop :=
  snd g <> [] /\ Forall (fun v => Time.utcDay (sv_startAt v) = fst g) (snd g).

(** The slots of a listing, group after group. *)
Definition listedSlots (groups : list (Z * list SlotView)) : list SlotView :=
  concat (snd <$> groups).

(** ** Authentication middleware *)

(** [s.split(sep)] for a one-character separator: the pieces between the
    separators, empty ones included; never an empty array. *)
Fixpoint split (sep : ascii) (s : string) : list string :=
  match s with
  | EmptyString => [EmptyString]
  | String c s' =>
      if Ascii.eqb c sep then EmptyString :: split sep s'
      else match split sep s' with
           | w :: ws => String c w :: ws
           | [] => [String c EmptyString]
           end
  end.

(** The character does not occur in the text. *)
Fixpoint without (sep : ascii) (s : string) : bool :=
  match s with
  | EmptyString => true
  | String c s' => negb (Ascii.eqb c sep) && without sep s'
  end.

(** The errors [jwt.verify] throws, by [error.name]. *)
Inductive jwtError := JsonWebTokenError | TokenExpiredError | NotBeforeError.

(** What the middleware does with a request: it answers, or it sets
    [req.user] and calls [next()]. *)
Inductive authOutcome :=
| Answered (r : response)
| Next (user : User).

Section Auth.

(** [jwt.verify(token, process.env.JWT_SECRET)]: an error, or the decoded
    payload's [userId], if it has one. *)
Variable jwt_verify : string -> jwtError + option string.

(** [await User.findById(id).select('-password')]: a thrown error (a cast
    error, a lost connection), or the user found, if any.  The users
    collection is read only. *)
Variable User_findById : option string -> exn + option User.

(** [authenticateToken], given the [authorization] header. *)
Definition authenticateToken (authHeader : option string) : authOutcome :=
  let token :=
    if truthy authHeader then split " " (default "" authHeader) !! 1%nat
    else authHeader in
  if negb (truthy token) then Answered (ErrorResponse 401 "TOKEN_MISSING")
  else
    match jwt_verify (default "" token) with
    | inl JsonWebTokenError => Answered (ErrorResponse 401 "INVALID_TOKEN")
    | inl TokenExpiredError => Answered (ErrorResponse 401 "TOKEN_EXPIRED")
    | inl NotBeforeError => Answered (ErrorResponse 500 "AUTH_ERROR")
    | inr userId =>
        match User_findById userId with
        | inl _ => Answered (ErrorResponse 500 "AUTH_ERROR")
        | inr None => Answered (ErrorResponse 401 "INVALID_TOKEN")
        | inr (Some user) => Next user
        end
    end.

End Auth.

(** ** Seeding the slots *)

(** [new Date(d.getFullYear(), d.getMonth(), d.getDate(), h, m, 0)] and
    [d.setHours(h, m, 0, 0)]: the wall-clock time [h:m] of the local
    calendar day of [d] (the constructor too reads a two-digit year as
    19xx; the server's clock is far from those years). *)
Definition Date_local (tz d h m : Z) : Z :=
  Time.localDay tz d * Time.msPerDay + h * Time.msPerHour + m * Time.msPerMinute - tz.

(** [d.setMinutes(d.getMinutes() + n)]. *)
Definition setMinutesPlus (t n : Z) : Z := t + n * Time.msPerMinute.

(** [Slot.countDocuments()]. *)
Definition Slot_countDocuments (db : Db) : Db * nat := (db, size (slots db)).

(** The [slots] array [seedDatabase] builds: no store call is made inside
    its loops. *)
Definition seedDatabase_slots (tz now : Z) : list Slot :=
  let startDate := Date_local tz now 9 0 in
  flat_map
    (fun day =>
       let currentDate := Time.setDatePlus startDate day in
       if (Time.getDay tz currentDate =? 0) || (Time.getDay tz currentDate =? 6)
       then []
       else
         flat_map (fun hour =>
           flat_map (fun minute =>
             let slotStart := Date_local tz currentDate hour minute in
             [mkSlot slotStart (setMinutesPlus slotStart 30) false])
             [0; 30])
           (seqZ 9 8))
    (seqZ 0 7).

(** [seedDatabase].  The two example users are created first, in a
    collection of its own; [usersPart] is the error that part threw, if
    any.  Whatever is thrown is logged and dropped. *)
Definition seedDatabase (tz : Z) (usersPart : option exn) (now : Z) : task unit :=
  catch
    (match usersPart with
     | Some e => Throw e
     | None =>
         let! existingSlots := Slot_countDocuments in
         if (existingSlots =? 0)%nat
         then
           let slots := seedDatabase_slots tz now in
           if (0 <? length slots)%nat
           then (let! _ := Slot_insertMany slots in Ret tt)
           else Ret tt
         else Ret tt
     end)
    (fun _ => Ret tt).

(** The [i]-th thirty-minute window after 09:00, local time, of a local
    calendar day. *)
Definition localWindow (tz day i : Z) : Slot :=
  let s := day * Time.msPerDay + 9 * Time.msPerHour + i * (30 * Time.msPerMinute) - tz in
  mkSlot s (s + 30 * Time.msPerMinute) false.

(** ** Removed slots *)

(** The slot with this identifier was removed: no slot is stored under it
    and it is retired. *)
Definition slotGone (db : Db) (sid : N) : Prop :=
  sid ∈ retired db /\ slots db !! sid = None.

(** ** The calendar fields of a date *)

Module Calendar.

(** Year, month (1 to 12) and day of the month of a day number, on the
    proleptic Gregorian calendar. *)
Definition civilFromDays (z : Z) : Z * Z * Z :=
  let z' := z + 719468 in
  let era := z' / 146097 in
  let doe := z' - era * 146097 in
  let yoe := (doe - doe / 1460 + doe / 36524 - doe / 146096) / 365 in
  let doy := doe - (365 * yoe + yoe / 4 - yoe / 100) in
  let mp := (5 * doy + 2) / 153 in
  let d := doy - (153 * mp + 2) / 5 + 1 in
  let m := if mp <? 10 then mp + 3 else mp - 9 in
  (if m <=? 2 then yoe + era * 400 + 1 else yoe + era * 400, m, d).

(** [d.getUTCFullYear()], [d.getUTCMonth()] (0 to 11), [d.getUTCDate()]. *)
Definition getUTCFullYear (t : Z) : Z := fst (fst (civilFromDays (Time.utcDay t))).
Definition getUTCMonth (t : Z) : Z := snd (fst (civilFromDays (Time.utcDay t))) - 1.
Definition getUTCDate (t : Z) : Z := snd (civilFromDays (Time.utcDay t)).

(** [Date.UTC(year, month, date, h, m, s)] for a month from 0 to 11: a
    year from 0 to 99 is read as 1900 + year. *)
Definition Date_UTC (year month date h m s : Z) : Z :=
  let year' := if (0 <=? year) && (year <=? 99) then 1900 + year else year in
  IsoDate.daysFromCivil year' (month + 1) date * Time.msPerDay
  + h * Time.msPerHour + m * Time.msPerMinute + s * 1000.

End Calendar.

(** * Properties *)

(** ** Auxiliary facts *)

Section Helpers.

Lemma find_is_Some {A} (f : A -> bool) (l : list A) :
  is_Some (List.find f l) <-> exists x, In x l /\ f x = true.
Proof.
  split.
  - intros [x Hx]. exists x. by apply find_some in Hx.
  - intros (x & Hin & Hf). destruct (List.find f l) eqn:E; [by eexists|].
    pose proof (find_none f l E x Hin). congruence.
Qed.

Lemma In_map_to_list {V} (m : gmap N V) k v :
  In (k, v) (map_to_list m) <-> m !! k = Some v.
Proof. rewrite <- list_elem_of_In. apply elem_of_map_to_list. Qed.

Lemma overlapsWindow_intersects (c x : Slot) :
  overlapsWindow (startAt c) (endAt c) x = true <-> intersects x c.
Proof.
  unfold overlapsWindow, intersects.
  rewrite andb_true_iff, !Z.ltb_lt. tauto.
Qed.

Lemma distinctOverlapping_In db c id :
  In id (snd (Slot_distinctOverlapping (startAt c) (endAt c) db)) <->
  exists s, slots db !! id = Some s /\ intersects s c.
Proof.
  cbn. rewrite in_map_iff. split.
  - intros ([k s] & <- & Hin). apply filter_In in Hin as [Hin Hov].
    exists s. split; [by apply In_map_to_list|by apply overlapsWindow_intersects].
  - intros (s & Hs & Hi). exists (id, s). split; [done|].
    apply filter_In. split; [by apply In_map_to_list|by apply overlapsWindow_intersects].
Qed.

Lemma hasOverlap_spec db uid c :
  hasOverlap db uid c = true <-> holdsIntersecting db uid c.
Proof.
  unfold hasOverlap, holdsIntersecting.
  set (ids := snd (Slot_distinctOverlapping _ _ db)).
  assert (Hfind : is_Some (snd (Booking_findOneConfirmedIn uid ids db)) <->
                  exists bid b s, bookings db !! bid = Some b /\ userId b = uid /\
                    status b = confirmed /\ slots db !! slotId b = Some s /\ intersects s c).
  { cbn. rewrite find_is_Some. split.
    - intros ([bid b] & Hin & Hf). apply In_map_to_list in Hin.
      unfold confirmedIn in Hf. cbn in Hf.
      apply andb_true_iff in Hf as [Hf Hex]. apply andb_true_iff in Hf as [Hu Hst].
      apply N.eqb_eq in Hu. apply bool_decide_eq_true in Hst.
      apply existsb_exists in Hex as (id & Hid & Heq). apply N.eqb_eq in Heq. subst id.
      apply distinctOverlapping_In in Hid as (s & Hs & Hi).
      by exists bid, b, s.
    - intros (bid & b & s & Hb & Hu & Hst & Hs & Hi).
      exists (bid, b). split; [by apply In_map_to_list|].
      unfold confirmedIn. cbn.
      rewrite !andb_true_iff. repeat split.
      + by apply N.eqb_eq.
      + by apply bool_decide_eq_true.
      + apply existsb_exists. exists (slotId b). split; [|by apply N.eqb_eq].
        apply distinctOverlapping_In. by exists s. }
  destruct (snd (Booking_findOneConfirmedIn uid ids db)) eqn:E.
  - split; [intros _; apply Hfind; by eexists|done].
  - split; [done|]. intros H. apply Hfind in H as [? ?]. done.
Qed.

Lemma cast_truthy s id : ObjectId.cast s = Some id -> truthy (Some s) = true.
Proof. destruct s; [discriminate|done]. Qed.

Lemma fresh_booking_None db : bookings db !! fresh (dom (bookings db)) = None.
Proof. apply not_elem_of_dom. apply is_fresh. Qed.

(** A new slot identifier is not in use and was never retired. *)
Lemma newSlotId_None db : slots db !! newSlotId db = None.
Proof.
  apply not_elem_of_dom. intros H.
  apply (is_fresh (dom (slots db) ∪ retired db)). by apply elem_of_union_l.
Qed.

Lemma newSlotId_not_retired db : newSlotId db ∉ retired db.
Proof.
  intros H. apply (is_fresh (dom (slots db) ∪ retired db)). by apply elem_of_union_r.
Qed.

End Helpers.

Lemma bookSlot_free db req str sid slot now :
  body_slotId req = Some str ->
  ObjectId.cast str = Some sid ->
  slots db !! sid = Some slot ->
  isBooked slot = false ->
  (startAt slot <? now) = false ->
  exec (bookSlot req now) db = bookOutcome db (user_id (req_user req)) sid slot now.
Proof.
  intros Hbody Hc Hs Hb Hnow.
  unfold bookSlot, exec, bookOutcome, hasOverlap. rewrite Hbody.
  rewrite (cast_truthy _ _ Hc). cbn. rewrite Hc. cbn. rewrite Hs, Hb, Hnow. cbn.
  destruct (List.find _ _) eqn:E; cbn; [done|].
  rewrite Hs, Hb. unfold Slot_save. cbn.
  destruct (endAt slot <=? startAt slot) eqn:E2; cbn; [done|].
  unfold Slot_updateIsBooked. rewrite Hs. cbn.
  done.
Qed.

Lemma exec_bookSlot db req now :
  exec (bookSlot req now) db =
  bookSlot_alone db (user_id (req_user req)) (body_slotId req) now.
Proof.
  unfold bookSlot_alone.
  destruct (body_slotId req) as [str|] eqn:Hbody.
  2: { unfold bookSlot, exec. rewrite Hbody. done. }
  destruct (String.eqb str "") eqn:Hstr.
  { unfold bookSlot, exec. rewrite Hbody. cbn. rewrite Hstr. done. }
  destruct (ObjectId.cast str) as [sid|] eqn:Hc.
  2: { unfold bookSlot, exec. rewrite Hbody. cbn. rewrite Hstr, Hc. done. }
  destruct (slots db !! sid) as [slot|] eqn:Hs.
  2: { unfold bookSlot, exec. rewrite Hbody. cbn. rewrite Hstr, Hc. cbn. rewrite Hs. done. }
  destruct (isBooked slot) eqn:Hb.
  { unfold bookSlot, exec. rewrite Hbody. cbn. rewrite Hstr, Hc. cbn. rewrite Hs, Hb. done. }
  destruct (startAt slot <? now) eqn:Hnow.
  { unfold bookSlot, exec. rewrite Hbody. cbn. rewrite Hstr, Hc. cbn. rewrite Hs, Hb, Hnow. done. }
  by eapply bookSlot_free.
Qed.

Lemma exec_POST_book db user slotId now :
  role user = patient ->
  exec (POST_book user slotId now) db = bookSlot_alone db (user_id user) slotId now.
Proof.
  intros Hrole. unfold POST_book, requirePatient, requireRole.
  rewrite bool_decide_eq_true_2 by (rewrite Hrole; by apply list_elem_of_singleton).
  by rewrite exec_bookSlot.
Qed.

Lemma exec_cancelBooking db user bookingId now :
  exec (cancelBooking user bookingId now) db = cancelBooking_alone db user bookingId now.
Proof.
  unfold cancelBooking, cancelBooking_alone, exec.
  destruct (ObjectId.cast bookingId) as [bid|]; [|done]. cbn.
  destruct (bookings db !! bid) as [b|] eqn:Hb; [|done]. cbn.
  destruct (negb _ && negb _); [done|]. cbn.
  destruct (slots db !! slotId b) as [slot|] eqn:Hs; [|done].
  destruct (startAt slot <? now); [done|]. cbn.
  unfold Booking_updateStatus. rewrite Hb. cbn.
  unfold Slot_updateIsBooked. cbn. rewrite Hs. done.
Qed.

(** ** Running composite tasks *)

Lemma run_bind {A B} (t : task A) (f : A -> task B) db :
  run (bind t f) db =
  match run t db with
  | (db', inr a) => run (f a) db'
  | (db', inl e) => (db', inl e)
  end.
Proof.
  revert db. induction t as [a | e | X op k IH]; intros db; cbn; [done|done|].
  destruct (op db) as [db' x]. apply IH.
Qed.

Lemma run_catch {A} (t : task A) (h : exn -> task A) db :
  run (catch t h) db =
  match run t db with
  | (db', inr a) => (db', inr a)
  | (db', inl e) => run (h e) db'
  end.
Proof.
  revert db. induction t as [a | e | X op k IH]; intros db; cbn; [done|done|].
  destruct (op db) as [db' x]. apply IH.
Qed.

Lemma fst_exec t db : fst (exec t db) = fst (run t db).
Proof. unfold exec. by destruct (run t db) as [db' [e|r]]. Qed.

(** ** Handlers always answer *)

Lemma run_catch_answers {A} (t : task A) (h : exn -> task A) db :
  (forall e, exists a, h e = Ret a) -> exists a, snd (run (catch t h) db) = inr a.
Proof.
  intros Hh. rewrite run_catch. destruct (run t db) as [db' [e|a]]; [|by exists a].
  destruct (Hh e) as [a ->]. by exists a.
Qed.

(** Every handler catches what its body throws: a request is always
    answered by the handler itself. *)
Lemma handle_answers Date_parse tz r now db :
  exists resp, run (handle Date_parse tz r now) db
               = (fst (exec (handle Date_parse tz r now) db), inr resp) /\
               snd (exec (handle Date_parse tz r now) db) = resp.
Proof.
  assert (H : exists resp, snd (run (handle Date_parse tz r now) db) = inr resp).
  { destruct r; cbn [handle];
      unfold POST_book, PATCH_cancel, requirePatient, requireAdmin, requireRole;
      try (destruct (bool_decide _); [|by eexists]);
      apply run_catch_answers; intros e; try (by eexists).
    destruct (bool_decide _); by eexists. }
  destruct H as [resp H]. exists resp. unfold exec.
  destruct (run (handle Date_parse tz r now) db) as [db' [e|r']]; cbn in *; [done|].
  by injection H as ->.
Qed.

(** ** A logic of tasks *)

Section Ensures.

Context (R : relation Db) `{!PreOrder R}.

Lemma ensures_Ret {A} (Q : A -> Prop) a : Q a -> ensures R Q (Ret a).
Proof. intros Ha db. cbn. split; [reflexivity|]. by intros a' [= <-]. Qed.

Lemma ensures_Throw {A} (Q : A -> Prop) e : ensures R Q (Throw e).
Proof. intros db. cbn. split; [reflexivity|done]. Qed.

Lemma ensures_Await {A X} (Q : A -> Prop) (op : Db -> Db * X) (k : X -> task A) :
  (forall db, R db (fst (op db))) ->
  (forall x, ensures R Q (k x)) ->
  ensures R Q (Await op k).
Proof.
  intros Hop Hk db. cbn. specialize (Hop db). destruct (op db) as [db' x].
  destruct (Hk x db') as [HR HQ]. split; [by etrans|done].
Qed.

Lemma ensures_bind {A B} (P : A -> Prop) (Q : B -> Prop) (t : task A) (f : A -> task B) :
  ensures R P t -> (forall a, P a -> ensures R Q (f a)) -> ensures R Q (bind t f).
Proof.
  intros Ht Hf db. rewrite run_bind. destruct (Ht db) as [HR HP].
  destruct (run t db) as [db' [e|a]]; cbn in *; [done|].
  destruct (Hf a (HP a eq_refl) db') as [HR' HQ]. split; [by etrans|done].
Qed.

Lemma ensures_catch {A} (Q : A -> Prop) (t : task A) (h : exn -> task A) :
  ensures R Q t -> (forall e, ensures R Q (h e)) -> ensures R Q (catch t h).
Proof.
  intros Ht Hh db. rewrite run_catch. destruct (Ht db) as [HR HQ].
  destruct (run t db) as [db' [e|a]]; cbn in *; [|done].
  destruct (Hh e db') as [HR' HQ']. split; [by etrans|done].
Qed.

Lemma ensures_forEach {A S} (Q : S -> Prop) (xs : list A) (body : A -> S -> task S) acc :
  (forall x s, Q s -> ensures R Q (body x s)) -> Q acc ->
  ensures R Q (forEach xs body acc).
Proof.
  intros Hbody. revert acc. induction xs as [|x xs IH]; intros acc Hacc; cbn.
  - by apply ensures_Ret.
  - apply (ensures_bind Q); [by apply Hbody|]. intros s Hs. by apply IH.
Qed.

Lemma ensures_requireRole (Q : response -> Prop) roles user t :
  (forall s c, Q (ErrorResponse s c)) -> ensures R Q t ->
  ensures R Q (requireRole roles user t).
Proof.
  intros HQ Ht. unfold requireRole. destruct (bool_decide _); [done|].
  by apply ensures_Ret.
Qed.

End Ensures.

(** One step of a proof that a task ensures a relation, with nothing
    claimed of its value. *)
Ltac ensures_step :=
  match goal with
  | |- ensures ?R _ (match ?x with _ => _ end) => destruct x
  | |- ensures ?R _ _ =>
      first
        [ apply (ensures_Ret R); exact I
        | apply (ensures_Throw R)
        | apply (ensures_catch R); [|intros ?]
        | apply (ensures_bind R (fun _ => True)); [|intros ? _]
        | apply (ensures_forEach R); [intros ? ? _|exact I]
        | apply (ensures_Await R); [intros ?; reflexivity|intros ?] ]
  end.

(** ** Slots that come and go unflagged *)

#[global] Instance turnsOver_preorder : PreOrder turnsOver.
Proof.
  split.
  - intros db. split; [done|]. intros sid. by left.
  - intros db1 db2 db3 [Hb12 Hs12] [Hb23 Hs23]. split; [congruence|].
    intros sid. destruct (Hs12 sid) as [H12 | [Hu1 Hu2]], (Hs23 sid) as [H23 | [Hu2' Hu3]].
    + left. congruence.
    + right. split; [|done]. unfold unflaggedAt in *. by rewrite <- H12.
    + right. split; [done|]. unfold unflaggedAt in *. by rewrite H23.
    + by right.
Qed.

Lemma turnsOver_insert s db :
  isBooked s = false -> turnsOver db (fst (Slot_insert s db)).
Proof.
  intros Hs. split; [done|]. intros sid. cbn.
  destruct (decide (newSlotId db = sid)) as [<-|Hne].
  - right. unfold unflaggedAt. cbn. rewrite lookup_insert_eq.
    assert (Hnone : slots db !! newSlotId db = None) by apply newSlotId_None.
    by rewrite Hnone.
  - left. by rewrite lookup_insert_ne.
Qed.

Lemma turnsOver_insertMany docs db :
  Forall (fun s => isBooked s = false) docs ->
  turnsOver db (fst (Slot_insertMany docs db)).
Proof.
  unfold Slot_insertMany. cbn. intros Hdocs. revert db.
  induction Hdocs as [|s docs Hs _ IH]; intros db; cbn; [reflexivity|].
  etrans; [by apply turnsOver_insert|apply IH].
Qed.

Lemma inSync_turnsOver db db' : inSync db -> turnsOver db db' -> inSync db'.
Proof.
  intros Hsync [Hb Hs] sid. specialize (Hsync sid).
  assert (Hc : confirmedFor db' sid = confirmedFor db sid).
  { unfold confirmedFor. by rewrite Hb. }
  rewrite Hc, Hsync.
  destruct (Hs sid) as [-> | [Hu Hu']]; [done|].
  unfold unflaggedAt in *.
  destruct (slots db !! sid) as [s|], (slots db' !! sid) as [s'|]; by rewrite ?Hu, ?Hu'.
Qed.

(** The slot handlers leave the bookings alone and turn slots over
    unflagged. *)
Lemma turnsOver_getAllSlots Date_parse from to :
  ensures turnsOver (fun _ => True) (getAllSlots Date_parse from to).
Proof. unfold getAllSlots. repeat ensures_step. Qed.

Lemma turnsOver_getAvailableSlots Date_parse tz from to includeBooked now :
  ensures turnsOver (fun _ => True)
    (getAvailableSlots Date_parse tz from to includeBooked now).
Proof. unfold getAvailableSlots. repeat ensures_step. Qed.

Lemma turnsOver_addSlot Date_parse s e :
  ensures turnsOver (fun _ => True) (addSlot Date_parse s e).
Proof.
  unfold addSlot. repeat ensures_step.
  apply (ensures_Await turnsOver); [intros db; by apply turnsOver_insert|intros id].
  ensures_step.
Qed.

Lemma unflagged_generateSlots_loop tz startDate days :
  ensures turnsOver (Forall (fun s => isBooked s = false))
    (generateSlots_loop tz startDate days).
Proof.
  unfold generateSlots_loop.
  apply (ensures_forEach turnsOver); [|by constructor]. intros day acc Hacc.
  destruct (_ || _); [by apply (ensures_Ret turnsOver)|].
  apply (ensures_forEach turnsOver); [|done]. intros hour acc' Hacc'.
  apply (ensures_forEach turnsOver); [|done]. intros minute acc'' Hacc''.
  unfold generateSlots_slot.
  apply (ensures_Await turnsOver); [intros db; reflexivity|]. intros [existing|].
  - by apply (ensures_Ret turnsOver).
  - apply (ensures_Ret turnsOver). apply Forall_app. split; [done|]. by repeat constructor.
Qed.

Lemma turnsOver_generateSlots tz days now :
  ensures turnsOver (fun _ => True) (generateSlots tz days now).
Proof.
  unfold generateSlots. ensures_step; [|ensures_step].
  cbv zeta. destruct (_ || _); [ensures_step|].
  apply (ensures_bind turnsOver (Forall (fun s => isBooked s = false)));
    [apply unflagged_generateSlots_loop|].
  intros docs Hdocs.
  apply (ensures_bind turnsOver (fun _ => True)); [|intros ? _; ensures_step].
  destruct (0 <? length docs)%nat; [|ensures_step].
  apply (ensures_Await turnsOver); [intros db; by apply turnsOver_insertMany|intros ?].
  ensures_step.
Qed.

Lemma turnsOver_removeSlot slotId :
  ensures turnsOver (fun _ => True) (removeSlot slotId).
Proof.
  intros db. split; [|done]. unfold removeSlot.
  destruct (ObjectId.cast slotId) as [sid|]; [|reflexivity]. cbn.
  destruct (slots db !! sid) as [slot|] eqn:Hs; [|reflexivity].
  destruct (isBooked slot) eqn:Hb; [reflexivity|]. cbn.
  unfold Slot_findByIdAndDelete. rewrite Hs. cbn.
  split; [done|]. intros sid'. cbn.
  destruct (decide (sid = sid')) as [<-|Hne].
  - right. unfold unflaggedAt. cbn. by rewrite Hs, lookup_delete_eq.
  - left. by rewrite lookup_delete_ne.
Qed.

(** ** Tasks that leave the bookings collection alone *)

Lemma ensures_keepsBookings {A} (Q : A -> Prop) (t : task A) :
  ensures turnsOver Q t -> keepsBookings t.
Proof. intros Ht db. by destruct (Ht db) as [[Hb _] _]. Qed.

Lemma keeps_requireRole roles user t :
  keepsBookings t -> keepsBookings (requireRole roles user t).
Proof. intros Ht. unfold requireRole. by destruct (bool_decide _). Qed.

Lemma keeps_getAllSlots Date_parse from to :
  keepsBookings (getAllSlots Date_parse from to).
Proof. eapply ensures_keepsBookings, turnsOver_getAllSlots. Qed.

Lemma keeps_getAvailableSlots Date_parse tz from to includeBooked now :
  keepsBookings (getAvailableSlots Date_parse tz from to includeBooked now).
Proof. eapply ensures_keepsBookings, turnsOver_getAvailableSlots. Qed.

Lemma keeps_generateSlots tz days now : keepsBookings (generateSlots tz days now).
Proof. eapply ensures_keepsBookings, turnsOver_generateSlots. Qed.

Lemma keeps_addSlot Date_parse s e : keepsBookings (addSlot Date_parse s e).
Proof. eapply ensures_keepsBookings, turnsOver_addSlot. Qed.

Lemma keeps_removeSlot slotId : keepsBookings (removeSlot slotId).
Proof. eapply ensures_keepsBookings, turnsOver_removeSlot. Qed.

(** ** Booking *)

(** No answer of [bookSlot] carries the code INVALID_SLOT_ID. *)
Lemma bookSlot_never_invalid_slot_id db req now :
  code_of (snd (exec (bookSlot req now) db)) <> Some "INVALID_SLOT_ID".
Proof.
  rewrite exec_bookSlot. unfold bookSlot_alone, bookOutcome.
  destruct (body_slotId req) as [str|]; [|done].
  destruct (String.eqb str ""); [done|].
  destruct (ObjectId.cast str) as [sid|]; [|done].
  destruct (slots db !! sid) as [slot|]; [|done].
  destruct (isBooked slot); [done|].
  destruct (startAt slot <? now); [done|].
  destruct (hasOverlap _ _ _); [done|].
  by destruct (endAt slot <=? startAt slot).
Qed.

Lemma hexValue_allHex s acc n :
  ObjectId.hexValue s acc = Some n -> ObjectId.allHex s = true.
Proof.
  revert acc. induction s as [|c s IH]; intros acc; cbn; [done|].
  destruct (ObjectId.hexDigit c); [|done]. apply IH.
Qed.

(** What the validator refuses, the ObjectId cast refuses too. *)
Lemma isMongoId_false_cast s :
  ObjectId.isMongoId s = false -> ObjectId.cast s = None.
Proof.
  unfold ObjectId.isMongoId, ObjectId.cast, ObjectId.isHexadecimal, ObjectId.hexDigits.
  destruct (Nat.eqb (String.length s) 24) eqn:Hlen; [|done].
  destruct (ObjectId.hexValue s 0) as [n|] eqn:Hv; [|done].
  rewrite (hexValue_allHex s _ n Hv).
  destruct s as [|c s]; [done|]. cbn. done.
Qed.

(** The converse fails: the validator lets a [0x] or [0h] prefix pass,
    the cast does not; the answer is 500 all the same. *)
Example prefixed_slotId_passes_validator :
  let s := "0x00000000000000000000a1" in
  ObjectId.isMongoId s = true /\ ObjectId.cast s = None /\
  exec (POST_book Examples.P1 (Some s) Examples.earlier) Examples.oneFreeSlot
  = (Examples.oneFreeSlot, ErrorResponse 500 "BOOKING_ERROR").
Proof.
  cbv zeta. split; [reflexivity|]. split; [reflexivity|].
  rewrite exec_POST_book by done. reflexivity.
Qed.

(** C3. A [slotId] that is not a well-formed identifier is noticed by the
    validation chain of the route, but [bookSlot] never reads the recorded
    validation result: an empty string is answered 400 MISSING_SLOT_ID, and
    every other malformed string makes [Slot.findById] throw, which the
    handler answers 500 BOOKING_ERROR. The stores are left as they were. *)
Theorem malformed_slotId_response db uid s now :
  ObjectId.isMongoId s = false ->
  validationErrors (bookSlotValidation (mkBookRequest (mkUser uid patient) (Some s) []))
    = ["Please provide a valid slot ID"] /\
  exec (POST_book (mkUser uid patient) (Some s) now) db =
    (db, if String.eqb s "" then ErrorResponse 400 "MISSING_SLOT_ID"
         else ErrorResponse 500 "BOOKING_ERROR").
Proof.
  intros Hbad. split.
  - unfold bookSlotValidation. cbn. by rewrite Hbad.
  - rewrite exec_POST_book by done. unfold bookSlot_alone.
    destruct (String.eqb s ""); [done|].
    by rewrite (isMongoId_false_cast s Hbad).
Qed.

Lemma malformed_slotId_response_witness :
  validationErrors
    (bookSlotValidation (mkBookRequest (mkUser 101 patient) (Some "invalid-id") []))
    = ["Please provide a valid slot ID"] /\
  exec (POST_book (mkUser 101 patient) (Some "invalid-id") Examples.earlier)
       Examples.oneFreeSlot
    = (Examples.oneFreeSlot, ErrorResponse 500 "BOOKING_ERROR").
Proof.
  apply (malformed_slotId_response Examples.oneFreeSlot 101 "invalid-id" Examples.earlier).
  reflexivity.
Defined.

(** C4, as stated, fails where an earlier guard of [bookSlot] answers
    first: P1 holds 09:00 to 09:30 and asks for the intersecting slot
    09:15 to 09:45, which P2 already holds; the answer is 409 SLOT_TAKEN,
    not OVERLAPPING_BOOKING. *)
Lemma overlap_iff_counterexample :
  let db := Examples.twoHeld in
  let candidate := mkSlot Examples.t0915 Examples.t0945 true in
  slots db !! 2%N = Some candidate /\
  holdsIntersecting db 101 candidate /\
  exec (POST_book Examples.P1 (Some Examples.slotB) Examples.earlier) db
    = (db, ErrorResponse 409 "SLOT_TAKEN") /\
  ~ (snd (exec (POST_book Examples.P1 (Some Examples.slotB) Examples.earlier) db)
       = ErrorResponse 409 "OVERLAPPING_BOOKING"
     <-> holdsIntersecting db 101 candidate).
Proof.
  intros db candidate.
  assert (Hheld : holdsIntersecting db 101 candidate).
  { apply hasOverlap_spec. reflexivity. }
  assert (Hexec : exec (POST_book Examples.P1 (Some Examples.slotB) Examples.earlier) db
                  = (db, ErrorResponse 409 "SLOT_TAKEN")).
  { rewrite exec_POST_book by done. reflexivity. }
  repeat split; try done.
  rewrite Hexec. cbn. intros [_ H]. specialize (H Hheld). discriminate.
Qed.

(** C4, amended. For a candidate slot that exists, is not flagged booked
    and has not started, [bookSlot] answers 409 OVERLAPPING_BOOKING exactly
    when the user holds a confirmed booking whose slot's half-open window
    intersects the candidate's ([a.start < b.end] and [b.start < a.end]);
    a window that only touches the candidate's at an endpoint does not
    intersect it. *)
Theorem overlap_rejection_iff db uid str sid slot now :
  ObjectId.cast str = Some sid ->
  slots db !! sid = Some slot ->
  isBooked slot = false ->
  now <= startAt slot ->
  (snd (exec (POST_book (mkUser uid patient) (Some str) now) db)
     = ErrorResponse 409 "OVERLAPPING_BOOKING"
   <-> holdsIntersecting db uid slot) /\
  (forall s', endAt s' = startAt slot \/ endAt slot = startAt s' -> ~ intersects s' slot).
Proof.
  intros Hc Hs Hb Hnow. split.
  - rewrite exec_POST_book by done. unfold bookSlot_alone.
    assert (Hstr : String.eqb str "" = false).
    { apply cast_truthy in Hc. cbn in Hc. by destruct (String.eqb str ""). }
    assert (Hpast : (startAt slot <? now) = false) by (apply Z.ltb_ge; lia).
    rewrite Hstr, Hc, Hs, Hb, Hpast. unfold bookOutcome.
    rewrite <- hasOverlap_spec.
    cbn [user_id]. destruct (hasOverlap db uid slot); [by split|].
    destruct (endAt slot <=? startAt slot); cbn; split; intros; discriminate.
  - intros s' [He | He] [H1 H2]; lia.
Qed.

Lemma overlap_rejection_iff_witness :
  (snd (exec (POST_book (mkUser 101 patient) (Some Examples.slotB) Examples.earlier)
             Examples.touching)
     = ErrorResponse 409 "OVERLAPPING_BOOKING"
   <-> holdsIntersecting Examples.touching 101 (mkSlot Examples.t0930 Examples.t1000 false)) /\
  (forall s', endAt s' = startAt (mkSlot Examples.t0930 Examples.t1000 false)
              \/ endAt (mkSlot Examples.t0930 Examples.t1000 false) = startAt s' ->
              ~ intersects s' (mkSlot Examples.t0930 Examples.t1000 false)).
Proof.
  apply (overlap_rejection_iff Examples.touching 101 Examples.slotB 2
           (mkSlot Examples.t0930 Examples.t1000 false) Examples.earlier).
  - reflexivity.
  - reflexivity.
  - reflexivity.
  - vm_compute. discriminate.
Defined.

(** The touching slot 09:30 to 10:00 is booked by the holder of 09:00 to
    09:30. *)
Example touching_slot_booked :
  snd (exec (POST_book Examples.P1 (Some Examples.slotB) Examples.earlier)
            Examples.touching)
  = BookingCreated 1 2 Examples.t0930 Examples.t1000 confirmed Examples.earlier.
Proof. rewrite exec_POST_book by done. reflexivity. Qed.

(** An intersecting slot is refused. *)
Example intersecting_slot_refused :
  let db := mkDb (<[2%N := mkSlot Examples.t0915 Examples.t0945 false]>
                    (slots Examples.touching))
                 (bookings Examples.touching) ∅ in
  exec (POST_book Examples.P1 (Some Examples.slotB) Examples.earlier) db
  = (db, ErrorResponse 409 "OVERLAPPING_BOOKING").
Proof. cbv zeta. rewrite exec_POST_book by done. reflexivity. Qed.

(** What a successful [bookSlot] tells about the store before and after. *)
Lemma bookSlot_created_inv db user str now db1 bid sid s e st c :
  role user = patient ->
  exec (POST_book user (Some str) now) db = (db1, BookingCreated bid sid s e st c) ->
  exists slot,
    ObjectId.cast str = Some sid /\
    slots db !! sid = Some slot /\ isBooked slot = false /\
    startAt slot < endAt slot /\ now <= startAt slot /\
    hasOverlap db (user_id user) slot = false /\
    bid = fresh (dom (bookings db)) /\
    s = startAt slot /\ e = endAt slot /\ st = confirmed /\ c = now /\
    db1 = mkDb (<[sid := setIsBooked true slot]> (slots db))
               (<[bid := mkBooking (user_id user) sid confirmed now]> (bookings db))
               (retired db).
Proof.
  intros Hrole. rewrite exec_POST_book by done. unfold bookSlot_alone, bookOutcome.
  destruct (String.eqb str ""); [discriminate|].
  destruct (ObjectId.cast str) as [sid'|]; [|discriminate].
  destruct (slots db !! sid') as [slot|] eqn:Hs; [|discriminate].
  destruct (isBooked slot) eqn:Hb; [discriminate|].
  destruct (startAt slot <? now) eqn:Hnow; [discriminate|].
  destruct (hasOverlap db (user_id user) slot) eqn:Hov; [discriminate|].
  destruct (endAt slot <=? startAt slot) eqn:Hse; [discriminate|].
  intros [= <- <- <- <- <- <- <-].
  exists slot. apply Z.ltb_ge in Hnow. apply Z.leb_gt in Hse.
  repeat split; done.
Qed.

(** What a successful [cancelBooking] tells about the store before and after. *)
Lemma cancelBooking_cancelled_inv db user str now db2 bid st :
  exec (PATCH_cancel user str now) db = (db2, BookingCancelled bid st) ->
  exists b slot,
    ObjectId.cast str = Some bid /\
    bookings db !! bid = Some b /\ slots db !! slotId b = Some slot /\
    now <= startAt slot /\ st = cancelled /\
    db2 = mkDb (<[slotId b := setIsBooked false slot]> (slots db))
               (<[bid := setStatus cancelled b]> (bookings db))
               (retired db).
Proof.
  unfold PATCH_cancel. rewrite exec_cancelBooking. unfold cancelBooking_alone.
  destruct (ObjectId.cast str) as [bid'|]; [|discriminate].
  destruct (bookings db !! bid') as [b|] eqn:Hb; [|discriminate].
  destruct (negb _ && negb _); [discriminate|].
  destruct (slots db !! slotId b) as [slot|] eqn:Hs; [|discriminate].
  destruct (startAt slot <? now) eqn:Hnow; [discriminate|].
  intros [= <- <- <-]. exists b, slot. apply Z.ltb_ge in Hnow.
  repeat split; done.
Qed.

(** A free, well-formed, future slot is booked by any patient who holds no
    intersecting confirmed booking. *)
Lemma bookSlot_succeeds db user str sid slot now :
  role user = patient ->
  ObjectId.cast str = Some sid ->
  slots db !! sid = Some slot ->
  isBooked slot = false ->
  startAt slot < endAt slot ->
  now <= startAt slot ->
  ~ holdsIntersecting db (user_id user) slot ->
  exists db' bid,
    exec (POST_book user (Some str) now) db
      = (db', BookingCreated bid sid (startAt slot) (endAt slot) confirmed now) /\
    bookings db' !! bid = Some (mkBooking (user_id user) sid confirmed now) /\
    slots db' !! sid = Some (setIsBooked true slot).
Proof.
  intros Hrole Hc Hs Hfree Hse Hnow Hno.
  rewrite exec_POST_book by done. unfold bookSlot_alone.
  assert (Hstr : String.eqb str "" = false).
  { apply cast_truthy in Hc. cbn in Hc. by destruct (String.eqb str ""). }
  assert (Hpast : (startAt slot <? now) = false) by (apply Z.ltb_ge; done).
  assert (Hse' : (endAt slot <=? startAt slot) = false) by (apply Z.leb_gt; done).
  rewrite <- hasOverlap_spec in Hno. apply not_true_is_false in Hno.
  rewrite Hstr, Hc, Hs, Hfree, Hpast. unfold bookOutcome. rewrite Hno, Hse'.
  eexists _, _. split; [reflexivity|]. cbn.
  split; apply lookup_insert_eq.
Qed.

(** C5. After a successful [bookSlot] by U1 and a successful
    [cancelBooking] of the booking it created, the slot's [isBooked] flag
    is false again, and a [bookSlot] for the same slot by another user U2
    who holds no intersecting confirmed booking, before the slot starts,
    succeeds with a confirmed booking. *)
Theorem book_cancel_book_again
    db u1 requester u2 slotStr bookingStr now1 now2 now3 db1 db2 bid sid s e st c st' :
  role u1 = patient -> role u2 = patient -> user_id u2 <> user_id u1 ->
  exec (POST_book u1 (Some slotStr) now1) db = (db1, BookingCreated bid sid s e st c) ->
  exec (PATCH_cancel requester bookingStr now2) db1 = (db2, BookingCancelled bid st') ->
  exists slot,
    slots db2 !! sid = Some slot /\ isBooked slot = false /\
    (~ holdsIntersecting db2 (user_id u2) slot -> now3 <= startAt slot ->
     exists db3 bid3,
       exec (POST_book u2 (Some slotStr) now3) db2
         = (db3, BookingCreated bid3 sid (startAt slot) (endAt slot) confirmed now3) /\
       bookings db3 !! bid3 = Some (mkBooking (user_id u2) sid confirmed now3) /\
       slots db3 !! sid = Some (setIsBooked true slot)).
Proof.
  intros Hr1 Hr2 _ Hbook Hcancel.
  apply bookSlot_created_inv in Hbook as
    (slot & Hc & Hs & Hfree & Hse & _ & _ & _ & _ & _ & _ & _ & ->); [|done].
  apply cancelBooking_cancelled_inv in Hcancel as (b & slot1 & _ & Hb & Hs1 & _ & _ & ->).
  cbn in Hb, Hs1. rewrite lookup_insert_eq in Hb. injection Hb as <-.
  cbn in Hs1. rewrite lookup_insert_eq in Hs1. injection Hs1 as <-.
  cbn [slotId]. exists (setIsBooked false (setIsBooked true slot)).
  assert (Hs2 : forall bs, slots (mkDb (<[sid := setIsBooked false (setIsBooked true slot)]>
                     (slots (mkDb (<[sid := setIsBooked true slot]> (slots db)) bs
                                  (retired db))))
                     (<[bid := setStatus cancelled (mkBooking (user_id u1) sid confirmed now1)]>
                        bs) (retired db))
                !! sid = Some (setIsBooked false (setIsBooked true slot))).
  { intros bs. cbn. apply lookup_insert_eq. }
  split; [apply Hs2|]. split; [done|].
  intros Hno Hnow3.
  by apply (bookSlot_succeeds _ u2 slotStr sid _ now3).
Qed.

Lemma book_cancel_book_again_witness :
  let db := Examples.oneFreeSlot in
  let db1 := fst (exec (POST_book Examples.P1 (Some Examples.slotA) Examples.earlier) db) in
  let db2 := fst (exec (PATCH_cancel Examples.P1 Examples.booking0 Examples.earlier) db1) in
  exists slot,
    slots db2 !! 1%N = Some slot /\ isBooked slot = false /\
    (~ holdsIntersecting db2 (user_id Examples.P2) slot ->
     Examples.earlier <= startAt slot ->
     exists db3 bid3,
       exec (POST_book Examples.P2 (Some Examples.slotA) Examples.earlier) db2
         = (db3, BookingCreated bid3 1 (startAt slot) (endAt slot) confirmed Examples.earlier) /\
       bookings db3 !! bid3 = Some (mkBooking (user_id Examples.P2) 1 confirmed Examples.earlier) /\
       slots db3 !! 1%N = Some (setIsBooked true slot)).
Proof.
  intros db db1 db2.
  apply (book_cancel_book_again db Examples.P1 Examples.P1 Examples.P2 Examples.slotA
           Examples.booking0 Examples.earlier Examples.earlier Examples.earlier
           db1 db2 0 1 Examples.t0900 Examples.t0930 confirmed Examples.earlier cancelled).
  - reflexivity.
  - reflexivity.
  - vm_compute. discriminate.
  - vm_compute. reflexivity.
  - vm_compute. reflexivity.
Defined.

(** The scenario of the round trip, run: P1 books, P2 is refused, P1
    cancels, P2 books. *)
Example roundtrip_scenario :
  let step (r : request) db := exec (handle IsoDate.parse 0 r Examples.earlier) db in
  let '(db1, r1) := step (Book Examples.P1 (Some Examples.slotA)) Examples.oneFreeSlot in
  let '(db2, r2) := step (Book Examples.P2 (Some Examples.slotA)) db1 in
  let '(db3, r3) := step (Cancel Examples.P1 Examples.booking0) db2 in
  let '(db4, r4) := step (Book Examples.P2 (Some Examples.slotA)) db3 in
  (httpStatus_of r1, code_of r2, r3, httpStatus_of r4)
  = (201%nat, Some "SLOT_TAKEN", BookingCancelled 0 cancelled, 201%nat).
Proof. vm_compute. reflexivity. Qed.

(** ** Cancelling *)

(** C10. [cancelBooking] never looks at the booking's status: for a
    booking in any status (confirmed, cancelled or completed) whose
    requester is its owner or an admin and whose slot has not started, the
    request succeeds, reports the booking as cancelled, and clears the
    slot's [isBooked] flag. No other booking is touched, so the flag is
    cleared even while another user's confirmed booking references the
    slot. *)
Theorem cancel_ignores_status db user bookingId bid b slot now :
  ObjectId.cast bookingId = Some bid ->
  bookings db !! bid = Some b ->
  userId b = user_id user \/ role user = admin ->
  slots db !! slotId b = Some slot ->
  now <= startAt slot ->
  exists db',
    exec (PATCH_cancel user bookingId now) db = (db', BookingCancelled bid cancelled) /\
    bookings db' !! bid = Some (setStatus cancelled b) /\
    slots db' !! slotId b = Some (setIsBooked false slot) /\
    (forall bid', bid' <> bid -> bookings db' !! bid' = bookings db !! bid').
Proof.
  intros Hc Hb Hauth Hs Hnow.
  unfold PATCH_cancel. rewrite exec_cancelBooking. unfold cancelBooking_alone.
  rewrite Hc, Hb, Hs.
  assert (Hperm : negb (userId b =? user_id user)%N
                  && negb (bool_decide (role user = admin)) = false).
  { destruct Hauth as [-> | ->].
    - by rewrite N.eqb_refl.
    - apply andb_false_r. }
  rewrite Hperm.
  assert (Hpast : (startAt slot <? now) = false) by (apply Z.ltb_ge; lia).
  rewrite Hpast.
  eexists. split; [reflexivity|]. cbn.
  split; [apply lookup_insert_eq|].
  split; [apply lookup_insert_eq|].
  intros bid' Hne. by apply lookup_insert_ne.
Qed.

Lemma cancel_ignores_status_witness :
  exists db',
    exec (PATCH_cancel Examples.P1 Examples.booking0 Examples.earlier) Examples.rebooked
      = (db', BookingCancelled 0 cancelled) /\
    bookings db' !! 0%N = Some (mkBooking 101 1 cancelled Examples.earlier) /\
    slots db' !! 1%N = Some (mkSlot Examples.t0900 Examples.t0930 false) /\
    (forall bid', bid' <> 0%N ->
       bookings db' !! bid' = bookings Examples.rebooked !! bid').
Proof.
  apply (cancel_ignores_status Examples.rebooked Examples.P1 Examples.booking0 0
           (mkBooking 101 1 cancelled Examples.earlier)
           (mkSlot Examples.t0900 Examples.t0930 true) Examples.earlier).
  - reflexivity.
  - reflexivity.
  - left. reflexivity.
  - reflexivity.
  - vm_compute. discriminate.
Defined.

(** ** The status of a booking *)

Lemma bookings_after_book db user slotId now bid b :
  bookings db !! bid = Some b ->
  bookings (fst (exec (POST_book user slotId now) db)) !! bid = Some b.
Proof.
  intros Hb. destruct (role user) eqn:Hrole.
  - rewrite exec_POST_book by done. unfold bookSlot_alone, bookOutcome.
    destruct slotId as [str|]; [|done].
    destruct (String.eqb str ""); [done|].
    destruct (ObjectId.cast str) as [sid|]; [|done].
    destruct (slots db !! sid) as [slot|]; [|done].
    destruct (isBooked slot); [done|].
    destruct (startAt slot <? now); [done|].
    destruct (hasOverlap _ _ _); [done|].
    destruct (endAt slot <=? startAt slot); [done|]. cbn.
    rewrite lookup_insert_ne; [done|].
    intros Heq. pose proof (fresh_booking_None db) as Hfresh.
    rewrite Heq in Hfresh. congruence.
  - unfold POST_book, requirePatient, requireRole.
    rewrite bool_decide_eq_false_2; [done|].
    rewrite Hrole. by intros Hin%list_elem_of_singleton.
Qed.

Lemma bookings_after_cancel db user str now bid b :
  bookings db !! bid = Some b ->
  bookings (fst (exec (PATCH_cancel user str now) db)) !! bid = Some b \/
  (ObjectId.cast str = Some bid /\
   bookings (fst (exec (PATCH_cancel user str now) db)) !! bid
     = Some (setStatus cancelled b)).
Proof.
  intros Hb. unfold PATCH_cancel. rewrite exec_cancelBooking. unfold cancelBooking_alone.
  destruct (ObjectId.cast str) as [bid'|] eqn:Hc; [|by left].
  destruct (bookings db !! bid') as [b0|] eqn:Hb0; [|by left].
  destruct (negb _ && negb _); [by left|].
  destruct (slots db !! slotId b0); [|by left].
  destruct (startAt _ <? now); [by left|]. cbn.
  destruct (decide (bid' = bid)) as [->|Hne].
  - right. rewrite lookup_insert_eq. split; [done|]. congruence.
  - left. by rewrite lookup_insert_ne.
Qed.

(** Serving any one request, from whatever store, keeps every existing
    booking in the store with its user and slot. A booking whose status is
    [cancelled] stays [cancelled]. The only change of status is to
    [cancelled], made by the cancel operation on that very booking. *)
Theorem status_changes_only_by_cancel Date_parse tz r now db bid b :
  bookings db !! bid = Some b ->
  exists b',
    bookings (fst (exec (handle Date_parse tz r now) db)) !! bid = Some b' /\
    userId b' = userId b /\ slotId b' = slotId b /\
    (status b = cancelled -> status b' = cancelled) /\
    (status b' <> status b ->
     status b' = cancelled /\
     exists user str, r = Cancel user str /\ ObjectId.cast str = Some bid).
Proof.
  intros Hb.
  assert (Hsame : forall db',
            bookings db' !! bid = Some b ->
            exists b', bookings db' !! bid = Some b' /\
              userId b' = userId b /\ slotId b' = slotId b /\
              (status b = cancelled -> status b' = cancelled) /\
              (status b' <> status b ->
               status b' = cancelled /\
               exists user str, r = Cancel user str /\ ObjectId.cast str = Some bid)).
  { intros db' H. exists b. repeat split; done. }
  assert (Hkeeps : forall t, keepsBookings t ->
            bookings (fst (exec t db)) !! bid = Some b).
  { intros t Ht. rewrite fst_exec, Ht. done. }
  destruct r as [user slotId | user str | user days | user s e | user slotId
                | user from to includeBooked | user from to]; cbn [handle].
  - apply Hsame. by apply bookings_after_book.
  - destruct (bookings_after_cancel db user str now bid b Hb) as [H | [Hc H]].
    + by apply Hsame.
    + exists (setStatus cancelled b). repeat split; try done.
      by exists user, str.
  - apply Hsame, Hkeeps, keeps_requireRole, keeps_generateSlots.
  - apply Hsame, Hkeeps, keeps_requireRole, keeps_addSlot.
  - apply Hsame, Hkeeps, keeps_requireRole, keeps_removeSlot.
  - apply Hsame, Hkeeps, keeps_getAvailableSlots.
  - apply Hsame, Hkeeps, keeps_requireRole, keeps_getAllSlots.
Qed.

Lemma status_changes_only_by_cancel_witness :
  exists b',
    bookings (fst (exec (handle IsoDate.parse 0 (Cancel Examples.P1 Examples.booking0)
                           Examples.earlier) Examples.twoHeld)) !! 0%N = Some b' /\
    userId b' = 101%N /\ slotId b' = 1%N /\
    (confirmed = cancelled -> status b' = cancelled) /\
    (status b' <> confirmed ->
     status b' = cancelled /\
     exists user str, Cancel Examples.P1 Examples.booking0 = Cancel user str /\
                      ObjectId.cast str = Some 0%N).
Proof.
  apply (status_changes_only_by_cancel IsoDate.parse 0
           (Cancel Examples.P1 Examples.booking0) Examples.earlier Examples.twoHeld 0
           (mkBooking 101 1 confirmed Examples.earlier)).
  reflexivity.
Defined.

(** ** Where bookings come from *)

Lemma booking_origin Date_parse tz r now db bid b' :
  bookings (fst (exec (handle Date_parse tz r now) db)) !! bid = Some b' ->
  (exists b, bookings db !! bid = Some b /\ (b' = b \/ b' = setStatus cancelled b)) \/
  (bookings db !! bid = None /\ status b' = confirmed).
Proof.
  assert (Hkeeps : forall t, keepsBookings t ->
            bookings (fst (exec t db)) !! bid = Some b' ->
            exists b, bookings db !! bid = Some b /\ (b' = b \/ b' = setStatus cancelled b)).
  { intros t Ht. rewrite fst_exec, Ht. intros H. exists b'. by split; [|left]. }
  destruct r as [user slotId | user str | user days | user s e | user slotId
                | user from to includeBooked | user from to]; cbn [handle].
  - destruct (role user) eqn:Hrole.
    + rewrite exec_POST_book by done. unfold bookSlot_alone, bookOutcome.
      assert (Hid : forall d : Db, d = db -> bookings d !! bid = Some b' ->
                (exists b, bookings db !! bid = Some b /\
                           (b' = b \/ b' = setStatus cancelled b)) \/
                (bookings db !! bid = None /\ status b' = confirmed)).
      { intros d -> H. left. exists b'. by split; [|left]. }
      destruct slotId as [str|]; [|by apply Hid].
      destruct (String.eqb str ""); [by apply Hid|].
      destruct (ObjectId.cast str) as [sid|]; [|by apply Hid].
      destruct (slots db !! sid) as [slot|]; [|by apply Hid].
      destruct (isBooked slot); [by apply Hid|].
      destruct (startAt slot <? now); [by apply Hid|].
      destruct (hasOverlap _ _ _); [by apply Hid|].
      destruct (endAt slot <=? startAt slot); [by apply Hid|]. cbn.
      destruct (decide (fresh (dom (bookings db)) = bid)) as [<-|Hne].
      * rewrite lookup_insert_eq. intros [= <-]. right.
        split; [apply fresh_booking_None|done].
      * rewrite lookup_insert_ne by done. intros H. left. exists b'. by split; [|left].
    + unfold POST_book, requirePatient, requireRole.
      rewrite bool_decide_eq_false_2.
      * intros H. left. exists b'. by split; [|left].
      * rewrite Hrole. by intros Hin%list_elem_of_singleton.
  - unfold PATCH_cancel. rewrite exec_cancelBooking. unfold cancelBooking_alone.
    assert (Hid : forall d : Db, d = db -> bookings d !! bid = Some b' ->
              (exists b, bookings db !! bid = Some b /\
                         (b' = b \/ b' = setStatus cancelled b)) \/
              (bookings db !! bid = None /\ status b' = confirmed)).
    { intros d -> H. left. exists b'. by split; [|left]. }
    destruct (ObjectId.cast str) as [bid0|]; [|by apply Hid].
    destruct (bookings db !! bid0) as [b0|] eqn:Hb0; [|by apply Hid].
    destruct (negb _ && negb _); [by apply Hid|].
    destruct (slots db !! slotId b0); [|by apply Hid].
    destruct (startAt _ <? now); [by apply Hid|]. cbn.
    destruct (decide (bid0 = bid)) as [->|Hne].
    + rewrite lookup_insert_eq. intros [= <-]. left. exists b0. by split; [|right].
    + rewrite lookup_insert_ne by done. intros H. left. exists b'. by split; [|left].
  - intros H. left. revert H. apply Hkeeps, keeps_requireRole, keeps_generateSlots.
  - intros H. left. revert H. apply Hkeeps, keeps_requireRole, keeps_addSlot.
  - intros H. left. revert H. apply Hkeeps, keeps_requireRole, keeps_removeSlot.
  - intros H. left. revert H. apply Hkeeps, keeps_getAvailableSlots.
  - intros H. left. revert H. apply Hkeeps, keeps_requireRole, keeps_getAllSlots.
Qed.




(** No booking of a reachable store is marked completed: bookings are
    created confirmed and only ever moved to cancelled. *)
Lemma completed_never_arises Date_parse tz db bid b :
  reachable Date_parse tz db -> bookings db !! bid = Some b -> status b <> completed.
Proof.
  intros [trace <-]. revert bid b.
  induction trace as [|[r now] trace IH] using rev_ind; intros bid b.
  - cbn. by rewrite lookup_empty.
  - unfold serve in *. rewrite fold_left_app. cbn [fold_left fst snd].
    intros [(b0 & Hb0 & [-> | ->]) | [_ Hst]]%booking_origin.
    + by apply (IH bid).
    + done.
    + by rewrite Hst.
Qed.

(** ** Keeping the flag in step with the bookings *)

Lemma inSync_flagInSync db : inSync db -> flagInSync db.
Proof.
  intros H sid s Hs. rewrite (H sid), Hs. by destruct (isBooked s).
Qed.

Lemma filter_length_perm {A} (f : A -> bool) (l l' : list A) :
  l ≡ₚ l' -> length (List.filter f l) = length (List.filter f l').
Proof.
  induction 1 as [|x l l' _ IH|x y l|l l' l'' _ IH1 _ IH2]; cbn.
  - done.
  - destruct (f x); cbn; by rewrite IH.
  - by destruct (f x), (f y).
  - by rewrite IH1.
Qed.

Lemma confirmedFor_insert_fresh sl sl' rt rt' (m : gmap N Booking) k b sid :
  m !! k = None ->
  length (confirmedFor (mkDb sl (<[k := b]> m) rt) sid)
  = ((if bool_decide (slotId b = sid /\ status b = confirmed) then 1 else 0)
     + length (confirmedFor (mkDb sl' m rt') sid))%nat.
Proof.
  intros Hk. unfold confirmedFor. cbn [bookings].
  rewrite (filter_length_perm _ _ _ (map_to_list_insert m k b Hk)). cbn.
  by destruct (bool_decide _).
Qed.

Lemma confirmedFor_update sl sl' rt rt' (m : gmap N Booking) k b b' sid :
  m !! k = Some b ->
  (length (confirmedFor (mkDb sl (<[k := b']> m) rt) sid)
   + (if bool_decide (slotId b = sid /\ status b = confirmed) then 1 else 0)
   = length (confirmedFor (mkDb sl' m rt') sid)
     + (if bool_decide (slotId b' = sid /\ status b' = confirmed) then 1 else 0))%nat.
Proof.
  intros Hk.
  rewrite <- (insert_delete_eq m k b').
  rewrite (confirmedFor_insert_fresh sl sl rt rt (delete k m) k b' sid)
    by apply lookup_delete_eq.
  rewrite <- (insert_delete_id m k b Hk) at 2.
  rewrite (confirmedFor_insert_fresh sl' sl rt' rt (delete k m) k b sid)
    by apply lookup_delete_eq.
  lia.
Qed.

Lemma inSync_book db user slotStr now :
  inSync db -> inSync (fst (exec (POST_book user slotStr now) db)).
Proof.
  intros Hsync. destruct (role user) eqn:Hrole.
  2: { unfold POST_book, requirePatient, requireRole.
       rewrite bool_decide_eq_false_2; [done|].
       rewrite Hrole. by intros Hin%list_elem_of_singleton. }
  rewrite exec_POST_book by done. unfold bookSlot_alone, bookOutcome.
  destruct slotStr as [str|]; [|done].
  destruct (String.eqb str ""); [done|].
  destruct (ObjectId.cast str) as [sid|]; [|done].
  destruct (slots db !! sid) as [slot|] eqn:Hs; [|done].
  destruct (isBooked slot) eqn:Hb; [done|].
  destruct (startAt slot <? now); [done|].
  destruct (hasOverlap _ _ _); [done|].
  destruct (endAt slot <=? startAt slot); [done|]. cbn [fst].
  intros sid'. pose proof (Hsync sid') as Hcount.
  rewrite (confirmedFor_insert_fresh _ (slots db) _ (retired db))
    by apply fresh_booking_None.
  replace (mkDb (slots db) (bookings db) (retired db)) with db by (by destruct db).
  cbn [slots slotId status].
  destruct (decide (sid = sid')) as [<-|Hne].
  - rewrite lookup_insert_eq. cbn. rewrite Hs, Hb in Hcount.
    rewrite bool_decide_eq_true_2 by done. lia.
  - rewrite lookup_insert_ne by done.
    rewrite bool_decide_eq_false_2 by (intros [? _]; done). lia.
Qed.

Lemma inSync_cancel db user str now :
  inSync db -> cancelsConfirmedOnly db (Cancel user str) ->
  inSync (fst (exec (PATCH_cancel user str now) db)).
Proof.
  intros Hsync Hconf. unfold PATCH_cancel. rewrite exec_cancelBooking.
  unfold cancelBooking_alone.
  destruct (ObjectId.cast str) as [bid|] eqn:Hc; [|done].
  destruct (bookings db !! bid) as [b|] eqn:Hb; [|done].
  destruct (negb _ && negb _); [done|].
  destruct (slots db !! slotId b) as [slot|] eqn:Hs; [|done].
  destruct (startAt slot <? now); [done|]. cbn [fst].
  assert (Hst : status b = confirmed) by (by apply (Hconf user str bid b)).
  intros sid'. pose proof (Hsync sid') as Hcount.
  pose proof (confirmedFor_update
                (<[slotId b := setIsBooked false slot]> (slots db)) (slots db)
                (retired db) (retired db)
                (bookings db) bid b (setStatus cancelled b) sid' Hb) as Hupd.
  replace (mkDb (slots db) (bookings db) (retired db)) with db in Hupd by (by destruct db).
  cbn [slotId status setStatus] in Hupd.
  rewrite (bool_decide_eq_false_2 (slotId b = sid' /\ cancelled = confirmed)) in Hupd
    by (intros [_ ?]; done).
  cbn [slots].
  destruct (decide (slotId b = sid')) as [<-|Hne].
  - rewrite lookup_insert_eq. cbn.
    rewrite bool_decide_eq_true_2 in Hupd by done.
    rewrite Hs in Hcount. destruct (isBooked slot); lia.
  - rewrite lookup_insert_ne by done.
    rewrite bool_decide_eq_false_2 in Hupd by (intros [? _]; done). lia.
Qed.

(** Every request keeps the flags in step with the confirmed bookings,
    unless it cancels a booking that is no longer confirmed. *)
Theorem inSync_preserved Date_parse tz r now db :
  inSync db -> cancelsConfirmedOnly db r ->
  inSync (fst (exec (handle Date_parse tz r now) db)).
Proof.
  intros Hsync Hconf.
  assert (Hturn : forall t, ensures turnsOver (fun _ => True) t ->
            inSync (fst (exec t db))).
  { intros t Ht. rewrite fst_exec. apply (inSync_turnsOver db); [done|apply Ht]. }
  assert (HQ : forall (s : nat) (c : string), (fun _ : response => True) (ErrorResponse s c))
    by done.
  destruct r as [user slotId | user str | user days | user s e | user slotId
                | user from to includeBooked | user from to]; cbn [handle].
  - by apply inSync_book.
  - by apply inSync_cancel.
  - apply Hturn, ensures_requireRole, turnsOver_generateSlots; [apply _|done].
  - apply Hturn, ensures_requireRole, turnsOver_addSlot; [apply _|done].
  - apply Hturn, ensures_requireRole, turnsOver_removeSlot; [apply _|done].
  - apply Hturn, turnsOver_getAvailableSlots.
  - apply Hturn, ensures_requireRole, turnsOver_getAllSlots; [apply _|done].
Qed.

Lemma inSync_empty : inSync emptyDb.
Proof. intros sid. cbn. by rewrite lookup_empty. Qed.

(** As long as no request cancels a booking that is no longer confirmed,
    a slot's flag is set exactly when one confirmed booking references
    it. *)
Theorem servedCleanly_flagInSync Date_parse tz db :
  servedCleanly Date_parse tz db -> flagInSync db.
Proof.
  intros Hclean. apply inSync_flagInSync.
  induction Hclean as [|db r now _ IH Hconf].
  - apply inSync_empty.
  - by apply inSync_preserved.
Qed.

(** ** The [isBooked] flag and the confirmed bookings *)

(** C6, evaluated. The flag and the confirmed bookings part ways in
    reachable states: after [Runs.staleCancel] the slot is flagged free
    while exactly one confirmed booking references it, and after
    [Runs.doubleBooked] it is flagged booked while two do. *)
Theorem flag_out_of_sync_reachable (Date_parse : string -> option Z) :
  let db1 := serve Date_parse 0 Runs.staleCancel emptyDb in
  let db2 := serve Date_parse 0 Runs.doubleBooked emptyDb in
  reachable Date_parse 0 db1 /\ reachable Date_parse 0 db2 /\
  (exists s, slots db1 !! 0%N = Some s /\ isBooked s = false /\
             length (confirmedFor db1 0) = 1%nat) /\
  (exists s, slots db2 !! 0%N = Some s /\ isBooked s = true /\
             length (confirmedFor db2 0) = 2%nat) /\
  ~ flagInSync db1 /\ ~ flagInSync db2.
Proof.
  cbv zeta.
  assert (H1 : exists s, slots (serve Date_parse 0 Runs.staleCancel emptyDb) !! 0%N = Some s /\
             isBooked s = false /\
             length (confirmedFor (serve Date_parse 0 Runs.staleCancel emptyDb) 0) = 1%nat).
  { eexists. split; [vm_compute; reflexivity|]. split; vm_compute; reflexivity. }
  assert (H2 : exists s, slots (serve Date_parse 0 Runs.doubleBooked emptyDb) !! 0%N = Some s /\
             isBooked s = true /\
             length (confirmedFor (serve Date_parse 0 Runs.doubleBooked emptyDb) 0) = 2%nat).
  { eexists. split; [vm_compute; reflexivity|]. split; vm_compute; reflexivity. }
  split; [by eexists|]. split; [by eexists|].
  split; [done|]. split; [done|]. split.
  - destruct H1 as (s & Hs & Hb & Hn). intros Hsync.
    apply (Hsync 0%N s Hs) in Hn. congruence.
  - destruct H2 as (s & Hs & Hb & Hn). intros Hsync.
    apply (Hsync 0%N s Hs) in Hb. congruence.
Qed.

(** ** The booking store *)

(** [booking.save()] of a new document consults the slot's flag and
    nothing else: its outcome does not depend on the bookings collection,
    and its refusal is a plain [Error] with no driver code. *)
Lemma saveNew_consults_only_flag db b slot :
  slots db !! slotId b = Some slot ->
  startAt slot < endAt slot ->
  run (Booking_saveNew b) db =
    if isBooked slot then (db, inl (Error "Slot is already booked"))
    else (mkDb (<[slotId b := setIsBooked true slot]> (slots db))
               (<[fresh (dom (bookings db)) := b]> (bookings db))
               (retired db),
          inr (fresh (dom (bookings db)))).
Proof.
  intros Hs Hse. unfold Booking_saveNew, Booking_preSave. cbn. rewrite Hs.
  destruct (isBooked slot) eqn:Hb; [done|].
  unfold Slot_save. cbn.
  assert (Hse' : (endAt slot <=? startAt slot) = false) by (apply Z.leb_gt; done).
  rewrite Hse'. cbn. unfold Slot_updateIsBooked. rewrite Hs. done.
Qed.

(** C2, evaluated. In the store reached by [Runs.staleCancel] the slot
    has a committed confirmed booking (P2's) and its flag is false; saving
    a second confirmed booking for the same slot is accepted, and the slot
    then has two confirmed bookings. Where the store does refuse (flag
    true), the error carries no code, so the handler's duplicate-key test
    ([error.code === 11000]) does not recognise it. *)
Theorem second_confirmed_booking_accepted :
  let db := serve IsoDate.parse 0 Runs.staleCancel emptyDb in
  let second := mkBooking 103 0 confirmed (Runs.clock 5) in
  map snd (confirmedFor db 0) = [mkBooking 102 0 confirmed (Runs.clock 3)] /\
  (exists db', run (Booking_saveNew second) db = (db', inr 2%N) /\
     map snd (confirmedFor db' 0)
       = [second; mkBooking 102 0 confirmed (Runs.clock 3)]) /\
  (exists e, run (Booking_saveNew second) Examples.rebooked = (Examples.rebooked, inl e) /\
     exn_code e = None).
Proof.
  cbv zeta. split; [vm_compute; reflexivity|]. split.
  - eexists. split; vm_compute; reflexivity.
  - eexists. split; vm_compute; reflexivity.
Qed.

(** ** Requests in flight together *)

(** A request with no competitor, resumed until it finishes, does what
    [run] says. *)
Lemma interleave_alone {A} (t : task A) :
  forall db, exists n,
    interleave (replicate n 0%nat) [t] db
    = (fst (run t db),
       [match snd (run t db) with inr a => Ret a | inl e => Throw e end]).
Proof.
  induction t as [a | e | X op k IH]; intros db.
  - by exists 0%nat.
  - by exists 0%nat.
  - cbn [run]. destruct (op db) as [db' x] eqn:Hop.
    destruct (IH x db') as [n Hn].
    exists (S n). cbn. rewrite Hop. exact Hn.
Qed.

(** C1, evaluated. Two [bookSlot] requests by different patients for the
    same free slot, interleaved at their [await] points so that both pass
    the [isBooked] checks before either writes: both are answered 201 and
    the slot ends with two confirmed bookings. When both pass the
    controller's check and the saves then happen one after the other, the
    second is refused by the save hook and answered 500 BOOKING_ERROR, not
    409 SLOT_TAKEN. *)
Theorem concurrent_bookSlot_not_exclusive :
  (let '(db', pool') := interleave Runs.bothReadFirst Runs.racers Runs.generated in
   map answer pool'
     = [ Some (BookingCreated 0 0 Examples.t0900 Examples.t0930 confirmed (Runs.clock 1));
         Some (BookingCreated 1 0 Examples.t0900 Examples.t0930 confirmed (Runs.clock 1)) ]
   /\ map (fun kv => userId (snd kv)) (confirmedFor db' 0) = [102%N; 101%N]) /\
  (let '(db', pool') := interleave Runs.bothCheckFirst Runs.racers Runs.generated in
   map answer pool'
     = [ Some (BookingCreated 0 0 Examples.t0900 Examples.t0930 confirmed (Runs.clock 1));
         Some (ErrorResponse 500 "BOOKING_ERROR") ]
   /\ map (fun kv => userId (snd kv)) (confirmedFor db' 0) = [101%N]).
Proof. vm_compute. repeat split. Qed.

(** ** Listing slots *)

Lemma ceilDiv_day k r :
  0 < r < Time.msPerDay ->
  Time.ceilDiv (k * Time.msPerDay + r) (1000 * 60 * 60 * 24) = k + 1.
Proof.
  unfold Time.ceilDiv, Time.msPerDay. intros Hr.
  assert (H : (- (k * (1000 * 60 * 60 * 24) + r)) / (1000 * 60 * 60 * 24) = - k - 1).
  { symmetry. apply (Z.div_unique_pos _ _ _ (1000 * 60 * 60 * 24 - r)); lia. }
  rewrite H. lia.
Qed.

Lemma range_span f t :
  Time.utcAt t 23 59 59 - Time.utcAt f 0 0 0
  = (Time.utcDay t - Time.utcDay f) * Time.msPerDay + 86399000.
Proof. unfold Time.utcAt, Time.msPerDay, Time.msPerHour, Time.msPerMinute. lia. Qed.

(** C8, as stated, fails at a range of exactly 7 days: from 2025-08-21 to
    2025-08-28 the difference of the dates is 7 days, not more, [from] is
    not in the past, and the patient-facing listing answers
    DATE_RANGE_TOO_LARGE. *)
Lemma seven_day_range_refused :
  let from := "2025-08-21" in
  let to := "2025-08-28" in
  let now := Examples.earlier - 2 * Time.msPerDay in
  let resp := snd (exec (getAvailableSlots IsoDate.parse 0 (Some from) (Some to) None now)
                        Runs.generated) in
  exists f t,
    IsoDate.parse from = Some f /\ IsoDate.parse to = Some t /\
    Time.setHours0 0 now <= f /\
    t - f = 7 * Time.msPerDay /\
    resp = ErrorResponse 400 "DATE_RANGE_TOO_LARGE" /\
    ~ (resp = ErrorResponse 400 "DATE_RANGE_TOO_LARGE" <-> 7 * Time.msPerDay < t - f).
Proof.
  cbv zeta. eexists _, _.
  split; [vm_compute; reflexivity|].
  split; [vm_compute; reflexivity|].
  split; [vm_compute; discriminate|].
  split; [vm_compute; reflexivity|].
  split; [vm_compute; reflexivity|].
  intros [H _]. assert (Hlt : 7 * Time.msPerDay < 1756339200000 - 1755734400000).
  { apply H. vm_compute. reflexivity. }
  vm_compute in Hlt. discriminate.
Qed.

(** C8, amended. With [from] not before the current day, the
    patient-facing listing answers DATE_RANGE_TOO_LARGE exactly when the
    date [to] is 7 or more days after the date [from], that is, when the
    span from 00:00:00 of [from] to 23:59:59 of [to] exceeds 7 days; when
    [to] is at most 6 days after [from] (at most 7 calendar days in all)
    it proceeds to the listing. The admin listing proceeds whatever the
    range. *)
Theorem range_limit Date_parse tz from to includeBooked now db f t :
  truthy from = true -> truthy to = true ->
  Date_parse (default "" from) = Some f ->
  Date_parse (default "" to) = Some t ->
  Time.setHours0 tz now <= Time.utcAt f 0 0 0 ->
  let days := Time.utcDay t - Time.utcDay f in
  let fromDate := Time.utcAt f 0 0 0 in
  let toDate := Time.utcAt t 23 59 59 in
  (snd (exec (getAvailableSlots Date_parse tz from to includeBooked now) db)
     = ErrorResponse 400 "DATE_RANGE_TOO_LARGE" <-> 7 <= days) /\
  (7 <= days <-> 7 * Time.msPerDay < toDate - fromDate) /\
  (days <= 6 ->
   exists groups n,
     exec (getAvailableSlots Date_parse tz from to includeBooked now) db
       = (db, SlotsListed groups n fromDate toDate)) /\
  (exists groups n,
     exec (getAllSlots Date_parse from to) db = (db, SlotsListed groups n fromDate toDate)).
Proof.
  intros Hfrom Hto Hf Ht Hpast days fromDate toDate.
  assert (Hspan : toDate - fromDate = days * Time.msPerDay + 86399000)
    by apply range_span.
  assert (Hceil : Time.ceilDiv (toDate - fromDate) (1000 * 60 * 60 * 24) = days + 1).
  { rewrite Hspan. apply ceilDiv_day. unfold Time.msPerDay. lia. }
  assert (Hnotpast : (fromDate <? Time.setHours0 tz now) = false)
    by (apply Z.ltb_ge; exact Hpast).
  assert (Hexec : exec (getAvailableSlots Date_parse tz from to includeBooked now) db
                  = if 7 <? days + 1
                    then (db, ErrorResponse 400 "DATE_RANGE_TOO_LARGE")
                    else (db, SlotsListed
                                (groupByDate (snd (Slot_findRange fromDate toDate
                                                     (negb (truthy includeBooked)) db)))
                                (length (snd (Slot_findRange fromDate toDate
                                                (negb (truthy includeBooked)) db)))
                                fromDate toDate)).
  { unfold getAvailableSlots, exec, resolveDate. rewrite Hfrom, Hto, Hf, Ht. cbn.
    fold fromDate toDate. rewrite Hnotpast, Hceil.
    by destruct (7 <? days + 1). }
  split; [|split; [|split]].
  - rewrite Hexec. destruct (7 <? days + 1) eqn:E; cbn.
    + apply Z.ltb_lt in E. split; [lia|done].
    + apply Z.ltb_ge in E. split; [discriminate|lia].
  - rewrite Hspan. unfold Time.msPerDay. lia.
  - intros Hle. rewrite Hexec.
    assert (E : (7 <? days + 1) = false) by (apply Z.ltb_ge; lia).
    rewrite E. by eexists _, _.
  - unfold getAllSlots, exec, resolveDate. rewrite Hfrom, Hto, Hf, Ht. cbn.
    by eexists _, _.
Qed.

Lemma range_limit_witness :
  let from := Some "2025-08-21" in
  let to := Some "2025-08-27" in
  let now := Examples.earlier - 2 * Time.msPerDay in
  let f := 1755734400000 in
  let t := 1756252800000 in
  let days := Time.utcDay t - Time.utcDay f in
  let fromDate := Time.utcAt f 0 0 0 in
  let toDate := Time.utcAt t 23 59 59 in
  (snd (exec (getAvailableSlots IsoDate.parse 0 from to None now) Runs.generated)
     = ErrorResponse 400 "DATE_RANGE_TOO_LARGE" <-> 7 <= days) /\
  (7 <= days <-> 7 * Time.msPerDay < toDate - fromDate) /\
  (days <= 6 ->
   exists groups n,
     exec (getAvailableSlots IsoDate.parse 0 from to None now) Runs.generated
       = (Runs.generated, SlotsListed groups n fromDate toDate)) /\
  (exists groups n,
     exec (getAllSlots IsoDate.parse from to) Runs.generated
       = (Runs.generated, SlotsListed groups n fromDate toDate)).
Proof.
  intros from to now f t.
  apply (range_limit IsoDate.parse 0 from to None now Runs.generated f t).
  - reflexivity.
  - reflexivity.
  - vm_compute. reflexivity.
  - vm_compute. reflexivity.
  - vm_compute. discriminate.
Defined.

(** Seven calendar days, 2025-08-25 to 2025-08-31, are listed: the sixteen
    slots of the Monday. *)
Example week_listed :
  match snd (exec (getAvailableSlots IsoDate.parse 0 (Some "2025-08-25") (Some "2025-08-31")
                     None (Examples.earlier)) Runs.generated) with
  | SlotsListed groups n _ _ => (map fst groups, n) = ([20325], 16%nat)
  | _ => False
  end.
Proof. vm_compute. reflexivity. Qed.

(** ** Generating slots *)

Section ListFacts.

Context {A B : Type}.

Lemma filter_flat_map (p : B -> bool) (h : A -> list B) (l : list A) :
  List.filter p (flat_map h l) = flat_map (fun x => List.filter p (h x)) l.
Proof.
  induction l as [|x l IH]; cbn; [done|].
  by rewrite List.filter_app, IH.
Qed.

Lemma filter_all (p : B -> bool) (l : list B) :
  (forall x, In x l -> p x = true) -> List.filter p l = l.
Proof.
  induction l as [|x l IH]; cbn; intros H; [done|].
  rewrite (H x) by (by left). f_equal. apply IH. intros y Hy. apply H. by right.
Qed.

Lemma filter_none (p : B -> bool) (l : list B) :
  (forall x, In x l -> p x = false) -> List.filter p l = [].
Proof.
  induction l as [|x l IH]; cbn; intros H; [done|].
  rewrite (H x) by (by left). apply IH. intros y Hy. apply H. by right.
Qed.

End ListFacts.

(** A loop whose body only appends to the accumulator what a pure function
    of the store yields. *)
Lemma run_forEach_append {A S} (xs : list A) (body : A -> list S -> task (list S))
    (g : A -> list S) db :
  (forall x acc, run (body x acc) db = (db, inr (acc ++ g x))) ->
  forall acc, run (forEach xs body acc) db = (db, inr (acc ++ flat_map g xs)).
Proof.
  intros Hbody. induction xs as [|x xs IH]; intros acc; cbn.
  - by rewrite app_nil_r.
  - rewrite run_bind, Hbody, IH. by rewrite <- app_assoc.
Qed.

Lemma run_generateSlots_slot currentDate hour minute acc db :
  let s := mkSlot (Time.utcAt currentDate hour minute 0)
                  (Time.setUTCMinutesPlus (Time.utcAt currentDate hour minute 0) 30)
                  false in
  run (generateSlots_slot currentDate hour minute acc) db
  = (db, inr (acc ++ List.filter (fun s => negb (windowExists db s)) [s])).
Proof.
  cbn. unfold windowExists. cbn.
  destruct (List.find _ _); cbn; [by rewrite app_nil_r|done].
Qed.

Lemma utcDay_window day i :
  0 <= i < 16 -> Time.utcDay (startAt (Spec.window day i)) = day.
Proof.
  intros Hi. unfold Spec.window, Time.utcDay. cbn [startAt].
  symmetry. apply (Z.div_unique_pos _ _ _ (9 * Time.msPerHour + i * (30 * Time.msPerMinute))).
  - unfold Time.msPerHour, Time.msPerMinute, Time.msPerDay. lia.
  - lia.
Qed.

Lemma utcDay_daySlots day s :
  In s (Spec.daySlots day) -> Time.utcDay (startAt s) = day.
Proof.
  unfold Spec.daySlots. intros (i & <- & Hi)%in_map_iff.
  apply utcDay_window. apply list_elem_of_In, elem_of_seqZ in Hi. lia.
Qed.

(** The slots the loop visits on one weekday are that day's sixteen
    windows. *)
Lemma day_windows currentDate day :
  Time.utcDay currentDate = day ->
  flat_map (fun hour =>
    flat_map (fun minute =>
      [mkSlot (Time.utcAt currentDate hour minute 0)
              (Time.setUTCMinutesPlus (Time.utcAt currentDate hour minute 0) 30) false])
      [0; 30]) (seqZ 9 8)
  = Spec.daySlots day.
Proof.
  intros Hday. unfold Spec.daySlots, Spec.window, Time.utcAt, Time.setUTCMinutesPlus.
  rewrite Hday.
  assert (Hhours : seqZ 9 8 = [9; 10; 11; 12; 13; 14; 15; 16]) by reflexivity.
  assert (Hidx : seqZ 0 16 = [0; 1; 2; 3; 4; 5; 6; 7; 8; 9; 10; 11; 12; 13; 14; 15])
    by reflexivity.
  rewrite Hhours, Hidx. cbn [flat_map map app].
  unfold Time.msPerDay, Time.msPerHour, Time.msPerMinute.
  repeat (f_equal; [f_equal; lia|]). f_equal. f_equal; lia.
Qed.

Lemma localDay_morning tz t day :
  - 9 * Time.msPerHour <= tz < 15 * Time.msPerHour ->
  Time.localDay tz (Time.setDatePlus (Time.utcAt t 9 0 0) day) = Time.utcDay t + day.
Proof.
  intros Htz. unfold Time.localDay, Time.setDatePlus, Time.utcAt.
  symmetry. apply (Z.div_unique_pos _ _ _ (9 * Time.msPerHour + tz)).
  - unfold Time.msPerHour, Time.msPerDay in *. lia.
  - unfold Time.msPerHour, Time.msPerDay, Time.msPerMinute in *. lia.
Qed.

Lemma utcDay_morning t day :
  Time.utcDay (Time.setDatePlus (Time.utcAt t 9 0 0) day) = Time.utcDay t + day.
Proof.
  pose proof (localDay_morning 0 t day) as H. unfold Time.localDay in H.
  rewrite Z.add_0_r in H. apply H. unfold Time.msPerHour. lia.
Qed.

(** The loops of [generateSlots] collect, in order, the specified slots
    that the store does not hold yet, and write nothing. *)
Lemma run_generateSlots_loop tz t days db :
  - 9 * Time.msPerHour <= tz < 15 * Time.msPerHour ->
  run (generateSlots_loop tz (Time.utcAt t 9 0 0) days) db
  = (db, inr (List.filter (fun s => negb (windowExists db s))
                          (Spec.generateWeekdaySlots (Time.utcDay t) days))).
Proof.
  intros Htz. unfold generateSlots_loop, Spec.generateWeekdaySlots.
  rewrite filter_flat_map.
  apply (run_forEach_append (seqZ 0 days) _
           (fun d => List.filter (fun s => negb (windowExists db s))
                       (if Spec.isWeekend (Time.utcDay t + d) then []
                        else Spec.daySlots (Time.utcDay t + d)))).
  intros day acc. unfold Time.getDay. rewrite (localDay_morning tz t day Htz).
  unfold Spec.isWeekend.
  destruct (((Time.utcDay t + day + 4) mod 7 =? 0) || ((Time.utcDay t + day + 4) mod 7 =? 6)).
  { cbn. by rewrite app_nil_r. }
  rewrite <- (day_windows (Time.setDatePlus (Time.utcAt t 9 0 0) day))
    by apply utcDay_morning.
  rewrite filter_flat_map.
  apply run_forEach_append. intros hour acc'.
  rewrite filter_flat_map.
  apply run_forEach_append. intros minute acc''.
  apply run_generateSlots_slot.
Qed.

(** Of the specified slots, those of one day of the window. *)
Lemma generateWeekdaySlots_onDay startDay days d :
  0 <= d < days ->
  Spec.onDay (startDay + d) (Spec.generateWeekdaySlots startDay days)
  = if Spec.isWeekend (startDay + d) then [] else Spec.daySlots (startDay + d).
Proof.
  intros Hd. unfold Spec.generateWeekdaySlots, Spec.onDay.
  set (F := fun d => if Spec.isWeekend (startDay + d) then []
                     else Spec.daySlots (startDay + d)).
  set (p := fun x => fun s : Slot => Time.utcDay (startAt s) =? startDay + x).
  assert (HF : forall x s, In s (F x) -> Time.utcDay (startAt s) = startDay + x).
  { intros x s. unfold F. destruct (Spec.isWeekend _); [done|]. apply utcDay_daySlots. }
  assert (Hgen : forall l, NoDup l -> d ∈ l ->
            List.filter (p d) (flat_map F l) = F d).
  { induction l as [|a l IH]; intros Hnd Hin; [by apply elem_of_nil in Hin|].
    apply NoDup_cons in Hnd as [Ha Hnd]. cbn. rewrite List.filter_app.
    apply elem_of_cons in Hin as [<- | Hin].
    - rewrite filter_all.
      2: { intros s Hs. unfold p. apply Z.eqb_eq. by apply HF. }
      rewrite filter_none; [by rewrite app_nil_r|].
      intros s (x & Hx & Hs)%in_flat_map. unfold p. apply Z.eqb_neq.
      rewrite (HF x s Hs). intros Heq. apply Ha.
      assert (x = d) as <- by lia. by apply list_elem_of_In.
    - rewrite filter_none.
      2: { intros s Hs. unfold p. apply Z.eqb_neq. rewrite (HF a s Hs).
           intros Heq. apply Ha. assert (a = d) as -> by lia. done. }
      cbn. by apply IH. }
  apply Hgen; [apply NoDup_seqZ|]. apply elem_of_seqZ. lia.
Qed.

Lemma daySlots_spec day :
  length (Spec.daySlots day) = 16%nat /\
  forall i, 0 <= i < 16 ->
    Spec.daySlots day !! Z.to_nat i
    = Some (mkSlot (day * Time.msPerDay + 9 * Time.msPerHour + i * (30 * Time.msPerMinute))
                   (day * Time.msPerDay + 9 * Time.msPerHour + (i + 1) * (30 * Time.msPerMinute))
                   false).
Proof.
  split; [reflexivity|]. intros i Hi. unfold Spec.daySlots.
  assert (Hl : seqZ 0 16 !! Z.to_nat i = Some i).
  { rewrite lookup_seqZ. split; lia. }
  change (map (Spec.window day) (seqZ 0 16)) with (Spec.window day <$> seqZ 0 16).
  rewrite list_lookup_fmap, Hl. cbn. unfold Spec.window. f_equal. f_equal. lia.
Qed.

(** Where the server's local day at 09:00 UTC is the UTC day (a clock from
    9 hours behind UTC to less than 15 hours ahead), for a window of
    [days] days (1 to 30) starting tomorrow, the loops of [generateSlots]
    visit exactly the specified slots: for each day of the window that is
    not a Saturday or Sunday, sixteen thirty-minute slots from 09:00 to
    17:00, and none on a Saturday or Sunday. The documents inserted are
    those of them the store does not hold yet, all of them when it holds
    none. *)
Theorem generateSlots_weekdays tz now days db :
  - 9 * Time.msPerHour <= tz < 15 * Time.msPerHour ->
  1 <= days <= 30 ->
  let startDay := Time.utcDay now + 1 in
  let startDate := startDay * Time.msPerDay + 9 * Time.msPerHour in
  let produced := Spec.generateWeekdaySlots startDay days in
  let docs := List.filter (fun s => negb (windowExists db s)) produced in
  exec (generateSlots tz (Some days) now) db
    = (fst (Slot_insertMany docs db),
       SlotsGenerated (length docs) startDate (startDate + (days - 1) * Time.msPerDay)) /\
  ((forall s, In s produced -> windowExists db s = false) -> docs = produced) /\
  (forall d, 0 <= d < days ->
     Spec.onDay (startDay + d) produced
     = if Spec.isWeekend (startDay + d) then [] else Spec.daySlots (startDay + d)) /\
  (forall day,
     length (Spec.daySlots day) = 16%nat /\
     forall i, 0 <= i < 16 ->
       Spec.daySlots day !! Z.to_nat i
       = Some (mkSlot
                 (day * Time.msPerDay + 9 * Time.msPerHour + i * (30 * Time.msPerMinute))
                 (day * Time.msPerDay + 9 * Time.msPerHour + (i + 1) * (30 * Time.msPerMinute))
                 false)).
Proof.
  intros Htz Hdays startDay startDate produced docs.
  assert (Hday : Time.utcDay (Time.setUTCDatePlus now 1) = startDay).
  { unfold Time.setUTCDatePlus, Time.utcDay, startDay.
    apply Z.div_add. unfold Time.msPerDay. lia. }
  assert (Hstart : Time.utcAt (Time.setUTCDatePlus now 1) 9 0 0 = startDate).
  { unfold Time.utcAt. rewrite Hday. unfold startDate. lia. }
  split; [|split; [|split]].
  - assert (Hrange : (days <? 1) || (30 <? days) = false).
    { apply orb_false_iff. split; [apply Z.ltb_ge|apply Z.ltb_ge]; lia. }
    unfold generateSlots, exec. change (default 7 (Some days)) with days.
    cbv zeta. rewrite Hrange.
    rewrite run_catch, run_bind, (run_generateSlots_loop tz _ days db Htz), Hday.
    fold produced. fold docs. rewrite Hstart.
    rewrite run_bind.
    destruct docs as [|doc docs']; cbn; [f_equal; f_equal; unfold Time.msPerDay; lia|].
    f_equal. f_equal. unfold Time.msPerDay. lia.
  - intros Hnew. apply filter_all. intros s Hs. by rewrite Hnew.
  - intros d Hd. by apply generateWeekdaySlots_onDay.
  - apply daySlots_spec.
Qed.

Lemma generateSlots_weekdays_witness :
  let tz := 0 in
  let now := Examples.earlier in
  let days := 7 in
  let db := emptyDb in
  let startDay := Time.utcDay now + 1 in
  let startDate := startDay * Time.msPerDay + 9 * Time.msPerHour in
  let produced := Spec.generateWeekdaySlots startDay days in
  let docs := List.filter (fun s => negb (windowExists db s)) produced in
  exec (generateSlots tz (Some days) now) db
    = (fst (Slot_insertMany docs db),
       SlotsGenerated (length docs) startDate (startDate + (days - 1) * Time.msPerDay)) /\
  ((forall s, In s produced -> windowExists db s = false) -> docs = produced) /\
  (forall d, 0 <= d < days ->
     Spec.onDay (startDay + d) produced
     = if Spec.isWeekend (startDay + d) then [] else Spec.daySlots (startDay + d)) /\
  (forall day,
     length (Spec.daySlots day) = 16%nat /\
     forall i, 0 <= i < 16 ->
       Spec.daySlots day !! Z.to_nat i
       = Some (mkSlot
                 (day * Time.msPerDay + 9 * Time.msPerHour + i * (30 * Time.msPerMinute))
                 (day * Time.msPerDay + 9 * Time.msPerHour + (i + 1) * (30 * Time.msPerMinute))
                 false)).
Proof.
  apply (generateSlots_weekdays 0 Examples.earlier 7 emptyDb).
  - unfold Time.msPerHour. lia.
  - lia.
Defined.

(** A seven-day window that starts on a Saturday (2025-08-23), generated
    into an empty store: no slot on the first two days, sixteen on each of
    the five that follow. *)
Example saturday_week :
  let db := fst (exec (generateSlots 0 (Some 7) Examples.earlier) emptyDb) in
  let made := map snd (map_to_list (slots db)) in
  Time.getUTCDay (20323 * Time.msPerDay) = 6 /\
  map (fun d => length (Spec.onDay (20323 + d) made)) (seqZ 0 7)
  = [0; 0; 16; 16; 16; 16; 16]%nat.
Proof. vm_compute. split; reflexivity. Qed.

(** C9, evaluated. The slots are built on the UTC calendar, but the
    weekend test reads [getDay()] of a date moved with [setDate()], both on
    the server's local calendar.  On a server ten hours behind UTC
    (Pacific/Honolulu), 09:00 UTC is 23:00 of the day before: an admin who
    asks for seven days on Friday 2025-08-22, 12:00 UTC, gets sixteen slots
    on Saturday 2025-08-23 and none on Monday 2025-08-25, against the
    claim. *)
Theorem saturday_week_far_west :
  let tz := - 10 * Time.msPerHour in
  let startDay := Time.utcDay Examples.earlier + 1 in
  let db := fst (exec (handle IsoDate.parse tz (Generate Runs.A1 (Some 7)) Examples.earlier)
                      emptyDb) in
  let made := map snd (map_to_list (slots db)) in
  startDay = 20323 /\ Time.getUTCDay (startDay * Time.msPerDay) = 6 /\
  map (fun d => Spec.isWeekend (startDay + d)) (seqZ 0 7)
  = [true; true; false; false; false; false; false] /\
  map (fun d => length (Spec.onDay (startDay + d) made)) (seqZ 0 7)
  = [16; 0; 0; 16; 16; 16; 16]%nat /\
  ~ (forall d, 0 <= d < 7 ->
       Spec.onDay (startDay + d) made
       = if Spec.isWeekend (startDay + d) then [] else Spec.daySlots (startDay + d)).
Proof.
  cbv zeta.
  split; [reflexivity|]. split; [reflexivity|]. split; [reflexivity|].
  split; [vm_compute; reflexivity|].
  intros H. specialize (H 0 ltac:(lia)). apply (f_equal length) in H.
  vm_compute in H. discriminate H.
Qed.

(** * Further properties of the handlers *)

(** ** The slot handlers served alone *)

Lemma windowExists_spec db s :
  windowExists db s = true <->
  exists id x, slots db !! id = Some x /\ startAt x = startAt s /\ endAt x = endAt s.
Proof.
  unfold windowExists. cbn.
  destruct (List.find _ _) as [[id x]|] eqn:E.
  - split; [intros _|done]. apply find_some in E as [Hin Hf]. cbn in Hf.
    apply In_map_to_list in Hin. apply andb_true_iff in Hf as [H1 H2].
    exists id, x. by rewrite Z.eqb_eq in H1, H2.
  - split; [done|]. intros (id & x & Hx & H1 & H2).
    apply In_map_to_list in Hx. pose proof (find_none _ _ E _ Hx) as Hf. cbn in Hf.
    rewrite H1, H2, !Z.eqb_refl in Hf. done.
Qed.

Lemma exec_removeSlot db str :
  exec (removeSlot str) db =
  match ObjectId.cast str with
  | None => (db, ErrorResponse 500 "REMOVE_SLOT_ERROR")
  | Some sid =>
      match slots db !! sid with
      | None => (db, ErrorResponse 404 "SLOT_NOT_FOUND")
      | Some slot =>
          if isBooked slot then (db, ErrorResponse 400 "SLOT_BOOKED")
          else (mkDb (delete sid (slots db)) (bookings db) ({[sid]} ∪ retired db),
                SlotRemoved)
      end
  end.
Proof.
  unfold removeSlot, exec. destruct (ObjectId.cast str) as [sid|]; [|done]. cbn.
  destruct (slots db !! sid) as [slot|] eqn:Hs; [|done].
  destruct (isBooked slot); [done|]. cbn. unfold Slot_findByIdAndDelete. by rewrite Hs.
Qed.

Lemma exec_addSlot Date_parse db s e :
  exec (addSlot Date_parse s e) db =
  if negb (truthy s) || negb (truthy e) then (db, ErrorResponse 400 "MISSING_DATES")
  else
    match Date_parse (default "" s), Date_parse (default "" e) with
    | Some startDate, Some endDate =>
        if endDate <=? startDate then (db, ErrorResponse 400 "INVALID_TIME_RANGE")
        else if windowExists db (mkSlot startDate endDate false)
        then (db, ErrorResponse 409 "SLOT_EXISTS")
        else
          (mkDb (<[newSlotId db := mkSlot startDate endDate false]> (slots db))
                (bookings db) (retired db),
           SlotAdded (newSlotId db) startDate endDate
                     (durationMinutes (mkSlot startDate endDate false)))
    | _, _ => (db, ErrorResponse 400 "INVALID_DATE_FORMAT")
    end.
Proof.
  unfold addSlot, exec, windowExists. destruct (negb (truthy s) || negb (truthy e)); [done|].
  destruct (Date_parse (default "" s)) as [startDate|]; [|done].
  destruct (Date_parse (default "" e)) as [endDate|]; [|done].
  destruct (endDate <=? startDate) eqn:Hse; [done|]. cbn.
  destruct (List.find _ _); [done|]. cbn. by rewrite Hse.
Qed.



Lemma run_generateSlots_loop_any tz startDate days db :
  run (generateSlots_loop tz startDate days) db
  = (db, inr (List.filter (fun s => negb (windowExists db s))
                          (generateSlots_visits tz startDate days))).
Proof.
  unfold generateSlots_loop, generateSlots_visits.
  rewrite filter_flat_map.
  match goal with
  | |- _ = (_, inr (flat_map ?g _)) => apply (run_forEach_append (seqZ 0 days) _ g)
  end.
  intros day acc. cbv zeta.
  destruct ((Time.getDay tz _ =? 0) || (Time.getDay tz _ =? 6)).
  { cbn. by rewrite app_nil_r. }
  rewrite filter_flat_map.
  apply run_forEach_append. intros hour acc'.
  rewrite filter_flat_map.
  apply run_forEach_append. intros minute acc''.
  apply run_generateSlots_slot.
Qed.

Lemma exec_generateSlots tz body_days now db :
  let days := default 7 body_days in
  let startDate := Time.utcAt (Time.setUTCDatePlus now 1) 9 0 0 in
  exec (generateSlots tz body_days now) db =
  if (days <? 1) || (30 <? days) then (db, ErrorResponse 400 "INVALID_DAYS")
  else (fst (Slot_insertMany (generateSlots_docs tz now days db) db),
        SlotsGenerated (length (generateSlots_docs tz now days db)) startDate
          (startDate + (days - 1) * 24 * 60 * 60 * 1000)).
Proof.
  intros days startDate. unfold generateSlots, exec. fold days. cbv zeta.
  destruct ((days <? 1) || (30 <? days)); [done|].
  rewrite run_catch, run_bind, run_generateSlots_loop_any.
  fold startDate. unfold generateSlots_docs. fold startDate.
  set (docs := List.filter _ _).
  rewrite run_bind. by destruct docs.
Qed.



(** ** What an error answer leaves behind *)

Lemma exec_requireRole roles user t db :
  exec (requireRole roles user t) db =
  if bool_decide (role user ∈ roles) then exec t db
  else (db, ErrorResponse 403 "INSUFFICIENT_PERMISSIONS").
Proof. unfold requireRole. by destruct (bool_decide _). Qed.

Lemma exec_getAvailableSlots_reads Date_parse tz from to includeBooked now db :
  fst (exec (getAvailableSlots Date_parse tz from to includeBooked now) db) = db.
Proof.
  unfold getAvailableSlots, exec, resolveDate.
  destruct (negb (truthy from) || negb (truthy to)); [done|].
  destruct (Date_parse (default "" from)); [|done].
  destruct (Date_parse (default "" to)); [|done]. cbn.
  destruct (_ <? Time.setHours0 tz now); [done|]. cbn.
  by destruct (7 <? _).
Qed.

Lemma exec_getAllSlots_reads Date_parse from to db :
  fst (exec (getAllSlots Date_parse from to) db) = db.
Proof.
  unfold getAllSlots, exec, resolveDate.
  destruct (negb (truthy from) || negb (truthy to)); [done|].
  destruct (Date_parse (default "" from)); [|done].
  by destruct (Date_parse (default "" to)).
Qed.

(** Served alone, a request that is answered with an error leaves both
    collections exactly as they were: no handler writes before it
    refuses. *)
Theorem error_answers_change_nothing Date_parse tz r now db s c :
  snd (exec (handle Date_parse tz r now) db) = ErrorResponse s c ->
  fst (exec (handle Date_parse tz r now) db) = db.
Proof.
  destruct r as [user slotStr | user str | user days | user s0 e0 | user str
                | user from to includeBooked | user from to]; cbn [handle].
  - unfold POST_book, requirePatient. rewrite exec_requireRole.
    destruct (bool_decide _); [|done]. rewrite exec_bookSlot.
    unfold bookSlot_alone, bookOutcome. cbn [body_slotId bookSlotValidation].
    destruct slotStr as [str|]; [|done].
    destruct (String.eqb str ""); [done|].
    destruct (ObjectId.cast str) as [sid|]; [|done].
    destruct (slots db !! sid) as [slot|]; [|done].
    destruct (isBooked slot); [done|].
    destruct (startAt slot <? now); [done|].
    destruct (hasOverlap _ _ _); [done|].
    destruct (endAt slot <=? startAt slot); [done|]. cbn. discriminate.
  - unfold PATCH_cancel. rewrite exec_cancelBooking. unfold cancelBooking_alone.
    destruct (ObjectId.cast str) as [bid|]; [|done].
    destruct (bookings db !! bid) as [b|]; [|done].
    destruct (negb _ && negb _); [done|].
    destruct (slots db !! slotId b) as [slot|]; [|done].
    destruct (startAt slot <? now); [done|]. cbn. discriminate.
  - unfold requireAdmin. rewrite exec_requireRole.
    destruct (bool_decide _); [|done]. rewrite exec_generateSlots. cbv zeta.
    destruct (_ || _); [done|]. cbn. discriminate.
  - unfold requireAdmin. rewrite exec_requireRole.
    destruct (bool_decide _); [|done]. rewrite exec_addSlot.
    destruct (_ || _); [done|].
    destruct (Date_parse (default "" s0)); [|done].
    destruct (Date_parse (default "" e0)); [|done].
    destruct (_ <=? _); [done|].
    destruct (windowExists _ _); [done|]. cbn. discriminate.
  - unfold requireAdmin. rewrite exec_requireRole.
    destruct (bool_decide _); [|done]. rewrite exec_removeSlot.
    destruct (ObjectId.cast str) as [sid|]; [|done].
    destruct (slots db !! sid) as [slot|]; [|done].
    destruct (isBooked slot); [done|]. cbn. discriminate.
  - intros _. apply exec_getAvailableSlots_reads.
  - unfold requireAdmin. rewrite exec_requireRole.
    destruct (bool_decide _); [|done]. intros _. apply exec_getAllSlots_reads.
Qed.

Lemma error_answers_change_nothing_witness :
  fst (exec (handle IsoDate.parse 0 (Book Examples.P2 (Some Examples.slotA)) Examples.earlier)
            Examples.rebooked)
  = Examples.rebooked.
Proof.
  apply (error_answers_change_nothing IsoDate.parse 0
           (Book Examples.P2 (Some Examples.slotA)) Examples.earlier Examples.rebooked
           409 "SLOT_TAKEN").
  vm_compute. reflexivity.
Defined.

(** ** Who can change what *)

Lemma not_admin_gate user (t : task response) db :
  role user <> admin ->
  exec (requireAdmin user t) db = (db, ErrorResponse 403 "INSUFFICIENT_PERMISSIONS").
Proof.
  intros Hrole. unfold requireAdmin. rewrite exec_requireRole.
  rewrite bool_decide_eq_false_2; [done|]. by intros Hin%list_elem_of_singleton.
Qed.

Lemma not_patient_gate user (t : task response) db :
  role user <> patient ->
  exec (requirePatient user t) db = (db, ErrorResponse 403 "INSUFFICIENT_PERMISSIONS").
Proof.
  intros Hrole. unfold requirePatient. rewrite exec_requireRole.
  rewrite bool_decide_eq_false_2; [done|]. by intros Hin%list_elem_of_singleton.
Qed.

(** The slots after a [bookSlot] or a [cancelBooking]: the same slots, one
    of them possibly with its flag changed. *)
Lemma slots_after_book db user slotStr now sid :
  windowOf <$> slots (fst (exec (POST_book user slotStr now) db)) !! sid
  = windowOf <$> slots db !! sid.
Proof.
  unfold POST_book, requirePatient. rewrite exec_requireRole.
  destruct (bool_decide _); [|done]. rewrite exec_bookSlot.
  unfold bookSlot_alone, bookOutcome. cbn [body_slotId bookSlotValidation].
  destruct slotStr as [str|]; [|done].
  destruct (String.eqb str ""); [done|].
  destruct (ObjectId.cast str) as [sid0|]; [|done].
  destruct (slots db !! sid0) as [slot|] eqn:Hs; [|done].
  destruct (isBooked slot); [done|].
  destruct (startAt slot <? now); [done|].
  destruct (hasOverlap _ _ _); [done|].
  destruct (endAt slot <=? startAt slot); [done|]. cbn.
  destruct (decide (sid0 = sid)) as [<-|Hne].
  - by rewrite lookup_insert_eq, Hs.
  - by rewrite lookup_insert_ne.
Qed.

Lemma slots_after_cancel db user str now sid :
  windowOf <$> slots (fst (exec (PATCH_cancel user str now) db)) !! sid
  = windowOf <$> slots db !! sid.
Proof.
  unfold PATCH_cancel. rewrite exec_cancelBooking. unfold cancelBooking_alone.
  destruct (ObjectId.cast str) as [bid|]; [|done].
  destruct (bookings db !! bid) as [b|]; [|done].
  destruct (negb _ && negb _); [done|].
  destruct (slots db !! slotId b) as [slot|] eqn:Hs; [|done].
  destruct (startAt slot <? now); [done|]. cbn.
  destruct (decide (slotId b = sid)) as [<-|Hne].
  - by rewrite lookup_insert_eq, Hs.
  - by rewrite lookup_insert_ne.
Qed.

(** Whatever a user who is not an admin asks, the slots keep their
    identifiers and their windows: no slot is created, removed or moved;
    at most a flag changes. *)
Theorem slots_fixed_for_non_admin Date_parse tz r now db sid :
  role (requester r) <> admin ->
  windowOf <$> slots (fst (exec (handle Date_parse tz r now) db)) !! sid
  = windowOf <$> slots db !! sid.
Proof.
  intros Hrole.
  destruct r as [user slotStr | user str | user days | user s0 e0 | user str
                | user from to includeBooked | user from to]; cbn [handle requester] in *.
  - apply slots_after_book.
  - apply slots_after_cancel.
  - by rewrite not_admin_gate.
  - by rewrite not_admin_gate.
  - by rewrite not_admin_gate.
  - by rewrite exec_getAvailableSlots_reads.
  - by rewrite not_admin_gate.
Qed.

Lemma slots_fixed_for_non_admin_witness :
  windowOf <$> slots (fst (exec (handle IsoDate.parse 0
                                   (RemoveSlot Examples.P1 Examples.slotA) Examples.earlier)
                                Examples.oneFreeSlot)) !! 1%N
  = windowOf <$> slots Examples.oneFreeSlot !! 1%N.
Proof.
  apply (slots_fixed_for_non_admin IsoDate.parse 0
           (RemoveSlot Examples.P1 Examples.slotA) Examples.earlier Examples.oneFreeSlot 1).
  vm_compute. discriminate.
Defined.

(** Whatever a user who is not a patient asks, no booking is created. *)
Theorem no_booking_created_for_non_patient Date_parse tz r now db bid :
  role (requester r) <> patient ->
  bookings db !! bid = None ->
  bookings (fst (exec (handle Date_parse tz r now) db)) !! bid = None.
Proof.
  intros Hrole Hnone.
  assert (Hkeeps : forall t, keepsBookings t -> bookings (fst (exec t db)) !! bid = None).
  { intros t Ht. by rewrite fst_exec, Ht. }
  destruct r as [user slotStr | user str | user days | user s0 e0 | user str
                | user from to includeBooked | user from to]; cbn [handle requester] in *.
  - unfold POST_book. by rewrite not_patient_gate.
  - unfold PATCH_cancel. rewrite exec_cancelBooking. unfold cancelBooking_alone.
    destruct (ObjectId.cast str) as [bid0|]; [|done].
    destruct (bookings db !! bid0) as [b|] eqn:Hb; [|done].
    destruct (negb _ && negb _); [done|].
    destruct (slots db !! slotId b) as [slot|]; [|done].
    destruct (startAt slot <? now); [done|]. cbn.
    rewrite lookup_insert_ne; [done|]. intros ->. congruence.
  - apply Hkeeps, keeps_requireRole, keeps_generateSlots.
  - apply Hkeeps, keeps_requireRole, keeps_addSlot.
  - apply Hkeeps, keeps_requireRole, keeps_removeSlot.
  - apply Hkeeps, keeps_getAvailableSlots.
  - apply Hkeeps, keeps_requireRole, keeps_getAllSlots.
Qed.

Lemma no_booking_created_for_non_patient_witness :
  bookings (fst (exec (handle IsoDate.parse 0 (Book Runs.A1 (Some Examples.slotA))
                         Examples.earlier) Examples.oneFreeSlot)) !! 0%N = None.
Proof.
  apply (no_booking_created_for_non_patient IsoDate.parse 0
           (Book Runs.A1 (Some Examples.slotA)) Examples.earlier Examples.oneFreeSlot 0).
  - vm_compute. discriminate.
  - reflexivity.
Defined.

(** Whatever a patient asks, the bookings of the other users stay as they
    are: a patient can cancel only bookings of their own. *)
Theorem patient_cannot_touch_others Date_parse tz r now db bid b :
  role (requester r) = patient ->
  bookings db !! bid = Some b ->
  userId b <> user_id (requester r) ->
  bookings (fst (exec (handle Date_parse tz r now) db)) !! bid = Some b.
Proof.
  intros Hrole Hb Hother.
  assert (Hkeeps : forall t, keepsBookings t -> bookings (fst (exec t db)) !! bid = Some b).
  { intros t Ht. by rewrite fst_exec, Ht. }
  destruct r as [user slotStr | user str | user days | user s0 e0 | user str
                | user from to includeBooked | user from to]; cbn [handle requester] in *.
  - by apply bookings_after_book.
  - unfold PATCH_cancel. rewrite exec_cancelBooking. unfold cancelBooking_alone.
    destruct (ObjectId.cast str) as [bid0|]; [|done].
    destruct (bookings db !! bid0) as [b0|] eqn:Hb0; [|done].
    destruct (negb (userId b0 =? user_id user)%N && negb (bool_decide (role user = admin)))
      eqn:Hperm; [done|].
    destruct (slots db !! slotId b0) as [slot|]; [|done].
    destruct (startAt slot <? now); [done|]. cbn.
    rewrite lookup_insert_ne; [done|]. intros ->.
    assert (b0 = b) as -> by congruence.
    apply andb_false_iff in Hperm as [Hown | Hadm].
    + apply negb_false_iff, N.eqb_eq in Hown. done.
    + apply negb_false_iff, bool_decide_eq_true in Hadm. congruence.
  - apply Hkeeps, keeps_requireRole, keeps_generateSlots.
  - apply Hkeeps, keeps_requireRole, keeps_addSlot.
  - apply Hkeeps, keeps_requireRole, keeps_removeSlot.
  - apply Hkeeps, keeps_getAvailableSlots.
  - apply Hkeeps, keeps_requireRole, keeps_getAllSlots.
Qed.

Lemma patient_cannot_touch_others_witness :
  bookings (fst (exec (handle IsoDate.parse 0 (Cancel Examples.P1 Examples.slotA)
                         Examples.earlier) Examples.twoHeld)) !! 1%N
  = Some (mkBooking 102 2 confirmed Examples.earlier).
Proof.
  apply (patient_cannot_touch_others IsoDate.parse 0
           (Cancel Examples.P1 Examples.slotA) Examples.earlier Examples.twoHeld 1).
  - reflexivity.
  - reflexivity.
  - vm_compute. discriminate.
Defined.

(** ** Bookings of slots that have started *)

(** Once a slot has started, the bookings that reference it are out of
    reach of every request: none of them changes, whoever asks. *)
Theorem started_slot_bookings_frozen Date_parse tz r now db bid b s :
  bookings db !! bid = Some b ->
  slots db !! slotId b = Some s ->
  startAt s < now ->
  bookings (fst (exec (handle Date_parse tz r now) db)) !! bid = Some b.
Proof.
  intros Hb Hs Hpast.
  assert (Hkeeps : forall t, keepsBookings t -> bookings (fst (exec t db)) !! bid = Some b).
  { intros t Ht. by rewrite fst_exec, Ht. }
  destruct r as [user slotStr | user str | user days | user s0 e0 | user str
                | user from to includeBooked | user from to]; cbn [handle].
  - by apply bookings_after_book.
  - unfold PATCH_cancel. rewrite exec_cancelBooking. unfold cancelBooking_alone.
    destruct (ObjectId.cast str) as [bid0|]; [|done].
    destruct (bookings db !! bid0) as [b0|] eqn:Hb0; [|done].
    destruct (negb _ && negb _); [done|].
    destruct (slots db !! slotId b0) as [slot|] eqn:Hs0; [|done].
    destruct (startAt slot <? now) eqn:Hnow; [done|]. cbn.
    rewrite lookup_insert_ne; [done|]. intros ->.
    assert (b0 = b) as -> by congruence.
    assert (slot = s) as -> by congruence.
    apply Z.ltb_ge in Hnow. lia.
  - apply Hkeeps, keeps_requireRole, keeps_generateSlots.
  - apply Hkeeps, keeps_requireRole, keeps_addSlot.
  - apply Hkeeps, keeps_requireRole, keeps_removeSlot.
  - apply Hkeeps, keeps_getAvailableSlots.
  - apply Hkeeps, keeps_requireRole, keeps_getAllSlots.
Qed.

Lemma started_slot_bookings_frozen_witness :
  bookings (fst (exec (handle IsoDate.parse 0 (Cancel Examples.P1 Examples.booking0)
                         Examples.t1000) Examples.touching)) !! 0%N
  = Some (mkBooking 101 1 confirmed Examples.earlier).
Proof.
  apply (started_slot_bookings_frozen IsoDate.parse 0
           (Cancel Examples.P1 Examples.booking0) Examples.t1000 Examples.touching 0
           (mkBooking 101 1 confirmed Examples.earlier)
           (mkSlot Examples.t0900 Examples.t0930 true)).
  - reflexivity.
  - reflexivity.
  - reflexivity.
Defined.

(** A booking that a request creates is confirmed, belongs to the
    requester, and references a slot of the store that has not started
    and was not flagged. *)
Theorem created_booking_shape Date_parse tz r now db bid b :
  bookings db !! bid = None ->
  bookings (fst (exec (handle Date_parse tz r now) db)) !! bid = Some b ->
  status b = confirmed /\ userId b = user_id (requester r) /\ createdAt b = now /\
  exists s, slots db !! slotId b = Some s /\ isBooked s = false /\
            now <= startAt s /\ startAt s < endAt s.
Proof.
  intros Hnone.
  assert (Hkeeps : forall t, keepsBookings t ->
            bookings (fst (exec t db)) !! bid = Some b -> False).
  { intros t Ht. rewrite fst_exec, Ht. congruence. }
  destruct r as [user slotStr | user str | user days | user s0 e0 | user str
                | user from to includeBooked | user from to]; cbn [handle requester].
  - unfold POST_book, requirePatient. rewrite exec_requireRole.
    destruct (bool_decide _); [|cbn; congruence]. rewrite exec_bookSlot.
    unfold bookSlot_alone, bookOutcome. cbn [body_slotId bookSlotValidation req_user].
    destruct slotStr as [str|]; [|cbn; congruence].
    destruct (String.eqb str ""); [cbn; congruence|].
    destruct (ObjectId.cast str) as [sid|]; [|cbn; congruence].
    destruct (slots db !! sid) as [slot|] eqn:Hs; [|cbn; congruence].
    destruct (isBooked slot) eqn:Hflag; [cbn; congruence|].
    destruct (startAt slot <? now) eqn:Hnow; [cbn; congruence|].
    destruct (hasOverlap _ _ _); [cbn; congruence|].
    destruct (endAt slot <=? startAt slot) eqn:Hse; [cbn; congruence|]. cbn.
    destruct (decide (fresh (dom (bookings db)) = bid)) as [<-|Hne].
    + rewrite lookup_insert_eq. intros [= <-]. cbn.
      apply Z.ltb_ge in Hnow. apply Z.leb_gt in Hse. repeat split; try done.
      by exists slot.
    + rewrite lookup_insert_ne by done. congruence.
  - unfold PATCH_cancel. rewrite exec_cancelBooking. unfold cancelBooking_alone.
    destruct (ObjectId.cast str) as [bid0|]; [|cbn; congruence].
    destruct (bookings db !! bid0) as [b0|] eqn:Hb0; [|cbn; congruence].
    destruct (negb _ && negb _); [cbn; congruence|].
    destruct (slots db !! slotId b0) as [slot|]; [|cbn; congruence].
    destruct (startAt slot <? now); [cbn; congruence|]. cbn.
    rewrite lookup_insert_ne; [congruence|]. intros ->. congruence.
  - intros H. exfalso. revert H. apply Hkeeps, keeps_requireRole, keeps_generateSlots.
  - intros H. exfalso. revert H. apply Hkeeps, keeps_requireRole, keeps_addSlot.
  - intros H. exfalso. revert H. apply Hkeeps, keeps_requireRole, keeps_removeSlot.
  - intros H. exfalso. revert H. apply Hkeeps, keeps_getAvailableSlots.
  - intros H. exfalso. revert H. apply Hkeeps, keeps_requireRole, keeps_getAllSlots.
Qed.

Lemma created_booking_shape_witness :
  let b := mkBooking 101 1 confirmed Examples.earlier in
  status b = confirmed /\ userId b = user_id (requester (Book Examples.P1 (Some Examples.slotA))) /\
  createdAt b = Examples.earlier /\
  exists s, slots Examples.oneFreeSlot !! slotId b = Some s /\ isBooked s = false /\
            Examples.earlier <= startAt s /\ startAt s < endAt s.
Proof.
  apply (created_booking_shape IsoDate.parse 0 (Book Examples.P1 (Some Examples.slotA))
           Examples.earlier Examples.oneFreeSlot 0
           (mkBooking 101 1 confirmed Examples.earlier)).
  - reflexivity.
  - vm_compute. reflexivity.
Defined.

(** ** One patient, one place at a time *)

Lemma intersects_windowOf s1 s2 t1 t2 :
  windowOf s1 = windowOf t1 -> windowOf s2 = windowOf t2 ->
  intersects s1 s2 -> intersects t1 t2.
Proof.
  unfold windowOf, intersects. intros [= H1 H2] [= H3 H4]. lia.
Qed.

Lemma intersects_sym s1 s2 : intersects s1 s2 -> intersects s2 s1.
Proof. unfold intersects. tauto. Qed.

Lemma same_window_lookup (db db' : Db) sid s' :
  (forall x, windowOf <$> slots db' !! x = windowOf <$> slots db !! x) ->
  slots db' !! sid = Some s' ->
  exists s, slots db !! sid = Some s /\ windowOf s = windowOf s'.
Proof.
  intros Hw Hs'. specialize (Hw sid). rewrite Hs' in Hw. cbn in Hw.
  destruct (slots db !! sid) as [s|]; [|done]. exists s. split; [done|]. cbn in Hw. congruence.
Qed.

(** The property passes from a store to another with the same windows
    whose confirmed bookings are the old ones, but for at most one new
    booking that intersects none of its user's. *)
Lemma noOverlapPerUser_transfer db db' :
  noOverlapPerUser db ->
  (forall x, windowOf <$> slots db' !! x = windowOf <$> slots db !! x) ->
  (forall bid b', bookings db' !! bid = Some b' -> status b' = confirmed ->
     bookings db !! bid = Some b' \/
     ((forall bid2, bid2 <> bid -> bookings db' !! bid2 = bookings db !! bid2) /\
      forall s, slots db !! slotId b' = Some s -> ~ holdsIntersecting db (userId b') s)) ->
  noOverlapPerUser db'.
Proof.
  intros Hold Hw Hb i j b1 b2 s1' s2' Hij H1 H2 Hu Hc1 Hc2 Hs1 Hs2 Hint.
  destruct (same_window_lookup db db' _ _ Hw Hs1) as (s1 & Hs1o & Hw1).
  destruct (same_window_lookup db db' _ _ Hw Hs2) as (s2 & Hs2o & Hw2).
  assert (Hint' : intersects s1 s2).
  { by apply (intersects_windowOf s1' s2'). }
  destruct (Hb i b1 H1 Hc1) as [H1o | [Hrest Hno]].
  - destruct (Hb j b2 H2 Hc2) as [H2o | [Hrest Hno]].
    + exact (Hold i j b1 b2 s1 s2 Hij H1o H2o Hu Hc1 Hc2 Hs1o Hs2o Hint').
    + apply (Hno s2 Hs2o). exists i, b1, s1.
      rewrite <- (Hrest i) by done. by rewrite Hu.
  - apply (Hno s1 Hs1o). exists j, b2, s2.
    rewrite <- (Hrest j) by done.
    split; [done|]. split; [by symmetry|]. split; [done|]. split; [done|].
    by apply intersects_sym.
Qed.

(** The booking controller keeps every patient in one place at a time: when
    no user holds two confirmed bookings with intersecting windows, none
    does after a [bookSlot] or a [cancelBooking]. *)
Theorem noOverlapPerUser_kept db user now :
  noOverlapPerUser db ->
  (forall slotStr, noOverlapPerUser (fst (exec (POST_book user slotStr now) db))) /\
  (forall str, noOverlapPerUser (fst (exec (PATCH_cancel user str now) db))).
Proof.
  intros Hold. split.
  - intros slotStr. apply (noOverlapPerUser_transfer db); [done|apply slots_after_book|].
    unfold POST_book, requirePatient. rewrite exec_requireRole.
    destruct (bool_decide _); [|by left]. rewrite exec_bookSlot.
    unfold bookSlot_alone, bookOutcome. cbn [body_slotId bookSlotValidation req_user].
    destruct slotStr as [str|]; [|by left].
    destruct (String.eqb str ""); [by left|].
    destruct (ObjectId.cast str) as [sid|]; [|by left].
    destruct (slots db !! sid) as [slot|] eqn:Hs; [|by left].
    destruct (isBooked slot); [by left|].
    destruct (startAt slot <? now); [by left|].
    destruct (hasOverlap db (user_id user) slot) eqn:Hov; [by left|].
    destruct (endAt slot <=? startAt slot); [by left|]. cbn.
    intros bid b' Hb' _.
    destruct (decide (fresh (dom (bookings db)) = bid)) as [<-|Hne].
    + rewrite lookup_insert_eq in Hb'. injection Hb' as <-. right. split.
      * intros bid2 Hne. by rewrite lookup_insert_ne.
      * cbn. intros s Hs'. assert (s = slot) as -> by congruence.
        rewrite <- hasOverlap_spec. by rewrite Hov.
    + rewrite lookup_insert_ne in Hb' by done. by left.
  - intros str. apply (noOverlapPerUser_transfer db); [done|apply slots_after_cancel|].
    unfold PATCH_cancel. rewrite exec_cancelBooking. unfold cancelBooking_alone.
    destruct (ObjectId.cast str) as [bid0|]; [|by left].
    destruct (bookings db !! bid0) as [b0|]; [|by left].
    destruct (negb _ && negb _); [by left|].
    destruct (slots db !! slotId b0) as [slot|]; [|by left].
    destruct (startAt slot <? now); [by left|]. cbn.
    intros bid b' Hb' Hconf.
    destruct (decide (bid0 = bid)) as [<-|Hne].
    + rewrite lookup_insert_eq in Hb'. injection Hb' as <-. done.
    + rewrite lookup_insert_ne in Hb' by done. by left.
Qed.

Lemma noOverlapPerUser_kept_witness :
  (forall slotStr,
     noOverlapPerUser
       (fst (exec (POST_book Examples.P1 slotStr Examples.earlier) Examples.touching))) /\
  (forall str,
     noOverlapPerUser
       (fst (exec (PATCH_cancel Examples.P1 str Examples.earlier) Examples.touching))).
Proof.
  apply (noOverlapPerUser_kept Examples.touching Examples.P1 Examples.earlier).
  intros i j b1 b2 s1 s2 Hij H1 H2. cbn in H1, H2.
  apply lookup_singleton_Some in H1 as [<- _].
  apply lookup_singleton_Some in H2 as [<- _]. done.
Defined.

(** ** Listings of bookings *)

Section MapM.

Context {A B : Type} (f : A -> option B).

Lemma mapM_all_Some (l : list A) :
  Forall (fun x => is_Some (f x)) l -> mapM f l = Some (omap f l).
Proof.
  induction 1 as [|x l [y Hy] _ IH]; [done|].
  cbn. rewrite Hy. cbn. by rewrite IH.
Qed.

Lemma omap_fmap_proj {C} (g : B -> C) (h : A -> C) (l : list A) :
  (forall x y, f x = Some y -> g y = h x) ->
  Forall (fun x => is_Some (f x)) l ->
  g <$> omap f l = h <$> l.
Proof.
  intros Hgh. induction 1 as [|x l [y Hy] _ IH]; [done|].
  cbn. rewrite Hy. cbn. by rewrite IH, (Hgh x y Hy).
Qed.

Lemma StronglySorted_omap (R : relation A) (R' : relation B) (l : list A) :
  (forall x x' y y', f x = Some y -> f x' = Some y' -> R x x' -> R' y y') ->
  StronglySorted R l -> StronglySorted R' (omap f l).
Proof.
  intros HR. induction 1 as [|x l _ IH Hall]; [constructor|].
  cbn. destruct (f x) as [y|] eqn:Hy; [|done].
  constructor; [done|]. apply Forall_forall. intros y' Hy'.
  apply list_elem_of_omap in Hy' as (x' & Hx' & Hfx').
  rewrite Forall_forall in Hall. by apply (HR x x' y y'), Hall.
Qed.

End MapM.

#[global] Instance byCreatedDesc_trans : Transitive byCreatedDesc.
Proof. intros a b c. unfold byCreatedDesc. lia. Qed.

#[global] Instance byCreatedDesc_total : Total byCreatedDesc.
Proof. intros a b. unfold byCreatedDesc. lia. Qed.

(** What [Booking.find(filter).sort({ createdAt: -1 })] finds: the
    bookings that pass the filter, each once, newest first. *)
Lemma findSorted_spec keep db :
  let found := snd (Booking_findSorted keep db) in
  StronglySorted byCreatedDesc found /\
  NoDup (fst <$> found) /\
  forall bid b, (bid, b) ∈ found <-> bookings db !! bid = Some b /\ keep b = true.
Proof.
  cbn. set (l := List.filter _ _).
  assert (Hperm : merge_sort byCreatedDesc l ≡ₚ l) by apply merge_sort_Permutation.
  split; [apply StronglySorted_merge_sort; apply _|]. split.
  - rewrite Hperm. unfold l.
    assert (Hsub : forall (m : list (N * Booking)),
              NoDup (fst <$> m) ->
              NoDup (fst <$> List.filter (fun kv => keep (snd kv)) m)).
    { induction m as [|x m IH]; [done|]. cbn.
      intros [Hx Hm]%NoDup_cons. destruct (keep (snd x)); [|by apply IH].
      cbn. apply NoDup_cons. split; [|by apply IH].
      intros Hin. apply Hx. apply list_elem_of_fmap in Hin as (y & -> & Hy).
      apply list_elem_of_fmap. exists y. split; [done|].
      apply list_elem_of_In, filter_In in Hy as [Hy _]. by apply list_elem_of_In. }
    apply Hsub, NoDup_fst_map_to_list.
  - intros bid b. rewrite Hperm. unfold l.
    rewrite list_elem_of_In, filter_In, In_map_to_list. done.
Qed.

Lemma run_getMyBookings db user :
  run (getMyBookings user) db =
  (db, inr match mapM formatBooking
                   (snd (Slot_populate
                           (snd (Booking_findSorted
                                   (fun b => (userId b =? user_id user)%N) db)) db)) with
           | Some views => Listed views (length views)
           | None => ListingError 500 "GET_BOOKINGS_ERROR"
           end).
Proof.
  unfold getMyBookings. rewrite run_catch. cbn [run Booking_findSorted Slot_populate snd].
  by destruct (mapM _ _).
Qed.

(** [getMyBookings], when every booking of the caller still has its slot:
    the answer lists the caller's bookings, of every status, and nobody
    else's, each once, newest first, with the window of its slot; the
    total is their number, and the store is not touched. *)
Theorem getMyBookings_lists_own db user :
  (forall bid b, bookings db !! bid = Some b -> userId b = user_id user ->
                 is_Some (slots db !! slotId b)) ->
  exists views,
    run (getMyBookings user) db = (db, inr (Listed views (length views))) /\
    StronglySorted (fun v w => bv_createdAt w <= bv_createdAt v) views /\
    NoDup (bv_id <$> views) /\
    forall v, v ∈ views <->
      exists b s, bookings db !! bv_id v = Some b /\ userId b = user_id user /\
                  slots db !! slotId b = Some s /\
                  v = mkBookingView (bv_id v) (slotId b) (startAt s) (endAt s)
                        (durationMinutes s) (status b) (createdAt b).
Proof.
  intros Hslots.
  pose proof (findSorted_spec (fun b => (userId b =? user_id user)%N) db) as Hspec.
  cbv zeta in Hspec. set (found := snd (Booking_findSorted _ db)) in Hspec.
  destruct Hspec as (Hsorted & Hnodup & Hin).
  set (populated := map (fun kv : N * Booking => (kv, slots db !! slotId (snd kv))) found).
  assert (Hall : Forall (fun x => is_Some (formatBooking x)) populated).
  { apply Forall_forall. intros x Hx. unfold populated in Hx.
    apply list_elem_of_fmap in Hx as ([bid b] & -> & Hb).
    apply Hin in Hb as [Hb Hu]. apply N.eqb_eq in Hu.
    destruct (Hslots bid b Hb Hu) as [s Hs]. unfold formatBooking. cbn. rewrite Hs.
    by eexists. }
  exists (omap formatBooking populated). split; [|split; [|split]].
  - rewrite run_getMyBookings. cbn [Slot_populate snd]. fold found. fold populated.
    by rewrite (mapM_all_Some _ _ Hall).
  - apply (StronglySorted_omap formatBooking
             (fun x x' => byCreatedDesc (fst x) (fst x'))).
    + intros [kv o] [kv' o'] y y' Hy Hy' HR. unfold formatBooking in Hy, Hy'. cbn in *.
      destruct o; [|done]. destruct o'; [|done].
      injection Hy as <-. injection Hy' as <-. exact HR.
    + unfold populated. clear -Hsorted.
      induction Hsorted as [|x l _ IH Hall]; cbn; constructor; [done|].
      apply Forall_forall. intros y (z & -> & Hz)%list_elem_of_fmap.
      rewrite Forall_forall in Hall. by apply Hall.
  - rewrite (omap_fmap_proj formatBooking bv_id (fun x => fst (fst x))); [|  |done].
    + unfold populated. rewrite <- list_fmap_compose.
      erewrite list_fmap_ext; [exact Hnodup|]. by intros i [bid b].
    + intros [kv o] y Hy. unfold formatBooking in Hy. cbn in Hy.
      destruct o; [|done]. by injection Hy as <-.
  - intros v. rewrite list_elem_of_omap. split.
    + intros (x & Hx & Hfx). unfold populated in Hx.
      apply list_elem_of_fmap in Hx as ([bid b] & -> & Hb).
      apply Hin in Hb as [Hb Hu]. apply N.eqb_eq in Hu.
      unfold formatBooking in Hfx. cbn in Hfx.
      destruct (slots db !! slotId b) as [s|] eqn:Hs; [|done].
      injection Hfx as <-. cbn. by exists b, s.
    + intros (b & s & Hb & Hu & Hs & Hv).
      exists ((bv_id v, b), Some s). split.
      * unfold populated. apply list_elem_of_fmap. exists (bv_id v, b).
        cbn. rewrite Hs. split; [done|]. apply Hin. split; [done|]. by apply N.eqb_eq.
      * unfold formatBooking. cbn. by rewrite Hv.
Qed.

Lemma getMyBookings_lists_own_witness :
  exists views,
    run (getMyBookings Examples.P1) Examples.rebooked
      = (Examples.rebooked, inr (Listed views (length views))) /\
    StronglySorted (fun v w => bv_createdAt w <= bv_createdAt v) views /\
    NoDup (bv_id <$> views) /\
    forall v, v ∈ views <->
      exists b s, bookings Examples.rebooked !! bv_id v = Some b /\
                  userId b = user_id Examples.P1 /\
                  slots Examples.rebooked !! slotId b = Some s /\
                  v = mkBookingView (bv_id v) (slotId b) (startAt s) (endAt s)
                        (durationMinutes s) (status b) (createdAt b).
Proof.
  apply (getMyBookings_lists_own Examples.rebooked Examples.P1).
  intros bid b Hb Hu. cbn in Hb.
  apply lookup_insert_Some in Hb as [[_ <-] | [_ Hb]].
  - by eexists.
  - apply lookup_singleton_Some in Hb as [_ <-]. by eexists.
Defined.

(** [getMyBookings] answers 500 GET_BOOKINGS_ERROR exactly when one of the
    caller's bookings, of whatever status, references a slot that is no
    longer stored; one such booking hides all the others. *)
Theorem getMyBookings_fails_iff_orphan db user :
  run (getMyBookings user) db = (db, inr (ListingError 500 "GET_BOOKINGS_ERROR")) <->
  exists bid b, bookings db !! bid = Some b /\ userId b = user_id user /\
                slots db !! slotId b = None.
Proof.
  rewrite run_getMyBookings.
  pose proof (findSorted_spec (fun b => (userId b =? user_id user)%N) db) as Hspec.
  cbv zeta in Hspec. destruct Hspec as (_ & _ & Hin).
  cbn [Slot_populate snd].
  set (found := snd (Booking_findSorted _ db)) in *.
  destruct (mapM formatBooking _) as [views|] eqn:Hm.
  - split; [intros [=]|]. intros (bid & b & Hb & Hu & Hs).
    assert (Hnone : mapM formatBooking
                      (map (fun kv : N * Booking => (kv, slots db !! slotId (snd kv))) found)
                    = None); [|congruence].
    apply mapM_None. apply Exists_exists. exists ((bid, b), None). split.
    + apply list_elem_of_fmap. exists (bid, b). cbn. rewrite Hs. split; [done|].
      apply Hin. split; [done|]. by apply N.eqb_eq.
    + done.
  - split; [intros _|done].
    apply mapM_None, Exists_exists in Hm as (x & Hx & Hfx).
    apply list_elem_of_fmap in Hx as ([bid b] & -> & Hb).
    apply Hin in Hb as [Hb Hu]. apply N.eqb_eq in Hu.
    unfold formatBooking in Hfx. cbn in Hfx.
    destruct (slots db !! slotId b) eqn:Hs; [done|]. by exists bid, b.
Qed.



(** ** Inserting slots *)

Lemma fresh_slot_None db : slots db !! newSlotId db = None.
Proof. apply newSlotId_None. Qed.

Lemma insert_slot_lookup s db id x :
  slots (fst (Slot_insert s db)) !! id = Some x <->
  slots db !! id = Some x \/ (id = newSlotId db /\ x = s).
Proof.
  cbn. destruct (decide (newSlotId db = id)) as [<-|Hne].
  - rewrite lookup_insert_eq, fresh_slot_None. split.
    + intros [= <-]. by right.
    + intros [|[_ ->]]; done.
  - rewrite lookup_insert_ne by done. split; [by left|]. by intros [|[-> _]].
Qed.

(** After [Slot.insertMany(docs)] the store holds what it held, unchanged,
    and each of the documents; nothing else; and its size has grown by
    their number. *)
Lemma insertMany_lookup docs db :
  let db' := fst (Slot_insertMany docs db) in
  bookings db' = bookings db /\
  size (slots db') = (size (slots db) + length docs)%nat /\
  (forall id x, slots db !! id = Some x -> slots db' !! id = Some x) /\
  (forall s, s ∈ docs -> exists id, slots db' !! id = Some s) /\
  (forall id x, slots db' !! id = Some x -> slots db !! id = Some x \/ x ∈ docs).
Proof.
  unfold Slot_insertMany. cbn [fst]. revert db.
  induction docs as [|s docs IH]; intros db; cbn [fold_left].
  - repeat split; try done.
    + by intros s Hs%elem_of_nil.
    + intros id x Hx. by left.
  - destruct (IH (fst (Slot_insert s db))) as (Hb & Hsize & Hold & Hnew & Honly).
    split; [by rewrite Hb|]. split.
    { rewrite Hsize. cbn [Slot_insert fst slots length].
      rewrite map_size_insert_None by apply fresh_slot_None. lia. }
    split; [|split].
    + intros id x Hx. apply Hold, insert_slot_lookup. by left.
    + intros s' [-> | Hs']%elem_of_cons; [|by apply Hnew].
      exists (newSlotId db). apply Hold, insert_slot_lookup. by right.
    + intros id x Hx. apply Honly in Hx as [Hx | Hx].
      * apply insert_slot_lookup in Hx as [Hx | [_ ->]]; [by left|right; by left].
      * right. by right.
Qed.

(** ** No two slots with the same window *)

Lemma distinctWindows_same_windows db db' :
  (forall x, windowOf <$> slots db' !! x = windowOf <$> slots db !! x) ->
  distinctWindows db -> distinctWindows db'.
Proof.
  intros Hw Hd i j s1 s2 H1 H2 Heq.
  destruct (same_window_lookup db db' _ _ Hw H1) as (t1 & Ht1 & Hw1).
  destruct (same_window_lookup db db' _ _ Hw H2) as (t2 & Ht2 & Hw2).
  apply (Hd i j t1 t2 Ht1 Ht2). congruence.
Qed.

Lemma windowExists_false db s id x :
  windowExists db s = false -> slots db !! id = Some x -> windowOf x <> windowOf s.
Proof.
  intros Hno Hx Heq. apply not_true_iff_false in Hno. apply Hno.
  apply windowExists_spec. exists id, x. unfold windowOf in Heq.
  by injection Heq as -> ->.
Qed.

Lemma distinctWindows_insertMany docs db :
  distinctWindows db ->
  NoDup (windowOf <$> docs) ->
  (forall s, s ∈ docs -> windowExists db s = false) ->
  distinctWindows (fst (Slot_insertMany docs db)).
Proof.
  unfold Slot_insertMany. cbn [fst]. revert db.
  induction docs as [|s docs IH]; intros db Hd Hnd Hnew; cbn [fold_left]; [done|].
  cbn [fmap list_fmap] in Hnd. apply NoDup_cons in Hnd as [Hs Hnd].
  apply IH; [|done|].
  - intros i j s1 s2 [H1 | [-> ->]]%insert_slot_lookup [H2 | [-> ->]]%insert_slot_lookup Heq.
    + by apply (Hd i j s1 s2).
    + exfalso. apply (windowExists_false db s i s1); [apply Hnew; by left|done|done].
    + exfalso. apply (windowExists_false db s j s2); [apply Hnew; by left|done|done].
    + done.
  - intros s' Hs'. apply not_true_iff_false. intros Hex.
    apply windowExists_spec in Hex as (id & x & Hx & H1 & H2).
    apply insert_slot_lookup in Hx as [Hx | [_ ->]].
    + apply (windowExists_false db s' id x); [apply Hnew; by right|done|].
      unfold windowOf. by rewrite H1, H2.
    + apply Hs. apply list_elem_of_fmap. exists s'. split; [|done].
      unfold windowOf. by rewrite H1, H2.
Qed.

Lemma NoDup_startAt_daySlots day : NoDup (startAt <$> Spec.daySlots day).
Proof.
  unfold Spec.daySlots. change (map (Spec.window day) (seqZ 0 16))
    with (Spec.window day <$> seqZ 0 16).
  rewrite <- list_fmap_compose. apply NoDup_fmap_2; [|apply NoDup_seqZ].
  intros i j. unfold Spec.window. cbn. unfold Time.msPerMinute. lia.
Qed.

Lemma generateSlots_visits_days tz t days :
  generateSlots_visits tz (Time.utcAt t 9 0 0) days
  = flat_map
      (fun day =>
         if (Time.getDay tz (Time.setDatePlus (Time.utcAt t 9 0 0) day) =? 0)
            || (Time.getDay tz (Time.setDatePlus (Time.utcAt t 9 0 0) day) =? 6)
         then [] else Spec.daySlots (Time.utcDay t + day))
      (seqZ 0 days).
Proof.
  unfold generateSlots_visits. apply flat_map_ext. intros day. cbv zeta.
  destruct (_ || _); [done|]. apply day_windows, utcDay_morning.
Qed.

Lemma NoDup_generateSlots_visits tz t days :
  NoDup (windowOf <$> generateSlots_visits tz (Time.utcAt t 9 0 0) days).
Proof.
  apply (NoDup_fmap_1 fst). rewrite <- list_fmap_compose.
  change (fst ∘ windowOf) with startAt.
  rewrite generateSlots_visits_days.
  match goal with |- context [flat_map ?f _] => set (F := f) end.
  assert (HF : forall d s, s ∈ F d -> Time.utcDay (startAt s) = Time.utcDay t + d).
  { intros d s. unfold F. destruct (_ || _); [by intros ?%elem_of_nil|].
    intros Hs%list_elem_of_In. by apply utcDay_daySlots. }
  assert (HN : forall d, NoDup (startAt <$> F d)).
  { intros d. unfold F. destruct (_ || _); [constructor|apply NoDup_startAt_daySlots]. }
  assert (Hgen : forall l, NoDup l -> NoDup (startAt <$> flat_map F l)).
  { induction l as [|a l IH]; [constructor|]. intros [Ha Hl]%NoDup_cons.
    cbn. rewrite fmap_app. apply NoDup_app. split; [apply HN|]. split; [|by apply IH].
    intros x (s & -> & Hs)%list_elem_of_fmap (s' & Heq & Hs')%list_elem_of_fmap.
    apply list_elem_of_In, in_flat_map in Hs' as (d & Hd & Hs').
    apply list_elem_of_In in Hd, Hs'.
    apply HF in Hs, Hs'. rewrite Heq in Hs. assert (a = d) as -> by lia. done. }
  apply Hgen, NoDup_seqZ.
Qed.

Lemma NoDup_fmap_filter {A B} (f : A -> B) (p : A -> bool) (l : list A) :
  NoDup (f <$> l) -> NoDup (f <$> List.filter p l).
Proof.
  induction l as [|a l IH]; [done|]. cbn. intros [Ha Hl]%NoDup_cons.
  destruct (p a); [|by apply IH]. cbn. apply NoDup_cons. split; [|by apply IH].
  intros (x & Hx & Hin)%list_elem_of_fmap. apply Ha. apply list_elem_of_fmap.
  exists x. split; [done|]. apply list_elem_of_In in Hin.
  apply filter_In in Hin as [Hin _]. by apply list_elem_of_In.
Qed.

Lemma distinctWindows_generate tz now days db :
  distinctWindows db ->
  distinctWindows (fst (Slot_insertMany (generateSlots_docs tz now days db) db)).
Proof.
  intros Hd. apply distinctWindows_insertMany; [done| |].
  - apply NoDup_fmap_filter, NoDup_generateSlots_visits.
  - intros s Hs%list_elem_of_In. apply filter_In in Hs as [_ Hs].
    by apply negb_true_iff in Hs.
Qed.

Lemma distinctWindows_handle Date_parse tz r now db :
  distinctWindows db -> distinctWindows (fst (exec (handle Date_parse tz r now) db)).
Proof.
  intros Hd.
  destruct r as [user slotStr | user str | user days | user s0 e0 | user str
                | user from to includeBooked | user from to]; cbn [handle].
  - eapply distinctWindows_same_windows; [|done]. intros x. apply slots_after_book.
  - eapply distinctWindows_same_windows; [|done]. intros x. apply slots_after_cancel.
  - unfold requireAdmin. rewrite exec_requireRole. destruct (bool_decide _); [|done].
    rewrite exec_generateSlots. destruct (_ || _); [done|]. cbn [fst].
    by apply distinctWindows_generate.
  - unfold requireAdmin. rewrite exec_requireRole. destruct (bool_decide _); [|done].
    rewrite exec_addSlot. destruct (_ || _); [done|].
    destruct (Date_parse (default "" s0)) as [sd|]; [|done].
    destruct (Date_parse (default "" e0)) as [ed|]; [|done].
    destruct (ed <=? sd); [done|].
    destruct (windowExists db (mkSlot sd ed false)) eqn:Hex; [done|]. cbn [fst].
    apply (distinctWindows_insertMany [mkSlot sd ed false] db Hd).
    + apply NoDup_singleton.
    + by intros s ->%list_elem_of_singleton.
  - unfold requireAdmin. rewrite exec_requireRole. destruct (bool_decide _); [|done].
    rewrite exec_removeSlot. destruct (ObjectId.cast str) as [sid|]; [|done].
    destruct (slots db !! sid) as [slot|]; [|done].
    destruct (isBooked slot); [done|]. cbn [fst].
    intros i j s1 s2. cbn [slots].
    intros [_ H1]%lookup_delete_Some [_ H2]%lookup_delete_Some. by apply Hd.
  - by rewrite exec_getAvailableSlots_reads.
  - unfold requireAdmin. rewrite exec_requireRole. destruct (bool_decide _); [|done].
    by rewrite exec_getAllSlots_reads.
Qed.

(** Starting from empty collections and serving requests one after the
    other, the store never holds two slots with the same start and end:
    [addSlot] and [generateSlots] look for the window before they insert,
    one run of [generateSlots] visits each window once, and nothing else
    creates or moves a slot. *)
Theorem windows_stay_distinct Date_parse tz trace :
  distinctWindows (serve Date_parse tz trace emptyDb).
Proof.
  induction trace as [|rq trace IH] using rev_ind.
  - intros i j s1 s2 H1. cbn in H1. by rewrite lookup_empty in H1.
  - unfold serve. rewrite fold_left_app. cbn [fold_left].
    by apply distinctWindows_handle.
Qed.

(** ** Generating twice *)

Lemma generateSlots_docs_day tz now now' days db :
  Time.utcDay now' = Time.utcDay now ->
  generateSlots_docs tz now' days db = generateSlots_docs tz now days db.
Proof.
  intros Hday. unfold generateSlots_docs, Time.utcAt, Time.setUTCDatePlus, Time.utcDay in *.
  replace ((now' + 1 * Time.msPerDay) / Time.msPerDay)
    with ((now + 1 * Time.msPerDay) / Time.msPerDay); [done|].
  rewrite !Z.div_add by (unfold Time.msPerDay; lia). by rewrite Hday.
Qed.

(** A second [generateSlots] with the same body, on the same UTC calendar
    day as a first one, finds every window it visits already stored: it
    inserts nothing and reports zero slots generated. *)
Theorem generateSlots_again_adds_nothing tz body_days now now' db :
  Time.utcDay now' = Time.utcDay now ->
  1 <= default 7 body_days <= 30 ->
  let db1 := fst (exec (generateSlots tz body_days now) db) in
  exec (generateSlots tz body_days now') db1
  = (db1, SlotsGenerated 0 (Time.utcAt (Time.setUTCDatePlus now' 1) 9 0 0)
            (Time.utcAt (Time.setUTCDatePlus now' 1) 9 0 0
             + (default 7 body_days - 1) * 24 * 60 * 60 * 1000)).
Proof.
  intros Hday Hdays db1. subst db1. rewrite !exec_generateSlots.
  replace ((default 7 body_days <? 1) || (30 <? default 7 body_days)) with false by lia.
  cbn [fst].
  set (days := default 7 body_days).
  set (db1 := fst (Slot_insertMany (generateSlots_docs tz now days db) db)).
  assert (Hnone : generateSlots_docs tz now' days db1 = []).
  { rewrite (generateSlots_docs_day tz now now') by done.
    unfold generateSlots_docs at 1. apply filter_none. intros s Hs.
    apply negb_false_iff, windowExists_spec.
    destruct (insertMany_lookup (generateSlots_docs tz now days db) db)
      as (_ & _ & Hold & Hnew & _). fold db1 in Hold, Hnew.
    destruct (windowExists db s) eqn:Hex.
    - apply windowExists_spec in Hex as (id & x & Hx & H1 & H2).
      exists id, x. split; [by apply Hold|done].
    - destruct (Hnew s) as [id Hid]; [|by exists id, s].
      apply list_elem_of_In, filter_In. split; [done|]. by rewrite Hex. }
  by rewrite Hnone.
Qed.

Lemma generateSlots_again_adds_nothing_witness :
  exec (generateSlots 0 None (Runs.clock 60))
       (fst (exec (generateSlots 0 None (Runs.clock 0)) emptyDb))
  = (fst (exec (generateSlots 0 None (Runs.clock 0)) emptyDb),
     SlotsGenerated 0 (Time.utcAt (Time.setUTCDatePlus (Runs.clock 60) 1) 9 0 0)
       (Time.utcAt (Time.setUTCDatePlus (Runs.clock 60) 1) 9 0 0
        + (default 7 None - 1) * 24 * 60 * 60 * 1000)).
Proof.
  apply (generateSlots_again_adds_nothing 0 None (Runs.clock 0) (Runs.clock 60) emptyDb).
  - reflexivity.
  - cbn. lia.
Defined.

(** ** A default week *)

Lemma getDay_setDatePlus tz t d :
  Time.getDay tz (Time.setDatePlus t d) = (Time.getDay tz t + d) mod 7.
Proof.
  unfold Time.getDay, Time.setDatePlus, Time.localDay.
  replace (t + d * Time.msPerDay + tz) with (t + tz + d * Time.msPerDay) by lia.
  rewrite Z.div_add by (unfold Time.msPerDay; lia).
  rewrite Zplus_mod_idemp_l. f_equal. lia.
Qed.

Lemma length_daySlots day : length (Spec.daySlots day) = 16%nat.
Proof. reflexivity. Qed.

Lemma length_week_visits tz t :
  length (generateSlots_visits tz (Time.utcAt t 9 0 0) 7) = 80%nat.
Proof.
  rewrite generateSlots_visits_days.
  assert (seqZ 0 7 = [0; 1; 2; 3; 4; 5; 6]) as -> by reflexivity.
  cbn [flat_map]. rewrite !getDay_setDatePlus.
  set (w := Time.getDay tz (Time.utcAt t 9 0 0)).
  assert (Hw : 0 <= w < 7) by (apply Z.mod_pos_bound; lia).
  assert (w = 0 \/ w = 1 \/ w = 2 \/ w = 3 \/ w = 4 \/ w = 5 \/ w = 6)
    as [->|[->|[->|[->|[->|[->| ->]]]]]] by lia;
    cbn -[Spec.daySlots]; rewrite ?length_app, ?length_daySlots; reflexivity.
Qed.

Lemma generateSlots_visits_from tz t days s :
  In s (generateSlots_visits tz (Time.utcAt t 9 0 0) days) ->
  Time.utcAt t 9 0 0 <= startAt s.
Proof.
  rewrite generateSlots_visits_days. intros (d & Hd & Hs)%in_flat_map.
  apply list_elem_of_In, elem_of_seqZ in Hd.
  destruct (_ || _); [done|]. unfold Spec.daySlots in Hs.
  apply in_map_iff in Hs as (i & <- & Hi). apply list_elem_of_In, elem_of_seqZ in Hi.
  unfold Spec.window, Time.utcAt. cbn [startAt].
  unfold Time.msPerDay, Time.msPerHour, Time.msPerMinute. nia.
Qed.

(** [generateSlots] with no [days] in the body, on a store whose slots all
    start before 09:00 UTC of tomorrow, generates exactly 80 slots, whatever
    the day of the week and whatever the server's time zone: five of any
    seven consecutive days are not a weekend, and each gets 16 slots. *)
Theorem default_week_is_80_slots tz now db :
  (forall id x, slots db !! id = Some x ->
                startAt x < Time.utcAt (Time.setUTCDatePlus now 1) 9 0 0) ->
  snd (exec (generateSlots tz None now) db)
  = SlotsGenerated 80 (Time.utcAt (Time.setUTCDatePlus now 1) 9 0 0)
      (Time.utcAt (Time.setUTCDatePlus now 1) 9 0 0 + 6 * Time.msPerDay) /\
  size (slots (fst (exec (generateSlots tz None now) db))) = (size (slots db) + 80)%nat.
Proof.
  intros Hbefore. rewrite exec_generateSlots.
  change (default 7 None) with 7.
  change ((7 <? 1) || (30 <? 7)) with false. cbn [fst snd].
  assert (Hdocs : generateSlots_docs tz now 7 db
                  = generateSlots_visits tz (Time.utcAt (Time.setUTCDatePlus now 1) 9 0 0) 7).
  { unfold generateSlots_docs. apply filter_all. intros s Hs.
    apply negb_true_iff, not_true_iff_false. intros (id & x & Hx & H1 & _)%windowExists_spec.
    apply generateSlots_visits_from in Hs. apply Hbefore in Hx. lia. }
  destruct (insertMany_lookup (generateSlots_docs tz now 7 db) db) as (_ & Hsize & _).
  rewrite Hsize, Hdocs, length_week_visits. by split.
Qed.

Lemma default_week_is_80_slots_witness :
  snd (exec (generateSlots 0 None (Runs.clock 0)) emptyDb)
  = SlotsGenerated 80 (Time.utcAt (Time.setUTCDatePlus (Runs.clock 0) 1) 9 0 0)
      (Time.utcAt (Time.setUTCDatePlus (Runs.clock 0) 1) 9 0 0 + 6 * Time.msPerDay) /\
  size (slots (fst (exec (generateSlots 0 None (Runs.clock 0)) emptyDb)))
  = (size (slots emptyDb) + 80)%nat.
Proof.
  apply (default_week_is_80_slots 0 (Runs.clock 0) emptyDb).
  intros id x Hx. cbn in Hx. by rewrite lookup_empty in Hx.
Defined.

(** ** Every slot has a positive length *)

Lemma generateSlots_visits_window tz t days s :
  In s (generateSlots_visits tz (Time.utcAt t 9 0 0) days) -> startAt s < endAt s.
Proof.
  rewrite generateSlots_visits_days. intros (d & Hd & Hs)%in_flat_map.
  destruct (_ || _); [done|]. unfold Spec.daySlots in Hs.
  apply in_map_iff in Hs as (i & <- & Hi).
  unfold Spec.window. cbn [startAt endAt]. unfold Time.msPerMinute. lia.
Qed.

Lemma positive_windows_handle Date_parse tz r now db :
  (forall id s, slots db !! id = Some s -> startAt s < endAt s) ->
  forall id s, slots (fst (exec (handle Date_parse tz r now) db)) !! id = Some s ->
               startAt s < endAt s.
Proof.
  intros Hd.
  assert (Hsame : forall db',
            (forall x, windowOf <$> slots db' !! x = windowOf <$> slots db !! x) ->
            forall id s, slots db' !! id = Some s -> startAt s < endAt s).
  { intros db' Hw id s Hs.
    destruct (same_window_lookup db db' id s Hw Hs) as (s0 & Hs0 & Heq).
    apply Hd in Hs0. unfold windowOf in Heq. injection Heq as H1 H2. lia. }
  destruct r as [user slotStr | user str | user days | user s0 e0 | user str
                | user from to includeBooked | user from to]; cbn [handle].
  - apply Hsame. intros x. apply slots_after_book.
  - apply Hsame. intros x. apply slots_after_cancel.
  - unfold requireAdmin. rewrite exec_requireRole. destruct (bool_decide _); [|done].
    rewrite exec_generateSlots. destruct (_ || _); [done|]. cbn [fst].
    intros id s Hs.
    destruct (insertMany_lookup (generateSlots_docs tz now (default 7 days) db) db)
      as (_ & _ & _ & _ & Honly).
    apply Honly in Hs as [Hs | Hs]; [by apply (Hd id)|].
    apply list_elem_of_In, filter_In in Hs as [Hs _].
    by apply generateSlots_visits_window in Hs.
  - unfold requireAdmin. rewrite exec_requireRole. destruct (bool_decide _); [|done].
    rewrite exec_addSlot. destruct (_ || _); [done|].
    destruct (Date_parse (default "" s0)) as [sd|]; [|done].
    destruct (Date_parse (default "" e0)) as [ed|]; [|done].
    destruct (ed <=? sd) eqn:Hse; [done|].
    destruct (windowExists db (mkSlot sd ed false)); [done|]. cbn [fst slots].
    intros id s [[_ <-] | [_ Hs]]%lookup_insert_Some; [cbn; lia|by apply (Hd id)].
  - unfold requireAdmin. rewrite exec_requireRole. destruct (bool_decide _); [|done].
    rewrite exec_removeSlot. destruct (ObjectId.cast str) as [sid|]; [|done].
    destruct (slots db !! sid) as [slot|]; [|done].
    destruct (isBooked slot); [done|]. cbn [fst slots].
    intros id s [_ Hs]%lookup_delete_Some. by apply (Hd id).
  - by rewrite exec_getAvailableSlots_reads.
  - unfold requireAdmin. rewrite exec_requireRole. destruct (bool_decide _); [|done].
    by rewrite exec_getAllSlots_reads.
Qed.

(** Starting from empty collections and serving requests one after the
    other, every stored slot ends after it starts; so the slot model's
    pre-save hook, which refuses [startAt >= endAt], never fails a booking
    or a cancellation. *)
Theorem slots_end_after_they_start Date_parse tz trace id s :
  slots (serve Date_parse tz trace emptyDb) !! id = Some s -> startAt s < endAt s.
Proof.
  revert id s. induction trace as [|rq trace IH] using rev_ind; intros id s.
  - cbn. by rewrite lookup_empty.
  - unfold serve. rewrite fold_left_app. cbn [fold_left].
    by apply positive_windows_handle.
Qed.

Lemma slots_end_after_they_start_witness :
  startAt (mkSlot Examples.t0900 Examples.t0930 false)
  < endAt (mkSlot Examples.t0900 Examples.t0930 false).
Proof.
  apply (slots_end_after_they_start IsoDate.parse 0
           [(Generate Runs.A1 (Some 3), Runs.clock 0)] 0%N
           (mkSlot Examples.t0900 Examples.t0930 false)).
  vm_compute. reflexivity.
Defined.

(** ** What a slot listing holds *)

#[global] Instance byStartAt_trans : Transitive byStartAt.
Proof. intros a b c. unfold byStartAt. lia. Qed.

#[global] Instance byStartAt_total : Total byStartAt.
Proof. intros a b. unfold byStartAt. lia. Qed.

(** What [Slot.find({ startAt: { $gte, $lte } [, isBooked: false] })
    .sort({ startAt: 1 })] finds. *)
Lemma findRange_spec lo hi onlyFree db :
  let found := snd (Slot_findRange lo hi onlyFree db) in
  StronglySorted byStartAt found /\
  NoDup (fst <$> found) /\
  forall id s, (id, s) ∈ found <->
    slots db !! id = Some s /\ lo <= startAt s <= hi /\
    (onlyFree = true -> isBooked s = false).
Proof.
  cbn. set (l := List.filter _ _).
  assert (Hperm : merge_sort byStartAt l ≡ₚ l) by apply merge_sort_Permutation.
  split; [apply StronglySorted_merge_sort; apply _|]. split.
  - rewrite Hperm. unfold l. apply NoDup_fmap_filter, NoDup_fst_map_to_list.
  - intros id s. rewrite Hperm. unfold l.
    rewrite list_elem_of_In, filter_In, In_map_to_list. cbn [snd].
    rewrite !andb_true_iff, orb_true_iff, !negb_true_iff, !Z.leb_le.
    destruct onlyFree, (isBooked s); intuition congruence.
Qed.

Lemma pushByDate_keys (P : Z -> Prop) k v g :
  P k -> Forall P (fst <$> g) -> Forall P (fst <$> pushByDate k v g).
Proof.
  intros Hk. induction g as [|[k0 vs] g IH]; cbn.
  - intros _. by repeat constructor.
  - intros [H0 Hg]%Forall_cons. destruct (k0 =? k); cbn.
    + by constructor.
    + constructor; [done|by apply IH].
Qed.

Lemma pushByDate_spec k v g :
  StronglySorted Z.lt (fst <$> g) ->
  Forall (fun k' => k' <= k) (fst <$> g) ->
  Time.utcDay (sv_startAt v) = k ->
  Forall groupOfItsDay g ->
  listedSlots (pushByDate k v g) = listedSlots g ++ [v] /\
  StronglySorted Z.lt (fst <$> pushByDate k v g) /\
  Forall groupOfItsDay (pushByDate k v g).
Proof.
  intros Hs Hle Hv Hg. unfold listedSlots.
  induction g as [|[k0 vs] g IH]; cbn.
  - split; [done|]. split; [repeat constructor|].
    repeat constructor; [done|by cbn].
  - cbn in Hs, Hle. apply StronglySorted_inv in Hs as [Hs Hlt].
    apply Forall_cons in Hle as [Hk0 Hle]. apply Forall_cons in Hg as [[Hne Hvs] Hg].
    cbn in Hne, Hvs. destruct (k0 =? k) eqn:Hk; cbn.
    + apply Z.eqb_eq in Hk. subst k0.
      assert (g = []) as ->.
      { destruct g as [|[k1 ws] g']; [done|]. cbn in Hlt, Hle.
        apply Forall_cons in Hlt as [? _]. apply Forall_cons in Hle as [? _]. lia. }
      cbn. rewrite !app_nil_r. split; [done|]. split; [repeat constructor|].
      repeat constructor; cbn.
      * by destruct vs.
      * apply Forall_app. split; [done|]. by repeat constructor.
    + apply Z.eqb_neq in Hk. destruct (IH Hs Hle Hg) as (Hc & Hs' & Hg').
      split; [by rewrite Hc, app_assoc|]. split.
      * constructor; [done|]. apply pushByDate_keys; [lia|done].
      * constructor; [by split|done].
Qed.

Lemma groupByDate_fold found g :
  StronglySorted byStartAt found ->
  StronglySorted Z.lt (fst <$> g) ->
  Forall groupOfItsDay g ->
  Forall (fun kv => Forall (fun k' => k' <= Time.utcDay (startAt (snd kv))) (fst <$> g))
         found ->
  listedSlots (fold_left (fun g kv => pushByDate (Time.utcDay (startAt (snd kv)))
                                                 (slotView kv) g) found g)
  = listedSlots g ++ (slotView <$> found) /\
  StronglySorted Z.lt
    (fst <$> fold_left (fun g kv => pushByDate (Time.utcDay (startAt (snd kv)))
                                               (slotView kv) g) found g) /\
  Forall groupOfItsDay
    (fold_left (fun g kv => pushByDate (Time.utcDay (startAt (snd kv)))
                                       (slotView kv) g) found g).
Proof.
  revert g. induction found as [|kv found IH]; intros g Hsorted Hs Hg Hle;
    cbn [fold_left fmap list_fmap].
  - by rewrite app_nil_r.
  - apply StronglySorted_inv in Hsorted as [Hsorted Hkv].
    apply Forall_cons in Hle as [Hle0 Hle].
    destruct (pushByDate_spec (Time.utcDay (startAt (snd kv))) (slotView kv) g)
      as (Hc & Hs' & Hg'); [done|done|done|done|].
    destruct (IH (pushByDate (Time.utcDay (startAt (snd kv))) (slotView kv) g))
      as (Hc2 & Hs2 & Hg2); [done|done|done| |].
    + apply Forall_forall. intros kv' Hkv'.
      rewrite Forall_forall in Hkv. specialize (Hkv kv' Hkv').
      assert (Hmono : Time.utcDay (startAt (snd kv)) <= Time.utcDay (startAt (snd kv'))).
      { unfold Time.utcDay. apply Z.div_le_mono; [unfold Time.msPerDay; lia|done]. }
      apply pushByDate_keys; [done|].
      eapply Forall_impl; [exact Hle0|]. cbn. intros; lia.
    + split; [|done]. rewrite Hc2, Hc. by rewrite <- app_assoc.
Qed.

Lemma groupByDate_spec found :
  StronglySorted byStartAt found ->
  listedSlots (groupByDate found) = slotView <$> found /\
  StronglySorted Z.lt (fst <$> groupByDate found) /\
  Forall groupOfItsDay (groupByDate found).
Proof.
  intros Hs. destruct (groupByDate_fold found [] Hs) as (Hc & H2 & H3).
  - constructor.
  - constructor.
  - apply Forall_forall. intros; constructor.
  - done.
Qed.

(** The body of a listing: [totalSlots] counts the slots listed; the date
    keys are distinct and ascending; each group holds only slots of its
    day and is not empty; read group after group the slots come in
    ascending [startAt], each once; and they are exactly the stored slots
    that start within the range and, when only free slots were asked for,
    have their flag clear. *)
Lemma slotsListing_spec lo hi onlyFree db groups n f t :
  slotsListing lo hi onlyFree db = SlotsListed groups n f t ->
  f = lo /\ t = hi /\
  n = length (listedSlots groups) /\
  StronglySorted Z.lt (fst <$> groups) /\
  Forall groupOfItsDay groups /\
  StronglySorted (fun v w => sv_startAt v <= sv_startAt w) (listedSlots groups) /\
  NoDup (sv_id <$> listedSlots groups) /\
  forall v, v ∈ listedSlots groups <->
    exists s, slots db !! sv_id v = Some s /\ v = slotView (sv_id v, s) /\
              lo <= startAt s <= hi /\ (onlyFree = true -> isBooked s = false).
Proof.
  unfold slotsListing. cbv zeta.
  destruct (findRange_spec lo hi onlyFree db) as (Hsorted & Hnd & Hin).
  set (found := snd (Slot_findRange lo hi onlyFree db)) in *. clearbody found.
  intros [= <- <- <- <-].
  destruct (groupByDate_spec found Hsorted) as (Hc & Hk & Hg).
  rewrite Hc. split; [done|]. split; [done|].
  split; [by rewrite length_fmap|]. split; [done|]. split; [done|]. split; [|split].
  - clear -Hsorted. induction Hsorted as [|kv l Hl IH Hkv]; cbn; constructor; [done|].
    apply Forall_fmap. eapply Forall_impl; [exact Hkv|]. by intros kv'.
  - rewrite <- list_fmap_compose. by change (sv_id ∘ slotView) with (@fst N Slot).
  - intros v. rewrite list_elem_of_fmap. split.
    + intros ([id s] & -> & Hs). apply Hin in Hs as (Hs & Hr & Hf). by exists s.
    + intros (s & Hs & Hv & Hr & Hf). exists (sv_id v, s). split; [done|].
      by apply Hin.
Qed.

Lemma exec_getAvailableSlots Date_parse tz from to includeBooked now db :
  exec (getAvailableSlots Date_parse tz from to includeBooked now) db =
  (db,
   if negb (truthy from) || negb (truthy to) then ErrorResponse 400 "MISSING_DATES"
   else
     match resolveDate Date_parse from 0 0 0, resolveDate Date_parse to 23 59 59 with
     | Some fromDate, Some toDate =>
         if fromDate <? Time.setHours0 tz now then ErrorResponse 400 "PAST_DATE"
         else if 7 <? Time.ceilDiv (toDate - fromDate) (1000 * 60 * 60 * 24)
         then ErrorResponse 400 "DATE_RANGE_TOO_LARGE"
         else slotsListing fromDate toDate (negb (truthy includeBooked)) db
     | _, _ => ErrorResponse 400 "INVALID_DATE_FORMAT"
     end).
Proof.
  unfold getAvailableSlots, exec, resolveDate.
  destruct (negb (truthy from) || negb (truthy to)); [done|].
  destruct (Date_parse (default "" from)); [|done].
  destruct (Date_parse (default "" to)); [|done]. cbn.
  destruct (_ <? Time.setHours0 tz now); [done|]. cbn.
  by destruct (7 <? _).
Qed.

Lemma exec_getAllSlots Date_parse from to db :
  exec (getAllSlots Date_parse from to) db =
  (db,
   if negb (truthy from) || negb (truthy to) then ErrorResponse 400 "MISSING_DATES"
   else
     match resolveDate Date_parse from 0 0 0, resolveDate Date_parse to 23 59 59 with
     | Some fromDate, Some toDate => slotsListing fromDate toDate false db
     | _, _ => ErrorResponse 400 "INVALID_DATE_FORMAT"
     end).
Proof.
  unfold getAllSlots, exec, resolveDate.
  destruct (negb (truthy from) || negb (truthy to)); [done|].
  destruct (Date_parse (default "" from)); [|done].
  by destruct (Date_parse (default "" to)).
Qed.

(** A listing answered by [getAvailableSlots]: its range starts no earlier
    than the server's local midnight of today and spans at most seven days;
    [totalSlots] counts the slots listed; the date keys are distinct and
    ascending and each group holds slots of its own UTC day; the slots come
    in ascending [startAt], each once; and they are exactly the stored slots
    that start within the range and, unless [includeBooked] is a non-empty
    text, have their flag clear. *)
Theorem getAvailableSlots_listing Date_parse tz from to includeBooked now db
    groups n fromDate toDate :
  snd (exec (getAvailableSlots Date_parse tz from to includeBooked now) db)
    = SlotsListed groups n fromDate toDate ->
  Time.setHours0 tz now <= fromDate /\
  toDate - fromDate <= 7 * Time.msPerDay /\
  n = length (listedSlots groups) /\
  StronglySorted Z.lt (fst <$> groups) /\
  Forall groupOfItsDay groups /\
  StronglySorted (fun v w => sv_startAt v <= sv_startAt w) (listedSlots groups) /\
  NoDup (sv_id <$> listedSlots groups) /\
  forall v, v ∈ listedSlots groups <->
    exists s, slots db !! sv_id v = Some s /\ v = slotView (sv_id v, s) /\
              fromDate <= startAt s <= toDate /\
              (truthy includeBooked = false -> isBooked s = false).
Proof.
  rewrite exec_getAvailableSlots. cbn [snd].
  destruct (negb (truthy from) || negb (truthy to)); [done|].
  destruct (resolveDate Date_parse from 0 0 0) as [f|]; [|done].
  destruct (resolveDate Date_parse to 23 59 59) as [t|]; [|done].
  destruct (f <? Time.setHours0 tz now) eqn:Hpast; [done|].
  destruct (7 <? _) eqn:Hrange; [done|].
  intros H. apply slotsListing_spec in H as (-> & -> & Hrest).
  split; [lia|]. split.
  { apply Z.ltb_ge in Hrange. unfold Time.ceilDiv in Hrange. unfold Time.msPerDay.
    pose proof (Z.mul_div_le (- (t - f)) (1000 * 60 * 60 * 24) ltac:(lia)). lia. }
  destruct Hrest as (Hn & Hk & Hg & Hs & Hnd & Hin).
  repeat (split; [done|]).
  intros v. rewrite Hin. split; intros (s & Hs1 & Hv & Hr & Hf); exists s;
    (repeat (split; [done|])); intros Hb; apply Hf; by destruct (truthy includeBooked).
Qed.

Lemma getAvailableSlots_listing_witness :
  exists groups n fromDate toDate,
    snd (exec (getAvailableSlots IsoDate.parse 0 (Some "2025-08-25") (Some "2025-08-25")
                 None Examples.earlier) Examples.touching)
      = SlotsListed groups n fromDate toDate /\
    n = length (listedSlots groups) /\
    forall v, v ∈ listedSlots groups <->
      exists s, slots Examples.touching !! sv_id v = Some s /\
                v = slotView (sv_id v, s) /\
                fromDate <= startAt s <= toDate /\
                (truthy None = false -> isBooked s = false).
Proof.
  eexists _, _, _, _. split; [vm_compute; reflexivity|].
  pose proof (getAvailableSlots_listing IsoDate.parse 0 (Some "2025-08-25")
                (Some "2025-08-25") None Examples.earlier Examples.touching
                _ _ _ _ eq_refl) as (_ & _ & Hn & _ & _ & _ & _ & Hin).
  split; [exact Hn|exact Hin].
Defined.

(** A listing answered by [getAllSlots]: the same shape, over every stored
    slot that starts within the range, flagged or not; no range is too
    wide or too old for it. *)
Theorem getAllSlots_listing Date_parse from to db groups n fromDate toDate :
  snd (exec (getAllSlots Date_parse from to) db) = SlotsListed groups n fromDate toDate ->
  n = length (listedSlots groups) /\
  StronglySorted Z.lt (fst <$> groups) /\
  Forall groupOfItsDay groups /\
  StronglySorted (fun v w => sv_startAt v <= sv_startAt w) (listedSlots groups) /\
  NoDup (sv_id <$> listedSlots groups) /\
  forall v, v ∈ listedSlots groups <->
    exists s, slots db !! sv_id v = Some s /\ v = slotView (sv_id v, s) /\
              fromDate <= startAt s <= toDate.
Proof.
  rewrite exec_getAllSlots. cbn [snd].
  destruct (negb (truthy from) || negb (truthy to)); [done|].
  destruct (resolveDate Date_parse from 0 0 0) as [f|]; [|done].
  destruct (resolveDate Date_parse to 23 59 59) as [t|]; [|done].
  intros H. apply slotsListing_spec in H as (-> & -> & Hn & Hk & Hg & Hs & Hnd & Hin).
  repeat (split; [done|]).
  intros v. rewrite Hin. split.
  - intros (s & Hs1 & Hv & Hr & _). by exists s.
  - intros (s & Hs1 & Hv & Hr). by exists s.
Qed.

Lemma getAllSlots_listing_witness :
  exists groups n fromDate toDate,
    snd (exec (getAllSlots IsoDate.parse (Some "2025-08-25") (Some "2025-08-25"))
              Examples.touching)
      = SlotsListed groups n fromDate toDate /\
    n = length (listedSlots groups) /\
    forall v, v ∈ listedSlots groups <->
      exists s, slots Examples.touching !! sv_id v = Some s /\
                v = slotView (sv_id v, s) /\ fromDate <= startAt s <= toDate.
Proof.
  eexists _, _, _, _. split; [vm_compute; reflexivity|].
  pose proof (getAllSlots_listing IsoDate.parse (Some "2025-08-25")
                (Some "2025-08-25") Examples.touching
                _ _ _ _ eq_refl) as (Hn & _ & _ & _ & _ & Hin).
  split; [exact Hn|exact Hin].
Defined.

(** [includeBooked] is read as a text of the query string: any non-empty
    one, "false" and "0" among them, removes the filter on the flag.  A
    listing [getAvailableSlots] then answers is the listing [getAllSlots]
    answers an admin for the same dates. *)
Theorem includeBooked_text_lists_all Date_parse tz from to text now db
    groups n fromDate toDate :
  text <> "" ->
  snd (exec (getAvailableSlots Date_parse tz from to (Some text) now) db)
    = SlotsListed groups n fromDate toDate ->
  snd (exec (getAllSlots Date_parse from to) db) = SlotsListed groups n fromDate toDate.
Proof.
  intros Htext. rewrite exec_getAvailableSlots, exec_getAllSlots. cbn [snd].
  destruct (negb (truthy from) || negb (truthy to)); [done|].
  destruct (resolveDate Date_parse from 0 0 0) as [f|]; [|done].
  destruct (resolveDate Date_parse to 23 59 59) as [t|]; [|done].
  destruct (f <? Time.setHours0 tz now); [done|].
  destruct (7 <? _); [done|].
  assert (truthy (Some text) = true) as ->; [|done].
  cbn. apply negb_true_iff. by apply String.eqb_neq.
Qed.

Lemma includeBooked_text_lists_all_witness :
  exists groups n fromDate toDate,
    snd (exec (getAllSlots IsoDate.parse (Some "2025-08-25") (Some "2025-08-25"))
              Examples.touching)
      = SlotsListed groups n fromDate toDate /\
    (n = 2)%nat.
Proof.
  eexists _, _, _, _. split; [|reflexivity].
  apply (includeBooked_text_lists_all IsoDate.parse 0 (Some "2025-08-25")
           (Some "2025-08-25") "false" Examples.earlier Examples.touching).
  - discriminate.
  - vm_compute. reflexivity.
Defined.

(** ** Reading the authorization header *)

Lemma split_without sep w : without sep w = true -> split sep w = [w].
Proof.
  induction w as [|c w IH]; cbn [split without]; [done|].
  intros [Hc Hw]%andb_true_iff. apply negb_true_iff in Hc. rewrite Hc.
  by rewrite IH.
Qed.

Lemma split_app sep w rest :
  without sep w = true ->
  split sep (w ++ String sep rest) = w :: split sep rest.
Proof.
  induction w as [|c w IH].
  - intros _. change ("" ++ String sep rest)%string with (String sep rest).
    cbn [split]. by rewrite Ascii.eqb_refl.
  - change (String c w ++ String sep rest)%string with (String c (w ++ String sep rest)%string).
    cbn [split without]. intros [Hc Hw]%andb_true_iff. apply negb_true_iff in Hc. rewrite Hc.
    by rewrite IH.
Qed.

Lemma truthy_app_sep w sep rest : truthy (Some (w ++ String sep rest)%string) = true.
Proof. by destruct w. Qed.

Lemma split_nonempty sep s : exists w ws, split sep s = w :: ws.
Proof.
  induction s as [|c s (w & ws & IH)]; cbn [split]; [by eexists _, _|].
  destruct (Ascii.eqb c sep); [by eexists _, _|]. rewrite IH. by eexists _, _.
Qed.

(** The middleware takes the second space-separated word of the header as
    the token and looks at nothing else: the scheme word may be anything,
    [Bearer] or not, and whatever follows a second space is dropped. *)
Theorem authenticateToken_reads_second_word jwt_verify User_findById scheme token rest :
  without " " scheme = true ->
  without " " token = true ->
  authenticateToken jwt_verify User_findById (Some (scheme ++ " " ++ token)%string)
    = authenticateToken jwt_verify User_findById (Some ("Bearer " ++ token)%string) /\
  authenticateToken jwt_verify User_findById (Some (scheme ++ " " ++ token ++ " " ++ rest)%string)
    = authenticateToken jwt_verify User_findById (Some ("Bearer " ++ token)%string).
Proof.
  intros Hs Ht. unfold authenticateToken.
  change (scheme ++ " " ++ token)%string with (scheme ++ String " " token)%string.
  change (scheme ++ " " ++ token ++ " " ++ rest)%string
    with (scheme ++ String " " (token ++ String " " rest))%string.
  change ("Bearer " ++ token)%string with ("Bearer" ++ String " " token)%string.
  rewrite !truthy_app_sep. cbn [default from_option id].
  rewrite (split_app " " scheme token Hs), (split_app " " "Bearer" token eq_refl).
  rewrite (split_app " " scheme (token ++ String " " rest)%string Hs).
  rewrite (split_without " " token Ht), (split_app " " token rest Ht).
  destruct (split_nonempty " " rest) as (w & ws & ->). done.
Qed.

Lemma authenticateToken_reads_second_word_witness :
  let verify := fun t : string => if String.eqb t "t0" then inr (Some "u1")
                                  else inl JsonWebTokenError in
  let find := fun _ : option string => @inr exn _ (Some Examples.P1) in
  authenticateToken verify find (Some "Basic t0") = Next Examples.P1 /\
  authenticateToken verify find (Some "Basic t0 and more") = Next Examples.P1.
Proof.
  intros verify find.
  destruct (authenticateToken_reads_second_word verify find "Basic" "t0" "and more"
              eq_refl eq_refl) as [H1 H2].
  split; [exact H1|exact H2].
Defined.

(** A header without a space carries no token for the middleware, whatever
    it holds; so does one with two spaces after its first word, and so
    does an absent or empty header: the answer is 401 [TOKEN_MISSING], and
    the token is not verified. *)
Theorem authenticateToken_token_missing jwt_verify User_findById header rest :
  without " " header = true ->
  authenticateToken jwt_verify User_findById None
    = Answered (ErrorResponse 401 "TOKEN_MISSING") /\
  authenticateToken jwt_verify User_findById (Some header)
    = Answered (ErrorResponse 401 "TOKEN_MISSING") /\
  authenticateToken jwt_verify User_findById (Some (header ++ "  " ++ rest)%string)
    = Answered (ErrorResponse 401 "TOKEN_MISSING").
Proof.
  intros Hh. split; [done|]. split.
  - unfold authenticateToken. destruct (truthy (Some header)) eqn:Htr.
    + cbn [default from_option id]. by rewrite split_without.
    + by rewrite Htr.
  - unfold authenticateToken.
    change (header ++ "  " ++ rest)%string with (header ++ String " " (String " " rest))%string.
    rewrite truthy_app_sep. cbn [default from_option id].
    rewrite (split_app " " header (String " " rest) Hh). done.
Qed.

Lemma authenticateToken_token_missing_witness :
  let verify := fun _ : string => @inr jwtError _ (Some "u1") in
  let find := fun _ : option string => @inr exn _ (Some Examples.P1) in
  authenticateToken verify find (Some "t0") = Answered (ErrorResponse 401 "TOKEN_MISSING") /\
  authenticateToken verify find (Some "Bearer  t0")
    = Answered (ErrorResponse 401 "TOKEN_MISSING").
Proof.
  intros verify find.
  destruct (authenticateToken_token_missing verify find "t0" "x" eq_refl) as (_ & H1 & _).
  destruct (authenticateToken_token_missing verify find "Bearer" "t0" eq_refl)
    as (_ & _ & H2).
  split; [exact H1|exact H2].
Defined.

(** ** Seeding *)

Lemma run_seedDatabase tz usersPart now db :
  fst (run (seedDatabase tz usersPart now) db) =
  match usersPart with
  | Some _ => db
  | None => if (size (slots db) =? 0)%nat
            then fst (Slot_insertMany (seedDatabase_slots tz now) db)
            else db
  end.
Proof.
  unfold seedDatabase. destruct usersPart as [e|]; [done|].
  cbn [catch run Slot_countDocuments].
  destruct (size (slots db) =? 0)%nat; [|done].
  destruct (seedDatabase_slots tz now) as [|s l]; [done|]. done.
Qed.

Lemma localDay_seed tz now day :
  Time.localDay tz (Time.setDatePlus (Date_local tz now 9 0) day)
  = Time.localDay tz now + day.
Proof.
  unfold Time.localDay at 1. unfold Time.setDatePlus, Date_local.
  symmetry. apply (Z.div_unique_pos _ _ _ (9 * Time.msPerHour)).
  - unfold Time.msPerHour, Time.msPerDay. lia.
  - unfold Time.msPerMinute, Time.msPerHour, Time.msPerDay. lia.
Qed.

Lemma seed_day_windows tz currentDate :
  flat_map (fun hour =>
    flat_map (fun minute =>
      [mkSlot (Date_local tz currentDate hour minute)
              (setMinutesPlus (Date_local tz currentDate hour minute) 30) false])
      [0; 30]) (seqZ 9 8)
  = localWindow tz (Time.localDay tz currentDate) <$> seqZ 0 16.
Proof.
  unfold localWindow, Date_local, setMinutesPlus.
  generalize (Time.localDay tz currentDate). intros L.
  assert (Hhours : seqZ 9 8 = [9; 10; 11; 12; 13; 14; 15; 16]) by reflexivity.
  assert (Hidx : seqZ 0 16 = [0; 1; 2; 3; 4; 5; 6; 7; 8; 9; 10; 11; 12; 13; 14; 15])
    by reflexivity.
  rewrite Hhours, Hidx. cbn [flat_map fmap list_fmap app].
  unfold Time.msPerDay, Time.msPerHour, Time.msPerMinute.
  repeat (apply (f_equal2 cons); [apply (f_equal3 mkSlot); [lia|lia|reflexivity]|]).
  reflexivity.
Qed.

Lemma seedDatabase_slots_days tz now :
  seedDatabase_slots tz now
  = flat_map
      (fun day =>
         if ((Time.getDay tz (Date_local tz now 9 0) + day) mod 7 =? 0)
            || ((Time.getDay tz (Date_local tz now 9 0) + day) mod 7 =? 6)
         then [] else localWindow tz (Time.localDay tz now + day) <$> seqZ 0 16)
      (seqZ 0 7).
Proof.
  unfold seedDatabase_slots. apply flat_map_ext. intros day. cbv zeta.
  rewrite getDay_setDatePlus. destruct (_ || _); [done|].
  by rewrite seed_day_windows, localDay_seed.
Qed.

Lemma length_seedDatabase_slots tz now : length (seedDatabase_slots tz now) = 80%nat.
Proof.
  rewrite seedDatabase_slots_days.
  assert (seqZ 0 7 = [0; 1; 2; 3; 4; 5; 6]) as -> by reflexivity.
  cbn [flat_map].
  set (w := Time.getDay tz (Date_local tz now 9 0)).
  assert (Hw : 0 <= w < 7) by (apply Z.mod_pos_bound; lia).
  assert (Hlen : forall d, length (localWindow tz d <$> seqZ 0 16) = 16%nat)
    by (intros d; by rewrite length_fmap).
  assert (w = 0 \/ w = 1 \/ w = 2 \/ w = 3 \/ w = 4 \/ w = 5 \/ w = 6)
    as [->|[->|[->|[->|[->|[->| ->]]]]]] by lia;
    cbn -[localWindow seqZ]; rewrite ?length_app, ?Hlen; reflexivity.
Qed.

Lemma localDay_localWindow tz day i :
  0 <= i < 16 ->
  Time.localDay tz (startAt (localWindow tz day i)) = day /\
  (startAt (localWindow tz day i) + tz) mod Time.msPerDay
  = 9 * Time.msPerHour + i * (30 * Time.msPerMinute).
Proof.
  intros Hi. unfold localWindow, Time.localDay. cbn [startAt].
  assert (Hb : 0 <= 9 * Time.msPerHour + i * (30 * Time.msPerMinute) < Time.msPerDay)
    by (unfold Time.msPerHour, Time.msPerMinute, Time.msPerDay; lia).
  split.
  - symmetry. apply (Z.div_unique_pos _ _ _ _ Hb).
    unfold Time.msPerHour, Time.msPerMinute, Time.msPerDay. lia.
  - symmetry. apply (Z.mod_unique_pos _ _ day _ Hb).
    unfold Time.msPerHour, Time.msPerMinute, Time.msPerDay. lia.
Qed.

(** Each seeded slot is a free half-hour window of one of the seven local
    days from today on, a weekday on the local calendar. *)
Lemma seedDatabase_slots_elem tz now s :
  s ∈ seedDatabase_slots tz now ->
  exists day i, 0 <= day < 7 /\ 0 <= i < 16 /\
    s = localWindow tz (Time.localDay tz now + day) i /\
    Time.getDay tz (startAt s) <> 0 /\ Time.getDay tz (startAt s) <> 6.
Proof.
  rewrite seedDatabase_slots_days.
  intros (day & Hday & Hs)%list_elem_of_In%in_flat_map.
  apply list_elem_of_In, elem_of_seqZ in Hday.
  destruct (_ || _) eqn:Hwe; [done|].
  apply list_elem_of_In, list_elem_of_fmap in Hs as (i & -> & Hi%elem_of_seqZ).
  exists day, i. split; [lia|]. split; [lia|]. split; [done|].
  destruct (localDay_localWindow tz (Time.localDay tz now + day) i) as [Hd _]; [lia|].
  apply orb_false_iff in Hwe as [H0 H6]. apply Z.eqb_neq in H0, H6.
  assert (Heq : Time.getDay tz (startAt (localWindow tz (Time.localDay tz now + day) i))
                = (Time.getDay tz (Date_local tz now 9 0) + day) mod 7).
  { unfold Time.getDay at 1. rewrite Hd. unfold Time.getDay.
    pose proof (localDay_seed tz now 0) as H. unfold Time.setDatePlus in H.
    rewrite Z.add_0_r in H. replace (Date_local tz now 9 0 + 0 * Time.msPerDay)
      with (Date_local tz now 9 0) in H by lia.
    rewrite H, Zplus_mod_idemp_l. f_equal. lia. }
  rewrite Heq. done.
Qed.

Lemma NoDup_flat_map_keyed {A B} (key : B -> Z) (F : Z -> list A) (f : A -> B) l :
  (forall d, NoDup (f <$> F d)) ->
  (forall d x, x ∈ F d -> key (f x) = d) ->
  NoDup l -> NoDup (f <$> flat_map F l).
Proof.
  intros HN HF. induction l as [|a l IH]; [constructor|]. intros [Ha Hl]%NoDup_cons.
  cbn. rewrite fmap_app. apply NoDup_app. split; [apply HN|]. split; [|by apply IH].
  intros y (x & -> & Hx)%list_elem_of_fmap (x' & Heq & Hx')%list_elem_of_fmap.
  apply list_elem_of_In, in_flat_map in Hx' as (d & Hd & Hx').
  apply list_elem_of_In in Hd, Hx'. apply HF in Hx, Hx'.
  rewrite Heq in Hx. by assert (a = d) as -> by lia.
Qed.

Lemma NoDup_seedDatabase_slots tz now : NoDup (windowOf <$> seedDatabase_slots tz now).
Proof.
  apply (NoDup_fmap_1 fst). rewrite <- list_fmap_compose.
  change (fst ∘ windowOf) with startAt.
  rewrite seedDatabase_slots_days.
  apply (NoDup_flat_map_keyed (fun t => Time.localDay tz t - Time.localDay tz now));
    [| |apply NoDup_seqZ].
  - intros d. destruct (_ || _); [constructor|].
    rewrite <- list_fmap_compose. apply NoDup_fmap_2; [|apply NoDup_seqZ].
    intros i j. unfold localWindow. cbn. unfold Time.msPerMinute. lia.
  - intros d x. destruct (_ || _); [by intros ?%elem_of_nil|].
    intros (i & -> & Hi%elem_of_seqZ)%list_elem_of_fmap.
    destruct (localDay_localWindow tz (Time.localDay tz now + d) i) as [Hd _]; [lia|].
    rewrite Hd. lia.
Qed.

(** [seedDatabase] touches no booking and, when the users part failed or a
    slot is already stored, no slot.  On an empty slot collection it stores
    exactly 80 slots, whatever the day and the server's time zone: free
    half-hour windows, no two the same, from 09:00 to 17:00 on the server's
    local clock, of the weekdays among the seven local days from today
    on. *)
Theorem seedDatabase_effect tz usersPart now db :
  let db' := fst (run (seedDatabase tz usersPart now) db) in
  bookings db' = bookings db /\
  (usersPart <> None \/ slots db <> ∅ -> db' = db) /\
  (usersPart = None -> slots db = ∅ ->
   size (slots db') = 80%nat /\
   distinctWindows db' /\
   forall id s, slots db' !! id = Some s ->
     isBooked s = false /\
     endAt s = startAt s + 30 * Time.msPerMinute /\
     0 <= Time.localDay tz (startAt s) - Time.localDay tz now < 7 /\
     Time.getDay tz (startAt s) <> 0 /\ Time.getDay tz (startAt s) <> 6 /\
     exists i, 0 <= i < 16 /\
       (startAt s + tz) mod Time.msPerDay
       = 9 * Time.msPerHour + i * (30 * Time.msPerMinute)).
Proof.
  cbv zeta. rewrite run_seedDatabase.
  destruct (insertMany_lookup (seedDatabase_slots tz now) db)
    as (Hb & Hsize & _ & _ & Honly).
  split; [|split].
  - destruct usersPart; [done|]. by destruct (size (slots db) =? 0)%nat.
  - intros [Hu | Hs]; [by destruct usersPart|].
    destruct usersPart; [done|].
    destruct (size (slots db) =? 0)%nat eqn:Hz; [|done].
    apply Nat.eqb_eq, map_size_empty_iff in Hz. done.
  - intros -> Hempty.
    assert (Hz : (size (slots db) =? 0)%nat = true)
      by (by rewrite Hempty, map_size_empty).
    rewrite Hz. split; [|split].
    + rewrite Hsize, Hempty, map_size_empty, length_seedDatabase_slots. done.
    + apply distinctWindows_insertMany.
      * intros i j s1 s2 H1. by rewrite Hempty, lookup_empty in H1.
      * apply NoDup_seedDatabase_slots.
      * intros s _. apply not_true_iff_false.
        intros (id & x & Hx & _)%windowExists_spec. by rewrite Hempty, lookup_empty in Hx.
    + intros id s Hs. apply Honly in Hs as [Hs | Hs].
      { by rewrite Hempty, lookup_empty in Hs. }
      apply seedDatabase_slots_elem in Hs as (day & i & Hday & Hi & -> & H0 & H6).
      destruct (localDay_localWindow tz (Time.localDay tz now + day) i) as [Hd Hm]; [lia|].
      split; [done|]. split; [done|]. split; [rewrite Hd; lia|].
      split; [done|]. split; [done|]. by exists i.
Qed.

(** ** Generating after seeding *)

Lemma seedDatabase_slots_has tz now day i :
  0 <= day < 7 -> 0 <= i < 16 ->
  Time.getDay tz (startAt (localWindow tz (Time.localDay tz now + day) i)) <> 0 ->
  Time.getDay tz (startAt (localWindow tz (Time.localDay tz now + day) i)) <> 6 ->
  localWindow tz (Time.localDay tz now + day) i ∈ seedDatabase_slots tz now.
Proof.
  intros Hday Hi H0 H6. rewrite seedDatabase_slots_days.
  apply list_elem_of_In, in_flat_map. exists day. split.
  { apply list_elem_of_In, elem_of_seqZ. lia. }
  destruct (localDay_localWindow tz (Time.localDay tz now + day) i) as [Hd _]; [lia|].
  assert (Heq : Time.getDay tz (startAt (localWindow tz (Time.localDay tz now + day) i))
                = (Time.getDay tz (Date_local tz now 9 0) + day) mod 7).
  { unfold Time.getDay at 1. rewrite Hd. unfold Time.getDay.
    pose proof (localDay_seed tz now 0) as H. unfold Time.setDatePlus in H.
    rewrite Z.add_0_r in H. replace (Date_local tz now 9 0 + 0 * Time.msPerDay)
      with (Date_local tz now 9 0) in H by lia.
    rewrite H, Zplus_mod_idemp_l. f_equal. lia. }
  rewrite Heq in H0, H6.
  apply Z.eqb_neq in H0, H6. rewrite H0, H6. cbn [orb].
  apply list_elem_of_In, list_elem_of_fmap. exists i. split; [done|].
  apply elem_of_seqZ. lia.
Qed.

Lemma localWindow_utc day i : localWindow 0 day i = Spec.window day i.
Proof. unfold localWindow, Spec.window. cbv zeta. f_equal; lia. Qed.

(** With the server's clock on UTC, the slots [seedDatabase] stores are
    windows [generateSlots] visits too.  A default [generateSlots] on the
    day of the seeding finds six of its seven days already stored and adds
    the slots of the seventh day from tomorrow only: sixteen if that is a
    weekday, none otherwise. *)
Theorem generateSlots_after_seeding now now' db :
  slots db = ∅ ->
  Time.utcDay now' = Time.utcDay now ->
  let seeded := fst (run (seedDatabase 0 None now) db) in
  exists fromDate toDate,
    snd (exec (generateSlots 0 None now') seeded)
    = SlotsGenerated (if Spec.isWeekend (Time.utcDay now + 7) then 0 else 16)
        fromDate toDate.
Proof.
  intros Hempty Hday seeded. subst seeded. rewrite run_seedDatabase.
  assert (Hz : (size (slots db) =? 0)%nat = true) by (by rewrite Hempty, map_size_empty).
  rewrite Hz. set (seeded := fst (Slot_insertMany (seedDatabase_slots 0 now) db)).
  rewrite exec_generateSlots.
  change (default 7 None) with 7. change ((7 <? 1) || (30 <? 7)) with false. cbn [snd].
  eexists _, _. f_equal.
  destruct (insertMany_lookup (seedDatabase_slots 0 now) db) as (_ & _ & _ & Hnew & Honly).
  fold seeded in Hnew, Honly.
  assert (HL : Time.localDay 0 now = Time.utcDay now).
  { unfold Time.localDay, Time.utcDay. by rewrite Z.add_0_r. }
  assert (Hex : forall d i, 0 <= d < 7 -> 0 <= i < 16 ->
            Spec.isWeekend (Time.utcDay now + 1 + d) = false ->
            windowExists seeded (Spec.window (Time.utcDay now + 1 + d) i)
            = bool_decide (d < 6)).
  { intros d i Hd Hi Hwe. unfold Spec.isWeekend in Hwe.
    apply orb_false_iff in Hwe as [H0 H6]. apply Z.eqb_neq in H0, H6.
    destruct (decide (d < 6)) as [Hlt | Hge].
    - rewrite bool_decide_eq_true_2 by done. apply windowExists_spec.
      destruct (Hnew (localWindow 0 (Time.localDay 0 now + (d + 1)) i)) as [id Hid].
      { destruct (localDay_localWindow 0 (Time.localDay 0 now + (d + 1)) i) as [Hd' _];
          [lia|].
        apply seedDatabase_slots_has; [lia|lia| |];
          unfold Time.getDay; rewrite Hd', HL;
          replace (Time.utcDay now + (d + 1)) with (Time.utcDay now + 1 + d) by lia; done. }
      exists id, (localWindow 0 (Time.localDay 0 now + (d + 1)) i). split; [done|].
      rewrite localWindow_utc, HL.
      by replace (Time.utcDay now + (d + 1)) with (Time.utcDay now + 1 + d) by lia.
    - rewrite bool_decide_eq_false_2 by done. apply not_true_iff_false.
      intros (id & x & Hx & H1 & _)%windowExists_spec.
      apply Honly in Hx as [Hx | Hx]; [by rewrite Hempty, lookup_empty in Hx|].
      apply seedDatabase_slots_elem in Hx as (day & j & Hday' & Hj & -> & _).
      rewrite localWindow_utc, HL in H1.
      apply (f_equal Time.utcDay) in H1.
      rewrite !utcDay_window in H1 by lia. lia. }
  unfold generateSlots_docs.
  set (t := Time.setUTCDatePlus now' 1).
  assert (Ht : Time.utcDay t = Time.utcDay now + 1).
  { unfold t, Time.setUTCDatePlus, Time.utcDay.
    rewrite Z.div_add by (unfold Time.msPerDay; lia). unfold Time.utcDay in Hday. lia. }
  rewrite generateSlots_visits_days, filter_flat_map.
  assert (Hblock : forall d, 0 <= d < 7 ->
            List.filter (fun s => negb (windowExists seeded s))
              (if (Time.getDay 0 (Time.setDatePlus (Time.utcAt t 9 0 0) d) =? 0)
                  || (Time.getDay 0 (Time.setDatePlus (Time.utcAt t 9 0 0) d) =? 6)
               then [] else Spec.daySlots (Time.utcDay t + d))
            = if bool_decide (d < 6) then []
              else if Spec.isWeekend (Time.utcDay now + 7) then []
                   else Spec.daySlots (Time.utcDay now + 7)).
  { intros d Hd.
    assert (Hg : Time.getDay 0 (Time.setDatePlus (Time.utcAt t 9 0 0) d)
                 = (Time.utcDay now + 1 + d + 4) mod 7).
    { unfold Time.getDay. rewrite localDay_morning by (unfold Time.msPerHour; lia).
      by rewrite Ht. }
    rewrite Hg, Ht.
    change (((Time.utcDay now + 1 + d + 4) mod 7 =? 0)
            || ((Time.utcDay now + 1 + d + 4) mod 7 =? 6))
      with (Spec.isWeekend (Time.utcDay now + 1 + d)).
    destruct (decide (d < 6)) as [Hlt | Hge].
    - rewrite bool_decide_eq_true_2 by done.
      destruct (Spec.isWeekend (Time.utcDay now + 1 + d)) eqn:Hwe; [done|].
      apply filter_none. intros s Hs. unfold Spec.daySlots in Hs.
      apply in_map_iff in Hs as (i & <- & Hi%list_elem_of_In%elem_of_seqZ).
      rewrite Hex by (done || lia). by rewrite bool_decide_eq_true_2.
    - rewrite bool_decide_eq_false_2 by done. assert (d = 6) as -> by lia.
      replace (Time.utcDay now + 1 + 6) with (Time.utcDay now + 7) by lia.
      destruct (Spec.isWeekend (Time.utcDay now + 7)) eqn:Hwe; [done|].
      apply filter_all. intros s Hs. unfold Spec.daySlots in Hs.
      apply in_map_iff in Hs as (i & <- & Hi%list_elem_of_In%elem_of_seqZ).
      replace (Time.utcDay now + 7) with (Time.utcDay now + 1 + 6) by lia.
      rewrite Hex; [done|lia|lia|].
      by replace (Time.utcDay now + 1 + 6) with (Time.utcDay now + 7) by lia. }
  assert (seqZ 0 7 = [0; 1; 2; 3; 4; 5; 6]) as -> by reflexivity.
  cbn [flat_map]. rewrite !Hblock by lia.
  rewrite !bool_decide_eq_true_2 by lia. rewrite bool_decide_eq_false_2 by lia.
  cbn [app]. rewrite app_nil_r.
  by destruct (Spec.isWeekend (Time.utcDay now + 7)).
Qed.

Lemma generateSlots_after_seeding_witness :
  exists fromDate toDate,
    snd (exec (generateSlots 0 None (Runs.clock 60))
              (fst (run (seedDatabase 0 None (Runs.clock 0)) emptyDb)))
    = SlotsGenerated 16 fromDate toDate.
Proof.
  apply (generateSlots_after_seeding (Runs.clock 0) (Runs.clock 60) emptyDb);
    reflexivity.
Defined.

(** ** Instances of the invariants *)

Lemma servedCleanly_flagInSync_witness :
  flagInSync (fst (exec (handle IsoDate.parse 0 (Book Examples.P1 (Some Runs.slot0))
                           (Runs.clock 1))
                        (fst (exec (handle IsoDate.parse 0 (Generate Runs.A1 (Some 3))
                                      (Runs.clock 0)) emptyDb)))).
Proof.
  apply (servedCleanly_flagInSync IsoDate.parse 0).
  apply clean_step; [apply clean_step; [apply clean_empty|]|];
    intros user str bid b Hr; discriminate Hr.
Defined.

Lemma completed_never_arises_witness :
  exists b, bookings (serve IsoDate.parse 0 Runs.staleCancel emptyDb) !! 0%N = Some b /\
            status b <> completed.
Proof.
  eexists. split; [vm_compute; reflexivity|].
  apply (completed_never_arises IsoDate.parse 0
           (serve IsoDate.parse 0 Runs.staleCancel emptyDb) 0%N).
  - by exists Runs.staleCancel.
  - vm_compute. reflexivity.
Defined.

(** ** After a slot is removed *)

Lemma slotGone_insert s db sid :
  slotGone db sid -> slotGone (fst (Slot_insert s db)) sid.
Proof.
  intros [Hr Hs]. split; [done|]. cbn.
  rewrite lookup_insert_ne; [done|]. intros Heq.
  apply (newSlotId_not_retired db). by rewrite Heq.
Qed.

Lemma slotGone_insertMany docs db sid :
  slotGone db sid -> slotGone (fst (Slot_insertMany docs db)) sid.
Proof.
  unfold Slot_insertMany. cbn [fst]. revert db.
  induction docs as [|s docs IH]; intros db Hgone; cbn [fold_left]; [done|].
  by apply IH, slotGone_insert.
Qed.

Lemma retired_after_book db user slotStr now :
  retired (fst (exec (POST_book user slotStr now) db)) = retired db.
Proof.
  unfold POST_book, requirePatient. rewrite exec_requireRole.
  destruct (bool_decide _); [|done]. rewrite exec_bookSlot.
  unfold bookSlot_alone, bookOutcome. cbn [body_slotId bookSlotValidation].
  destruct slotStr as [str|]; [|done].
  destruct (String.eqb str ""); [done|].
  destruct (ObjectId.cast str) as [sid0|]; [|done].
  destruct (slots db !! sid0) as [slot|]; [|done].
  destruct (isBooked slot); [done|].
  destruct (startAt slot <? now); [done|].
  destruct (hasOverlap _ _ _); [done|].
  by destruct (endAt slot <=? startAt slot).
Qed.

Lemma retired_after_cancel db user str now :
  retired (fst (exec (PATCH_cancel user str now) db)) = retired db.
Proof.
  unfold PATCH_cancel. rewrite exec_cancelBooking. unfold cancelBooking_alone.
  destruct (ObjectId.cast str) as [bid|]; [|done].
  destruct (bookings db !! bid) as [b|]; [|done].
  destruct (negb _ && negb _); [done|].
  destruct (slots db !! slotId b) as [slot|]; [|done].
  by destruct (startAt slot <? now).
Qed.

(** No request brings a removed slot back: its identifier is never issued
    again. *)
Lemma slotGone_handle Date_parse tz r now db sid :
  slotGone db sid -> slotGone (fst (exec (handle Date_parse tz r now) db)) sid.
Proof.
  intros [Hr Hs].
  assert (Hsame : forall db',
            retired db' = retired db ->
            (forall x, windowOf <$> slots db' !! x = windowOf <$> slots db !! x) ->
            slotGone db' sid).
  { intros db' Hret Hw. split; [by rewrite Hret|].
    specialize (Hw sid). rewrite Hs in Hw. by destruct (slots db' !! sid). }
  destruct r as [user slotStr | user str | user days | user s0 e0 | user str
                | user from to includeBooked | user from to]; cbn [handle].
  - apply Hsame; [apply retired_after_book|]. intros x. apply slots_after_book.
  - apply Hsame; [apply retired_after_cancel|]. intros x. apply slots_after_cancel.
  - unfold requireAdmin. rewrite exec_requireRole. destruct (bool_decide _); [|done].
    rewrite exec_generateSlots. destruct (_ || _); [done|]. cbn [fst].
    by apply slotGone_insertMany.
  - unfold requireAdmin. rewrite exec_requireRole. destruct (bool_decide _); [|done].
    rewrite exec_addSlot. destruct (_ || _); [done|].
    destruct (Date_parse (default "" s0)) as [sd|]; [|done].
    destruct (Date_parse (default "" e0)) as [ed|]; [|done].
    destruct (ed <=? sd); [done|].
    destruct (windowExists db (mkSlot sd ed false)); [done|]. cbn [fst].
    by apply (slotGone_insert (mkSlot sd ed false) db sid).
  - unfold requireAdmin. rewrite exec_requireRole. destruct (bool_decide _); [|done].
    rewrite exec_removeSlot. destruct (ObjectId.cast str) as [sid'|]; [|done].
    destruct (slots db !! sid') as [slot|]; [|done].
    destruct (isBooked slot); [done|]. cbn [fst]. split; cbn.
    + by apply elem_of_union_r.
    + destruct (decide (sid' = sid)) as [->|Hne];
        [apply lookup_delete_eq|by rewrite lookup_delete_ne].
  - by rewrite exec_getAvailableSlots_reads.
  - unfold requireAdmin. rewrite exec_requireRole. destruct (bool_decide _); [|done].
    by rewrite exec_getAllSlots_reads.
Qed.

Lemma slotGone_serve Date_parse tz later db sid :
  slotGone db sid -> slotGone (serve Date_parse tz later db) sid.
Proof.
  unfold serve. revert db. induction later as [|[r now] later IH]; intros db Hgone; [done|].
  cbn [fold_left fst snd]. by apply IH, slotGone_handle.
Qed.

(** Requests leave every booking in the store, with its user and slot. *)
Lemma booking_kept_serve Date_parse tz later db bid b :
  bookings db !! bid = Some b ->
  exists b', bookings (serve Date_parse tz later db) !! bid = Some b' /\
             userId b' = userId b /\ slotId b' = slotId b.
Proof.
  unfold serve. revert db b. induction later as [|[r now] later IH]; intros db b Hb.
  - by exists b.
  - cbn [fold_left fst snd].
    destruct (status_changes_only_by_cancel Date_parse tz r now db bid b Hb)
      as (b1 & Hb1 & Hu1 & Hs1 & _).
    destruct (IH _ b1 Hb1) as (b' & Hb' & Hu & Hs).
    exists b'. split; [done|]. split; congruence.
Qed.

(** One booking of the caller whose slot is not stored is enough for
    [getMyBookings] to answer 500. *)
Lemma getMyBookings_orphan db user bid b :
  bookings db !! bid = Some b -> userId b = user_id user ->
  slots db !! slotId b = None ->
  run (getMyBookings user) db = (db, inr (ListingError 500 "GET_BOOKINGS_ERROR")).
Proof.
  intros Hb Hu Hs. rewrite run_getMyBookings.
  destruct (mapM formatBooking _) as [views|] eqn:Hm; [|done].
  assert (Hnone : mapM formatBooking
            (snd (Slot_populate
                    (snd (Booking_findSorted (fun b0 => (userId b0 =? user_id user)%N) db)) db))
          = None); [|congruence].
  apply mapM_None, Exists_exists. exists ((bid, b), None). split; [|done].
  cbn [Slot_populate snd]. apply list_elem_of_fmap. exists (bid, b). split.
  - cbn. by rewrite Hs.
  - apply (findSorted_spec (fun b0 => (userId b0 =? user_id user)%N) db).
    split; [done|]. by apply N.eqb_eq.
Qed.

(** A slot whose flag is clear can be removed while bookings still
    reference it (a cancelled one, say).  From then on, whatever requests
    are served afterwards, the listing of their owner's bookings answers
    500: the bookings stay, and the removed slot's identifier is never
    given to another slot. *)
Theorem removed_slot_breaks_listing Date_parse tz adm str now db sid slot bid b later :
  role adm = admin ->
  ObjectId.cast str = Some sid ->
  slots db !! sid = Some slot -> isBooked slot = false ->
  bookings db !! bid = Some b -> slotId b = sid ->
  let removed := fst (exec (handle Date_parse tz (RemoveSlot adm str) now) db) in
  let db' := serve Date_parse tz later removed in
  snd (exec (handle Date_parse tz (RemoveSlot adm str) now) db) = SlotRemoved /\
  run (getMyBookings (mkUser (userId b) patient)) db'
    = (db', inr (ListingError 500 "GET_BOOKINGS_ERROR")).
Proof.
  intros Hrole Hc Hs Hflag Hb Hsid removed db'.
  assert (Hexec : exec (handle Date_parse tz (RemoveSlot adm str) now) db
                  = (mkDb (delete sid (slots db)) (bookings db) ({[sid]} ∪ retired db),
                     SlotRemoved)).
  { cbn [handle]. unfold requireAdmin. rewrite exec_requireRole.
    rewrite bool_decide_eq_true_2 by (rewrite Hrole; by apply list_elem_of_singleton).
    by rewrite exec_removeSlot, Hc, Hs, Hflag. }
  split; [by rewrite Hexec|].
  assert (Hgone : slotGone removed sid).
  { unfold removed. rewrite Hexec. split; cbn.
    - apply elem_of_union_l. by apply elem_of_singleton.
    - apply lookup_delete_eq. }
  assert (Hkept : bookings removed !! bid = Some b).
  { unfold removed. by rewrite Hexec. }
  destruct (booking_kept_serve Date_parse tz later removed bid b Hkept)
    as (b' & Hb' & Hu & Hsl).
  destruct (slotGone_serve Date_parse tz later removed sid Hgone) as [_ Hnone].
  apply (getMyBookings_orphan db' (mkUser (userId b) patient) bid b' Hb').
  - done.
  - by rewrite Hsl, Hsid.
Qed.

(** P1 books the slot and cancels; the admin removes the slot and adds
    another one; P1's listing still fails. *)
Lemma removed_slot_breaks_listing_witness :
  let db := fst (exec (PATCH_cancel Examples.P1 Examples.booking0 Examples.earlier)
                  (fst (exec (POST_book Examples.P1 (Some Examples.slotA) Examples.earlier)
                          Examples.oneFreeSlot))) in
  let later := [(AddSlot Runs.A1 (Some "2025-08-26") (Some "2025-08-27"), Runs.clock 1)] in
  let removed := fst (exec (handle IsoDate.parse 0 (RemoveSlot Runs.A1 Examples.slotA)
                              Examples.earlier) db) in
  let db' := serve IsoDate.parse 0 later removed in
  size (slots db') = 1%nat /\
  snd (exec (handle IsoDate.parse 0 (RemoveSlot Runs.A1 Examples.slotA) Examples.earlier) db)
    = SlotRemoved /\
  run (getMyBookings (mkUser 101 patient)) db'
    = (db', inr (ListingError 500 "GET_BOOKINGS_ERROR")).
Proof.
  intros db later removed db'. split; [vm_compute; reflexivity|].
  apply (removed_slot_breaks_listing IsoDate.parse 0 Runs.A1 Examples.slotA Examples.earlier
           db 1 (mkSlot Examples.t0900 Examples.t0930 false) 0
           (mkBooking 101 1 cancelled Examples.earlier) later).
  - reflexivity.
  - reflexivity.
  - vm_compute. reflexivity.
  - reflexivity.
  - vm_compute. reflexivity.
  - reflexivity.
Defined.

(** ** [Time.utcAt] and [Date.UTC] *)

Lemma eraDay_bounds doe :
  0 <= doe < 146097 ->
  let yoe := (doe - doe / 1460 + doe / 36524 - doe / 146096) / 365 in
  let doy := doe - (365 * yoe + yoe / 4 - yoe / 100) in
  0 <= yoe <= 399 /\ 0 <= doy <= 365.
Proof. intros H yoe doy. subst yoe doy. Z.div_mod_to_equations. lia. Qed.

(** The day number of the calendar fields of a day is that day. *)
Lemma daysFromCivil_civilFromDays z :
  let '(y, m, d) := Calendar.civilFromDays z in IsoDate.daysFromCivil y m d = z.
Proof.
  unfold Calendar.civilFromDays. cbv zeta.
  set (era := (z + 719468) / 146097).
  set (doe := z + 719468 - era * 146097).
  assert (Hdoe : 0 <= doe < 146097).
  { unfold doe, era. Z.div_mod_to_equations. lia. }
  pose proof (eraDay_bounds doe Hdoe) as Hok. cbv zeta in Hok.
  set (yoe := (doe - doe / 1460 + doe / 36524 - doe / 146096) / 365) in *.
  set (doy := doe - (365 * yoe + yoe / 4 - yoe / 100)) in *.
  destruct Hok as [Hyoe Hdoy].
  set (mp := (5 * doy + 2) / 153).
  assert (Hmp : 0 <= mp <= 11).
  { unfold mp. clearbody doy. Z.div_mod_to_equations. lia. }
  assert (Hera : (yoe + era * 400) / 400 = era).
  { symmetry. apply (Z.div_unique_pos _ _ _ yoe); lia. }
  unfold IsoDate.daysFromCivil.
  destruct (mp <? 10) eqn:Hlt.
  - apply Z.ltb_lt in Hlt.
    replace (mp + 3 <=? 2) with false by lia.
    replace ((mp + 3 + 9) mod 12) with mp
      by (apply (Z.mod_unique_pos _ _ 1); lia).
    rewrite Hera. replace (yoe + era * 400 - era * 400) with yoe by lia.
    unfold doy, doe. lia.
  - apply Z.ltb_ge in Hlt.
    replace (mp - 9 <=? 2) with true by lia.
    replace ((mp - 9 + 9) mod 12) with mp
      by (apply (Z.mod_unique_pos _ _ 0); lia).
    replace (yoe + era * 400 + 1 - 1) with (yoe + era * 400) by lia.
    rewrite Hera. replace (yoe + era * 400 - era * 400) with yoe by lia.
    unfold doy, doe. lia.
Qed.

(** Off the years 0 to 99, [Time.utcAt] is
    [Date.UTC(d.getUTCFullYear(), d.getUTCMonth(), d.getUTCDate(), h, m, s)]. *)
Lemma utcAt_Date_UTC d h m s :
  ~ (0 <= Calendar.getUTCFullYear d <= 99) ->
  Time.utcAt d h m s
  = Calendar.Date_UTC (Calendar.getUTCFullYear d) (Calendar.getUTCMonth d)
      (Calendar.getUTCDate d) h m s.
Proof.
  intros Hyear. unfold Calendar.Date_UTC, Time.utcAt.
  replace ((0 <=? Calendar.getUTCFullYear d) && (Calendar.getUTCFullYear d <=? 99))
    with false by lia.
  unfold Calendar.getUTCFullYear, Calendar.getUTCMonth, Calendar.getUTCDate.
  pose proof (daysFromCivil_civilFromDays (Time.utcDay d)) as Hrt.
  destruct (Calendar.civilFromDays (Time.utcDay d)) as [[y mo] da]. cbn [fst snd].
  replace (mo - 1 + 1) with mo by lia. by rewrite Hrt.
Qed.

(** Every instant from the year 100 on lies off those years; so does the
    server's clock. *)
Lemma getUTCFullYear_from_100 t :
  IsoDate.daysFromCivil 100 1 1 * Time.msPerDay <= t -> 100 <= Calendar.getUTCFullYear t.
Proof.
  intros Ht. unfold Calendar.getUTCFullYear, Calendar.civilFromDays. cbv zeta. cbn [fst].
  assert (Hday : -683003 <= Time.utcDay t).
  { unfold Time.utcDay. apply Z.div_le_lower_bound; [unfold Time.msPerDay; lia|].
    change (IsoDate.daysFromCivil 100 1 1) with (-683003) in Ht.
    unfold Time.msPerDay in *. lia. }
  generalize dependent (Time.utcDay t). clear Ht. intros z Hz.
  set (era := (z + 719468) / 146097).
  set (doe := z + 719468 - era * 146097).
  assert (Hera : 0 <= era) by (unfold era; apply Z.div_pos; lia).
  assert (Hdoe : 0 <= doe < 146097).
  { unfold doe, era. Z.div_mod_to_equations. lia. }
  pose proof (eraDay_bounds doe Hdoe) as Hok. cbv zeta in Hok.
  set (yoe := (doe - doe / 1460 + doe / 36524 - doe / 146096) / 365) in *.
  set (doy := doe - (365 * yoe + yoe / 4 - yoe / 100)) in *.
  destruct Hok as [Hyoe Hdoy].
  destruct (decide (1 <= era)) as [H1 | H0].
  { destruct (_ <=? 2); lia. }
  assert (era = 0) as Hz0 by lia.
  assert (Hd : 36465 <= doe) by (unfold doe; lia).
  assert (Hy : 99 <= yoe).
  { unfold yoe. clearbody doe. Z.div_mod_to_equations. lia. }
  destruct (decide (100 <= yoe)) as [H100 | H99].
  { destruct (_ <=? 2); lia. }
  assert (yoe = 99) as Hy99 by lia.
  assert (Hdoy' : 306 <= doy).
  { unfold doy. rewrite Hy99. change (99 / 4) with 24. change (99 / 100) with 0. lia. }
  assert (Hmp : 10 <= (5 * doy + 2) / 153).
  { apply Z.div_le_lower_bound; lia. }
  destruct ((5 * doy + 2) / 153 <? 10) eqn:Hlt; [apply Z.ltb_lt in Hlt; lia|].
  replace ((5 * doy + 2) / 153 - 9 <=? 2) with true.
  - lia.
  - symmetry. apply Z.leb_le.
    assert ((5 * doy + 2) / 153 <= 11); [|lia].
    clearbody doy. Z.div_mod_to_equations. lia.
Qed.

(** A two-digit year is where they part: [Date.UTC] reads the year 50 as
    1950. *)
Example utcAt_two_digit_year :
  let d := IsoDate.daysFromCivil 50 1 1 * Time.msPerDay in
  (Calendar.getUTCFullYear d = 50) /\
  (Calendar.getUTCFullYear Examples.earlier = 2025) /\
  (Calendar.Date_UTC 50 0 1 0 0 0 = IsoDate.daysFromCivil 1950 1 1 * Time.msPerDay) /\
  (Time.utcAt d 0 0 0 = d) /\
  (Time.utcAt d 0 0 0 <> Calendar.Date_UTC 50 0 1 0 0 0).
Proof.
  cbv zeta. split; [reflexivity|]. split; [reflexivity|]. split; [reflexivity|].
  split; [reflexivity|]. vm_compute. discriminate.
Qed.
